(** * WasmCSVision

    A shallow embedding of the web front end of the CSV analyser
    ([src/index.js]) and of the analysis engine it drives.

    - JavaScript strings are sequences of UTF-16 code units ([list N]).
    - JavaScript numbers are IEEE 754 binary64 values (Rocq's primitive
      [float]); the counts of a report are non-negative integers ([N]).
    - The page is a record of the DOM properties the handlers read and
      write, the two WebAssembly classes are objects in a store, and every
      event listener is a function from page state to page state. *)

From Stdlib Require Import ZArith NArith List String Ascii Lia.
From Stdlib Require Import PrimFloat FloatOps SpecFloat.
From Stdlib Require DecimalN DecimalPos.
From stdpp Require Import base option list gmap.
Import ListNotations.

#[local] Open Scope list_scope.

(** ** Strings *)

(** A JavaScript string: its UTF-16 code units. *)
Abbreviation jsstring := (list N) (only parsing).

(** The literals of the source are written as they stand there; the file
    being UTF-8, a literal is decoded from its bytes to code units (every
    character of the source's literals is in the Basic Multilingual Plane,
    that is at most three bytes). *)
Fixpoint utf16 (bytes : list N) : jsstring :=
  match bytes with
  | [] => []
  | b :: rest =>
      if (b <? 128)%N then b :: utf16 rest
      else if (b <? 224)%N then
        match rest with
        | c :: rest' => ((b - 192) * 64 + (c - 128))%N :: utf16 rest'
        | [] => []
        end
      else
        match rest with
        | c :: d :: rest' =>
            ((b - 224) * 4096 + (c - 128) * 64 + (d - 128))%N :: utf16 rest'
        | _ => []
        end
  end.

Definition lit (s : string) : jsstring :=
  utf16 (map N_of_ascii (list_ascii_of_string s)).

(** The double quote, which a literal of this file cannot hold. *)
Definition dq : jsstring := [34%N].

(** The line feed ["\n"], the semicolon and the byte-order mark U+FEFF. *)
Definition LF : N := 10%N.
Definition SEMI : N := 59%N.
Definition BOM : N := 65279%N.

(** [Array.prototype.join] over an array whose elements are already
    strings: the separator stands between consecutive elements only. *)
Fixpoint join (sep : jsstring) (parts : list jsstring) : jsstring :=
  match parts with
  | [] => []
  | p :: rest =>
      match rest with
      | [] => p
      | _ :: _ => p ++ sep ++ join sep rest
      end
  end.

(** [String.prototype.split] on a one-unit separator: the pieces between
    the occurrences of [sep] (one piece more than occurrences). *)
Fixpoint split_on (sep : N) (s : jsstring) : list jsstring :=
  match s with
  | [] => [[]]
  | c :: rest =>
      if (c =? sep)%N then [] :: split_on sep rest
      else
        match split_on sep rest with
        | piece :: pieces => (c :: piece) :: pieces
        | [] => [[c]]
        end
  end.

(** ** Numbers *)

Fixpoint uint_units (d : Decimal.uint) : jsstring :=
  match d with
  | Decimal.Nil => []
  | Decimal.D0 d => 48%N :: uint_units d
  | Decimal.D1 d => 49%N :: uint_units d
  | Decimal.D2 d => 50%N :: uint_units d
  | Decimal.D3 d => 51%N :: uint_units d
  | Decimal.D4 d => 52%N :: uint_units d
  | Decimal.D5 d => 53%N :: uint_units d
  | Decimal.D6 d => 54%N :: uint_units d
  | Decimal.D7 d => 55%N :: uint_units d
  | Decimal.D8 d => 56%N :: uint_units d
  | Decimal.D9 d => 57%N :: uint_units d
  end.

(** [String(n)] for a count [n]: its decimal digits. The counts of a report
    are [usize] values of the 32-bit WebAssembly engine, which a Number holds
    exactly and prints in plain decimal. *)
Definition countToString (n : N) : jsstring := uint_units (N.to_uint n).

(** The Number that holds a count. *)
Definition countToNumber (n : N) : float :=
  SF2Prim (binary_normalize prec emax (Z.of_N n) 0 false).

Definition digitsZ (z : Z) : jsstring := countToString (Z.to_N z).

(** [Number.prototype.toFixed], step by step as ECMAScript gives it.

    [roundScaled m e f] is the integer [n] for which [n / 10^f - m * 2^e] is
    as close to zero as possible, the larger one when there are two. *)
Definition roundScaled (m : positive) (e : Z) (f : nat) : Z :=
  let num := (Z.pos m * 10 ^ Z.of_nat f)%Z in
  if (0 <=? e)%Z then (num * 2 ^ e)%Z
  else let d := (2 ^ (- e))%Z in ((2 * num + d) / (2 * d))%Z.

(** The digits of [n] with [f] of them after the point, padded with zeros
    on the left up to [f + 1] digits. *)
Definition fixedDigits (n : Z) (f : nat) : jsstring :=
  let m := digitsZ n in
  match f with
  | O => m
  | S _ =>
      let m := if (length m <=? f)%nat then repeat 48%N (f + 1 - length m) ++ m else m in
      let k := length m in
      firstn (k - f) m ++ [46%N] ++ skipn (k - f) m
  end.

(** [m * 2^e >= 10^21] *)
Definition atLeast1e21 (m : positive) (e : Z) : bool :=
  if (0 <=? e)%Z then (10 ^ 21 <=? Z.pos m * 2 ^ e)%Z
  else (10 ^ 21 * 2 ^ (- e) <=? Z.pos m)%Z.

(** [Number::toString] of a finite [x = m * 2^e >= 10^21] (so [e > 0]): the
    fewest digits [s] (at most 17) such that [s * 10^(n-k)] rounds to [x],
    the closest such value, printed in exponent notation. [4 * c] is
    compared with four times the midpoints between [x] and its two
    neighbours, which belong to [x] when its significand is even. *)
Definition roundsTo (m : positive) (e : Z) (c : Z) : bool :=
  let v4 := (4 * (Z.pos m * 2 ^ e))%Z in
  let hi4 := (v4 + 2 ^ (e + 1))%Z in
  let lo4 := (v4 - (if (Z.pos m =? 2 ^ 52)%Z then 2 ^ e else 2 ^ (e + 1)))%Z in
  ((lo4 <? 4 * c)%Z && (4 * c <? hi4)%Z)
  || (Z.even (Z.pos m) && ((4 * c =? lo4)%Z || (4 * c =? hi4)%Z)).

Fixpoint shortestFrom (m : positive) (e : Z) (nd : nat) (k fuel : nat) : Z :=
  let v := (Z.pos m * 2 ^ e)%Z in
  match fuel with
  | O => v
  | S fuel' =>
      let p := (10 ^ Z.of_nat (nd - k))%Z in
      let c1 := (v / p * p)%Z in
      let c2 := (c1 + p)%Z in
      let ok1 := roundsTo m e c1 in
      let ok2 := roundsTo m e c2 in
      let lowerCloser :=
        match (v - c1 ?= c2 - v)%Z with
        | Lt => true
        | Eq => Z.even (v / p)
        | Gt => false
        end in
      if ok1 && (negb ok2 || lowerCloser) then c1
      else if ok2 then c2
      else shortestFrom m e nd (S k) fuel'
  end.

Fixpoint stripZeros (rev_digits : jsstring) : jsstring :=
  match rev_digits with
  | 48%N :: rest => stripZeros rest
  | _ => rev_digits
  end.

Definition exponential (m : positive) (e : Z) : jsstring :=
  let v := (Z.pos m * 2 ^ e)%Z in
  let c := shortestFrom m e (length (digitsZ v)) 1 17 in
  let ds := digitsZ c in
  let s := rev (stripZeros (rev ds)) in
  let expo := lit "e+" ++ countToString (N.of_nat (length ds - 1)) in
  match s with
  | [] => expo
  | [d] => d :: expo
  | d :: more => d :: 46%N :: more ++ expo
  end.

Definition toFixed (x : float) (f : nat) : jsstring :=
  match Prim2SF x with
  | S754_nan => lit "NaN"
  | S754_infinity false => lit "Infinity"
  | S754_infinity true => lit "-Infinity"
  | S754_zero _ => fixedDigits 0 f
  | S754_finite s m e =>
      (if s then lit "-" else [])
      ++ (if atLeast1e21 m e then exponential m e
          else fixedDigits (roundScaled m e f) f)
  end.

(** ** The report

    The object [analyzer.analyze] returns, with the properties [index.js]
    reads and the types the data model of the engine gives them: texts,
    counts, a confidence that is a Number, and extrema that are absent
    ([null] or [undefined]) when a column has no non-null value. *)

Record TypeDetails := {
  confidence : float;
  subtypes : list jsstring;
  format_examples : list jsstring
}.

Record ColumnReport := {
  name : jsstring;
  type_name : jsstring;
  type_details : TypeDetails;
  total_count : N;
  analyzed_count : N;
  unique_values : N;
  null_count : N;
  min_value : option jsstring;
  max_value : option jsstring;
  min_length : N;
  max_length : N
}.

Record AnalysisReport := {
  row_count : N;
  column_count : N;
  sample_size : option N;
  columns : list ColumnReport
}.

(** ** Formatting helpers of [index.js] *)

(** [v || d] for a [v] that is a string, [null] or [undefined]: the empty
    string is falsy like the two absent values. *)
Definition or_else (v : option jsstring) (d : jsstring) : jsstring :=
  match v with
  | Some (c :: s) => c :: s
  | _ => d
  end.

(** The own properties of the object literal [labels]. (A key that
    [Object.prototype] defines, such as [constructor], is no type name of
    the engine and is left out.) *)
Definition labels : list (jsstring * jsstring) :=
  [ (lit "integer", lit "Entier");
    (lit "float", lit "Décimal");
    (lit "boolean", lit "Booléen");
    (lit "date", lit "Date");
    (lit "datetime", lit "Date et heure");
    (lit "time", lit "Heure");
    (lit "email", lit "Email");
    (lit "url", lit "URL");
    (lit "ip", lit "Adresse IP");
    (lit "string", lit "Texte");
    (lit "null", lit "Nul") ].

Fixpoint property (o : list (jsstring * jsstring)) (key : jsstring) : option jsstring :=
  match o with
  | [] => None
  | (k, v) :: o' => if decide (k = key) then Some v else property o' key
  end.

(** [labels[type] || type] *)
Definition getTypeLabel (type : jsstring) : jsstring :=
  or_else (property labels type) type.

(** [(confidence * 100).toFixed(1) + '%'] *)
Definition formatConfidence (confidence : float) : jsstring :=
  toFixed (confidence * 100)%float 1 ++ lit "%".

(** The two counts are compared by [===], which on two counts is their
    equality; the division and the product are those of Numbers. *)
Definition formatAnalyzedValues (analyzed total : N) : jsstring :=
  if (analyzed =? total)%N then countToString analyzed ++ lit " (100%)"
  else
    let percentage :=
      toFixed (countToNumber analyzed / countToNumber total * 100)%float 1 in
    countToString analyzed ++ lit " (" ++ percentage ++ lit "%)".

(** ** [exportToCSV] *)

(** An element of the array a row is joined from: a string or a count. *)
Inductive jsval :=
  | JString (s : jsstring)
  | JCount (n : N).

(** [ToString], as [join] applies it to each element. *)
Definition toString (v : jsval) : jsstring :=
  match v with
  | JString s => s
  | JCount n => countToString n
  end.

Definition headerFields : list jsstring :=
  [ lit "Colonne";
    lit "Type";
    lit "Confiance";
    lit "Valeurs analysées";
    lit "Sous-types";
    lit "Exemples";
    lit "Valeurs totales";
    lit "Valeurs uniques";
    lit "Valeurs nulles";
    lit "Min";
    lit "Max";
    lit "Longueur Min";
    lit "Longueur Max" ].

(** [headers]: the array literal joined by [';']. *)
Definition headers : jsstring := join (lit ";") headerFields.

(** The array literal of one row, in the arrow function given to
    [analysis.columns.map]. *)
Definition rowFields (stats : ColumnReport) : list jsval :=
  [ JString (name stats);
    JString (getTypeLabel (type_name stats));
    JString (formatConfidence (confidence (type_details stats)));
    JString (formatAnalyzedValues (analyzed_count stats) (total_count stats));
    JString (join (lit ", ") (map getTypeLabel (subtypes (type_details stats))));
    JString (join (lit ", ") (format_examples (type_details stats)));
    JCount (total_count stats);
    JCount (unique_values stats);
    JCount (null_count stats);
    JString (or_else (min_value stats) []);
    JString (or_else (max_value stats) []);
    JCount (min_length stats);
    JCount (max_length stats) ].

Definition exportRow (stats : ColumnReport) : jsstring :=
  join (lit ";") (map toString (rowFields stats)).

(** ['\ufeff' + [headers, ...rows].join('\n')] *)
Definition exportToCSV (analysis : AnalysisReport) : jsstring :=
  BOM :: join [LF] (headers :: map exportRow (columns analysis)).

(** ** [displayResults] *)

(** The three texts of the summary that come from the clock and the size of
    the file ([formatExecutionTime], [formatFileSize]): they depend on
    [performance.now()] and [Math.log], and are taken as given. *)
Record RunInfo := {
  executionTime : jsstring;
  fileSizeText : jsstring;
  speedText : jsstring
}.

(** The conditional of the line "Mode d'analyse": a Number is truthy unless
    it is zero, [null] is falsy. *)
Definition analysisMode (sample_size : option N) : jsstring :=
  match sample_size with
  | Some n =>
      if (n =? 0)%N then lit "Analyse complète"
      else lit "Échantillonnage (" ++ countToString n ++ lit " valeurs max)"
  | None => lit "Analyse complète"
  end.

(** The template literal of [displayResults], in three consecutive pieces:
    the summary up to the line of the analysis mode, that line, and the head
    of the table. *)
Definition summaryHtml (run : RunInfo) (analysis : AnalysisReport) : jsstring :=
  lit "
        <div class="
  ++ dq
  ++ lit "results"
  ++ dq
  ++ lit ">
            <div class="
  ++ dq
  ++ lit "actions"
  ++ dq
  ++ lit ">
                <button id="
  ++ dq
  ++ lit "downloadButton"
  ++ dq
  ++ lit " class="
  ++ dq
  ++ lit "download-btn"
  ++ dq
  ++ lit ">
                    Télécharger l'analyse en CSV
                </button>
            </div>
            <h2>Résumé</h2>
            <p>Nombre de lignes: "
  ++ countToString (row_count analysis)
  ++ lit "</p>
            <p>Nombre de colonnes: "
  ++ countToString (column_count analysis)
  ++ lit "</p>
            <p>Taille du fichier: "
  ++ fileSizeText run
  ++ lit "</p>
            <p class="
  ++ dq
  ++ lit "execution-time"
  ++ dq
  ++ lit ">Temps d'analyse: "
  ++ executionTime run
  ++ lit "</p>
            <p>Vitesse de traitement: "
  ++ speedText run
  ++ lit "/s</p>
            ".

Definition tableHeadHtml : jsstring :=
  lit "
            
            <h2>Analyse des colonnes</h2>
            <table>
                <thead>
                    <tr>
                        <th>Colonne</th>
                        <th>Type</th>
                        <th>Confiance</th>
                        <th>Valeurs analysées</th>
                        <th>Sous-types</th>
                        <th>Exemples</th>
                        <th>Valeurs totales</th>
                        <th>Valeurs uniques</th>
                        <th>Valeurs nulles</th>
                        <th>Min</th>
                        <th>Max</th>
                        <th>Longueur Min</th>
                        <th>Longueur Max</th>
                    </tr>
                </thead>
                <tbody>
    ".

Definition resultsHead (run : RunInfo) (analysis : AnalysisReport) : jsstring :=
  summaryHtml run analysis
  ++ lit "<p>Mode d'analyse: " ++ analysisMode (sample_size analysis) ++ lit "</p>"
  ++ tableHeadHtml.

(** What the callback of [analysis.columns.forEach] appends to [html]. *)
Definition columnRowHtml (stats : ColumnReport) : jsstring :=
  let subtypesHtml :=
    join (lit ", ") (map getTypeLabel (subtypes (type_details stats))) in
  let examplesHtml :=
    join (lit ", ") (firstn 3 (format_examples (type_details stats))) in
  lit "
            <tr>
                <td>"
  ++ name stats
  ++ lit "</td>
                <td>"
  ++ getTypeLabel (type_name stats)
  ++ lit "</td>
                <td>"
  ++ formatConfidence (confidence (type_details stats))
  ++ lit "</td>
                <td>"
  ++ formatAnalyzedValues (analyzed_count stats) (total_count stats)
  ++ lit "</td>
                <td>"
  ++ subtypesHtml
  ++ lit "</td>
                <td>"
  ++ examplesHtml
  ++ lit "</td>
                <td>"
  ++ countToString (total_count stats)
  ++ lit "</td>
                <td>"
  ++ countToString (unique_values stats)
  ++ lit "</td>
                <td>"
  ++ countToString (null_count stats)
  ++ lit "</td>
                <td>"
  ++ or_else (min_value stats) (lit "-")
  ++ lit "</td>
                <td>"
  ++ or_else (max_value stats) (lit "-")
  ++ lit "</td>
                <td>"
  ++ countToString (min_length stats)
  ++ lit "</td>
                <td>"
  ++ countToString (max_length stats)
  ++ lit "</td>
            </tr>
        ".

(** The same row, as the thirteen texts it interpolates and the markup
    around them. *)
Definition tableCells (stats : ColumnReport) : list jsstring :=
  [ name stats;
    getTypeLabel (type_name stats);
    formatConfidence (confidence (type_details stats));
    formatAnalyzedValues (analyzed_count stats) (total_count stats);
    join (lit ", ") (map getTypeLabel (subtypes (type_details stats)));
    join (lit ", ") (firstn 3 (format_examples (type_details stats)));
    countToString (total_count stats);
    countToString (unique_values stats);
    countToString (null_count stats);
    or_else (min_value stats) (lit "-");
    or_else (max_value stats) (lit "-");
    countToString (min_length stats);
    countToString (max_length stats) ].

Definition tableCell (text : jsstring) : jsstring :=
  lit "
                <td>" ++ text ++ lit "</td>".

Definition tableRow (cells : list jsstring) : jsstring :=
  lit "
            <tr>" ++ concat (map tableCell cells) ++ lit "
            </tr>
        ".

Definition resultsTail : jsstring :=
  lit "
                </tbody>
            </table>
        </div>
    ".

(** The markup [displayResults] assigns to [results.innerHTML]. *)
Definition resultsHtml (run : RunInfo) (analysis : AnalysisReport) : jsstring :=
  fold_left (fun html stats => html ++ columnRowHtml stats)
    (columns analysis) (resultsHead run analysis)
  ++ resultsTail.

(** ** [parseInt]

    [parseInt(string)] with no radix, as ECMAScript gives it: leading white
    space is dropped, then a sign, then [0x] or [0X] selects radix 16;
    the longest prefix of digits is read, and no digit at all gives [NaN].
    The result is the Number nearest to the integer read. *)
Definition isWhiteSpace (c : N) : bool :=
  existsb (N.eqb c)
    [9; 10; 11; 12; 13; 32; 160; 5760; 8232; 8233; 8239; 8287; 12288; 65279]%N
  || ((8192 <=? c)%N && (c <=? 8202)%N).

Fixpoint trimStart (s : jsstring) : jsstring :=
  match s with
  | c :: rest => if isWhiteSpace c then trimStart rest else s
  | [] => []
  end.

Definition digitValue (c : N) : option N :=
  if ((48 <=? c) && (c <=? 57))%N then Some (c - 48)%N
  else if ((97 <=? c) && (c <=? 122))%N then Some (c - 87)%N
  else if ((65 <=? c) && (c <=? 90))%N then Some (c - 55)%N
  else None.

Fixpoint digitsPrefix (R : N) (s : jsstring) : list N :=
  match s with
  | c :: rest =>
      match digitValue c with
      | Some d => if (d <? R)%N then d :: digitsPrefix R rest else []
      | None => []
      end
  | [] => []
  end.

Definition parseInt (string : jsstring) : float :=
  let trimmed := trimStart string in
  let '(negative, unsigned) :=
    match trimmed with
    | 45%N :: rest => (true, rest)
    | 43%N :: rest => (false, rest)
    | _ => (false, trimmed)
    end in
  let '(radix, body) :=
    match unsigned with
    | 48%N :: 120%N :: rest => (16%N, rest)
    | 48%N :: 88%N :: rest => (16%N, rest)
    | _ => (10%N, unsigned)
    end in
  match digitsPrefix radix body with
  | [] => nan
  | digits =>
      let mathInt := fold_left (fun acc d => (acc * radix + d)%N) digits 0%N in
      let number := countToNumber mathInt in
      if negative then (- number)%float else number
  end.

(** ** The objects of the WebAssembly package

    [AnalyzerConfig] and [CSVAnalyzer] are classes of the package built from
    the Rust crate. An instance lives in a store and is named by its index
    there; [new] appends to the store. *)
Module AnalyzerConfig.
Record t := { sample_size : option float }.
End AnalyzerConfig.

(** A value caught by [catch (error)]: what [error.message] reads, which is
    [undefined] for a thrown value that has no such property. *)
Record Thrown := { message : option jsstring }.

(** [`${v}`] for a [v] that is a string or [undefined]. *)
Definition interpolate (v : option jsstring) : jsstring :=
  match v with
  | Some s => s
  | None => lit "undefined"
  end.

Definition loadingHtml : jsstring :=
  lit "<div class=" ++ dq ++ lit "loading" ++ dq ++ lit ">Analyse en cours...</div>".

Definition errorHtml (error : Thrown) : jsstring :=
  lit "<div class=" ++ dq ++ lit "error" ++ dq
  ++ lit ">Erreur lors de l'analyse: " ++ interpolate (message error)
  ++ lit "</div>".

(** A file of the file input: its name, the text [file.text()] resolves
    to, and its size. *)
Record File := {
  file_name : jsstring;
  file_text : jsstring;
  file_size : N
}.

Module CSVAnalyzer.
(** An instance: the configuration object its constructor was given, the
    value [sample_size] had there when the constructor ran, and the state
    the engine keeps for the instance. *)
Record t {Engine : Type} := {
  config : nat;
  built_with : option float;
  engine : Engine
}.
Arguments t : clear implicits.
End CSVAnalyzer.

(** ** The page *)

Section Page.

Context {Engine : Type}.

(** The engine behind [new CSVAnalyzer(config)] and [analyzer.analyze(text)]:
    [analyze] returns a report or throws, and leaves the instance in a new
    state. *)
Variable engine_new : option float -> Engine.
Variable engine_analyze : Engine -> jsstring -> (AnalysisReport + Thrown) * Engine.

(** What the browser throws when a method is called on [null]. *)
Variable null_call_error : Thrown.

(** The module variable [analyzer], the instances of the two classes, and
    the properties of the elements that the listeners read and write. *)
Record Page := {
  wasm_ready : bool;
  configs : list AnalyzerConfig.t;
  analyzers : list (CSVAnalyzer.t Engine);
  analyzer : option nat;
  sampleSizeToggle_checked : bool;
  sampleSize_value : jsstring;
  sampleSize_disabled : bool;
  fileInput_files : option File;
  fileInfo_textContent : jsstring;
  fileInfo_display : jsstring;
  analyzeBtn_disabled : bool;
  results_innerHTML : jsstring;
  (** the report the click listener of [downloadButton] exports, when the
      results area holds that button *)
  downloadButton : option AnalysisReport;
  (** the reads [file.text()] that have not settled yet *)
  pending : list File;
  (** what [downloadCSV] was called with: content and file name *)
  downloads : list (jsstring * jsstring)
}.

Definition set_wasm_ready (v : bool) (p : Page) : Page :=
  {| wasm_ready := v; configs := configs p; analyzers := analyzers p;
     analyzer := analyzer p;
     sampleSizeToggle_checked := sampleSizeToggle_checked p;
     sampleSize_value := sampleSize_value p;
     sampleSize_disabled := sampleSize_disabled p;
     fileInput_files := fileInput_files p;
     fileInfo_textContent := fileInfo_textContent p;
     fileInfo_display := fileInfo_display p;
     analyzeBtn_disabled := analyzeBtn_disabled p;
     results_innerHTML := results_innerHTML p;
     downloadButton := downloadButton p; pending := pending p;
     downloads := downloads p |}.

Definition set_configs (v : list AnalyzerConfig.t) (p : Page) : Page :=
  {| wasm_ready := wasm_ready p; configs := v; analyzers := analyzers p;
     analyzer := analyzer p;
     sampleSizeToggle_checked := sampleSizeToggle_checked p;
     sampleSize_value := sampleSize_value p;
     sampleSize_disabled := sampleSize_disabled p;
     fileInput_files := fileInput_files p;
     fileInfo_textContent := fileInfo_textContent p;
     fileInfo_display := fileInfo_display p;
     analyzeBtn_disabled := analyzeBtn_disabled p;
     results_innerHTML := results_innerHTML p;
     downloadButton := downloadButton p; pending := pending p;
     downloads := downloads p |}.

Definition set_analyzers (v : list (CSVAnalyzer.t Engine)) (p : Page) : Page :=
  {| wasm_ready := wasm_ready p; configs := configs p; analyzers := v;
     analyzer := analyzer p;
     sampleSizeToggle_checked := sampleSizeToggle_checked p;
     sampleSize_value := sampleSize_value p;
     sampleSize_disabled := sampleSize_disabled p;
     fileInput_files := fileInput_files p;
     fileInfo_textContent := fileInfo_textContent p;
     fileInfo_display := fileInfo_display p;
     analyzeBtn_disabled := analyzeBtn_disabled p;
     results_innerHTML := results_innerHTML p;
     downloadButton := downloadButton p; pending := pending p;
     downloads := downloads p |}.

Definition set_analyzer (v : option nat) (p : Page) : Page :=
  {| wasm_ready := wasm_ready p; configs := configs p; analyzers := analyzers p;
     analyzer := v;
     sampleSizeToggle_checked := sampleSizeToggle_checked p;
     sampleSize_value := sampleSize_value p;
     sampleSize_disabled := sampleSize_disabled p;
     fileInput_files := fileInput_files p;
     fileInfo_textContent := fileInfo_textContent p;
     fileInfo_display := fileInfo_display p;
     analyzeBtn_disabled := analyzeBtn_disabled p;
     results_innerHTML := results_innerHTML p;
     downloadButton := downloadButton p; pending := pending p;
     downloads := downloads p |}.

Definition set_sampleSizeToggle_checked (v : bool) (p : Page) : Page :=
  {| wasm_ready := wasm_ready p; configs := configs p; analyzers := analyzers p;
     analyzer := analyzer p;
     sampleSizeToggle_checked := v;
     sampleSize_value := sampleSize_value p;
     sampleSize_disabled := sampleSize_disabled p;
     fileInput_files := fileInput_files p;
     fileInfo_textContent := fileInfo_textContent p;
     fileInfo_display := fileInfo_display p;
     analyzeBtn_disabled := analyzeBtn_disabled p;
     results_innerHTML := results_innerHTML p;
     downloadButton := downloadButton p; pending := pending p;
     downloads := downloads p |}.

Definition set_sampleSize_value (v : jsstring) (p : Page) : Page :=
  {| wasm_ready := wasm_ready p; configs := configs p; analyzers := analyzers p;
     analyzer := analyzer p;
     sampleSizeToggle_checked := sampleSizeToggle_checked p;
     sampleSize_value := v;
     sampleSize_disabled := sampleSize_disabled p;
     fileInput_files := fileInput_files p;
     fileInfo_textContent := fileInfo_textContent p;
     fileInfo_display := fileInfo_display p;
     analyzeBtn_disabled := analyzeBtn_disabled p;
     results_innerHTML := results_innerHTML p;
     downloadButton := downloadButton p; pending := pending p;
     downloads := downloads p |}.

Definition set_sampleSize_disabled (v : bool) (p : Page) : Page :=
  {| wasm_ready := wasm_ready p; configs := configs p; analyzers := analyzers p;
     analyzer := analyzer p;
     sampleSizeToggle_checked := sampleSizeToggle_checked p;
     sampleSize_value := sampleSize_value p;
     sampleSize_disabled := v;
     fileInput_files := fileInput_files p;
     fileInfo_textContent := fileInfo_textContent p;
     fileInfo_display := fileInfo_display p;
     analyzeBtn_disabled := analyzeBtn_disabled p;
     results_innerHTML := results_innerHTML p;
     downloadButton := downloadButton p; pending := pending p;
     downloads := downloads p |}.

Definition set_fileInput_files (v : option File) (p : Page) : Page :=
  {| wasm_ready := wasm_ready p; configs := configs p; analyzers := analyzers p;
     analyzer := analyzer p;
     sampleSizeToggle_checked := sampleSizeToggle_checked p;
     sampleSize_value := sampleSize_value p;
     sampleSize_disabled := sampleSize_disabled p;
     fileInput_files := v;
     fileInfo_textContent := fileInfo_textContent p;
     fileInfo_display := fileInfo_display p;
     analyzeBtn_disabled := analyzeBtn_disabled p;
     results_innerHTML := results_innerHTML p;
     downloadButton := downloadButton p; pending := pending p;
     downloads := downloads p |}.

Definition set_fileInfo (text display : jsstring) (p : Page) : Page :=
  {| wasm_ready := wasm_ready p; configs := configs p; analyzers := analyzers p;
     analyzer := analyzer p;
     sampleSizeToggle_checked := sampleSizeToggle_checked p;
     sampleSize_value := sampleSize_value p;
     sampleSize_disabled := sampleSize_disabled p;
     fileInput_files := fileInput_files p;
     fileInfo_textContent := text;
     fileInfo_display := display;
     analyzeBtn_disabled := analyzeBtn_disabled p;
     results_innerHTML := results_innerHTML p;
     downloadButton := downloadButton p; pending := pending p;
     downloads := downloads p |}.

Definition set_analyzeBtn_disabled (v : bool) (p : Page) : Page :=
  {| wasm_ready := wasm_ready p; configs := configs p; analyzers := analyzers p;
     analyzer := analyzer p;
     sampleSizeToggle_checked := sampleSizeToggle_checked p;
     sampleSize_value := sampleSize_value p;
     sampleSize_disabled := sampleSize_disabled p;
     fileInput_files := fileInput_files p;
     fileInfo_textContent := fileInfo_textContent p;
     fileInfo_display := fileInfo_display p;
     analyzeBtn_disabled := v;
     results_innerHTML := results_innerHTML p;
     downloadButton := downloadButton p; pending := pending p;
     downloads := downloads p |}.

(** [results.innerHTML = html]: the former content of the results area,
    with its download button and the listener on it, is gone. *)
Definition set_results_innerHTML (html : jsstring) (p : Page) : Page :=
  {| wasm_ready := wasm_ready p; configs := configs p; analyzers := analyzers p;
     analyzer := analyzer p;
     sampleSizeToggle_checked := sampleSizeToggle_checked p;
     sampleSize_value := sampleSize_value p;
     sampleSize_disabled := sampleSize_disabled p;
     fileInput_files := fileInput_files p;
     fileInfo_textContent := fileInfo_textContent p;
     fileInfo_display := fileInfo_display p;
     analyzeBtn_disabled := analyzeBtn_disabled p;
     results_innerHTML := html;
     downloadButton := None; pending := pending p;
     downloads := downloads p |}.

Definition set_downloadButton (v : option AnalysisReport) (p : Page) : Page :=
  {| wasm_ready := wasm_ready p; configs := configs p; analyzers := analyzers p;
     analyzer := analyzer p;
     sampleSizeToggle_checked := sampleSizeToggle_checked p;
     sampleSize_value := sampleSize_value p;
     sampleSize_disabled := sampleSize_disabled p;
     fileInput_files := fileInput_files p;
     fileInfo_textContent := fileInfo_textContent p;
     fileInfo_display := fileInfo_display p;
     analyzeBtn_disabled := analyzeBtn_disabled p;
     results_innerHTML := results_innerHTML p;
     downloadButton := v; pending := pending p;
     downloads := downloads p |}.

Definition set_pending (v : list File) (p : Page) : Page :=
  {| wasm_ready := wasm_ready p; configs := configs p; analyzers := analyzers p;
     analyzer := analyzer p;
     sampleSizeToggle_checked := sampleSizeToggle_checked p;
     sampleSize_value := sampleSize_value p;
     sampleSize_disabled := sampleSize_disabled p;
     fileInput_files := fileInput_files p;
     fileInfo_textContent := fileInfo_textContent p;
     fileInfo_display := fileInfo_display p;
     analyzeBtn_disabled := analyzeBtn_disabled p;
     results_innerHTML := results_innerHTML p;
     downloadButton := downloadButton p; pending := v;
     downloads := downloads p |}.

Definition set_downloads (v : list (jsstring * jsstring)) (p : Page) : Page :=
  {| wasm_ready := wasm_ready p; configs := configs p; analyzers := analyzers p;
     analyzer := analyzer p;
     sampleSizeToggle_checked := sampleSizeToggle_checked p;
     sampleSize_value := sampleSize_value p;
     sampleSize_disabled := sampleSize_disabled p;
     fileInput_files := fileInput_files p;
     fileInfo_textContent := fileInfo_textContent p;
     fileInfo_display := fileInfo_display p;
     analyzeBtn_disabled := analyzeBtn_disabled p;
     results_innerHTML := results_innerHTML p;
     downloadButton := downloadButton p; pending := pending p;
     downloads := v |}.

(** *** Statements

    A statement runs on the page and completes with a value or throws; what
    it did to the page before throwing stays done. *)
Definition Js (A : Type) : Type := Page -> (A + Thrown) * Page.

#[global] Instance Js_ret : MRet Js := fun A x p => (inl x, p).

#[global] Instance Js_bind : MBind Js := fun A B f m p =>
  match m p with
  | (inl a, p') => f a p'
  | (inr e, p') => (inr e, p')
  end.

Definition throw {A : Type} (e : Thrown) : Js A := fun p => (inr e, p).

Definition gets {A : Type} (f : Page -> A) : Js A := fun p => (inl (f p), p).

Definition modify (f : Page -> Page) : Js unit := fun p => (inl tt, f p).

Definition try_catch {A : Type} (body : Js A) (handler : Thrown -> Js A) : Js A :=
  fun p =>
    match body p with
    | (inl a, p') => (inl a, p')
    | (inr e, p') => handler e p'
    end.

Definition try_catch_finally {A : Type}
    (body : Js A) (handler : Thrown -> Js A) (final : Js unit) : Js A :=
  fun p =>
    let '(r, p1) := try_catch body handler p in
    match final p1 with
    | (inl _, p2) => (r, p2)
    | (inr e, p2) => (inr e, p2)
    end.

(** A listener is called by the browser, which keeps nothing of what it
    returns or throws. *)
Definition dispatch (listener : Js unit) (p : Page) : Page := snd (listener p).

(** *** The classes *)

(** [new AnalyzerConfig()]: a call into the package, which throws when
    [init()] has not completed. *)
Definition newAnalyzerConfig : Js nat := fun p =>
  if wasm_ready p then
    (inl (length (configs p)),
     set_configs (configs p ++ [{| AnalyzerConfig.sample_size := None |}]) p)
  else (inr null_call_error, p).

(** [config.sample_size = v]: the property holds what was assigned. *)
Definition setSampleSize (config : nat) (v : option float) : Js unit :=
  modify (fun p =>
    set_configs (<[config := {| AnalyzerConfig.sample_size := v |}]> (configs p)) p).

(** [new CSVAnalyzer(config)] *)
Definition newCSVAnalyzer (config : nat) : Js nat := fun p =>
  match configs p !! config with
  | Some c =>
      let v := AnalyzerConfig.sample_size c in
      (inl (length (analyzers p)),
       set_analyzers
         (analyzers p
          ++ [{| CSVAnalyzer.config := config; CSVAnalyzer.built_with := v;
                 CSVAnalyzer.engine := engine_new v |}]) p)
  | None => (inr null_call_error, p)
  end.

(** [analyzer.analyze(content)], on the instance the module variable holds
    when the call is made. *)
Definition analyzer_analyze (content : jsstring) : Js AnalysisReport := fun p =>
  match analyzer p with
  | Some a =>
      match analyzers p !! a with
      | Some o =>
          let '(result, e') := engine_analyze (CSVAnalyzer.engine o) content in
          let o' := {| CSVAnalyzer.config := CSVAnalyzer.config o;
                       CSVAnalyzer.built_with := CSVAnalyzer.built_with o;
                       CSVAnalyzer.engine := e' |} in
          let p' := set_analyzers (<[a := o']> (analyzers p)) p in
          match result with
          | inl analysis => (inl analysis, p')
          | inr error => (inr error, p')
          end
      | None => (inr null_call_error, p)
      end
  | None => (inr null_call_error, p)
  end.

(** *** [initializeWasm] and [setupUI] *)

(** [init_failure] is what [await init()] throws, if it does. *)
Definition initializeWasm (init_failure : option Thrown) : Js unit :=
  try_catch
    (match init_failure with
     | Some error => throw error
     | None => modify (set_wasm_ready true)
     end;;
     config ← newAnalyzerConfig;
     setSampleSize config None;;
     a ← newCSVAnalyzer config;
     modify (set_analyzer (Some a)))
    (fun error => mret tt).

Definition displayResults (analysis : AnalysisReport) (run : RunInfo) : Js unit :=
  modify (set_results_innerHTML (resultsHtml run analysis));;
  modify (set_downloadButton (Some analysis)).

(** The listener of [sampleSizeToggle], called once the box has its new
    state. *)
Definition onSampleSizeToggleChange : Js unit :=
  checked ← gets sampleSizeToggle_checked;
  modify (set_sampleSize_disabled (negb checked));;
  config ← newAnalyzerConfig;
  (if checked : bool then
     value ← gets sampleSize_value;
     setSampleSize config (Some (parseInt value))
   else setSampleSize config None);;
  a ← newCSVAnalyzer config;
  modify (set_analyzer (Some a)).

(** The listener of [sampleSize], called once the field has its new value. *)
Definition onSampleSizeChange : Js unit :=
  checked ← gets sampleSizeToggle_checked;
  if checked : bool then
    config ← newAnalyzerConfig;
    value ← gets sampleSize_value;
    setSampleSize config (Some (parseInt value));;
    a ← newCSVAnalyzer config;
    modify (set_analyzer (Some a))
  else mret tt.

Definition onFileInputChange : Js unit :=
  files ← gets fileInput_files;
  match files with
  | None => mret tt
  | Some file =>
      modify (set_fileInfo (lit "Fichier sélectionné : " ++ file_name file) (lit "block"));;
      modify (set_analyzeBtn_disabled false)
  end.

(** The listener of [analyzeBtn], up to [await file.text()]. *)
Definition onAnalyzeClick : Js unit :=
  files ← gets fileInput_files;
  a ← gets analyzer;
  match files, a with
  | Some file, Some _ =>
      modify (set_analyzeBtn_disabled true);;
      modify (set_results_innerHTML loadingHtml);;
      modify (fun p => set_pending (pending p ++ [file]) p)
  | _, _ => mret tt
  end.

(** The rest of that listener, run when the read of [file] settles:
    [rejection] is what [file.text()] rejected with, if it did, and [run]
    what the clock and the size of the file give for the summary. *)
Definition afterRead (file : File) (rejection : option Thrown) (run : RunInfo) : Js unit :=
  try_catch_finally
    (content ← match rejection with
               | Some error => throw error
               | None => mret (file_text file)
               end;
     analysis ← analyzer_analyze content;
     displayResults analysis run)
    (fun error => modify (set_results_innerHTML (errorHtml error)))
    (modify (set_analyzeBtn_disabled false)).

(** The listener [displayResults] puts on the download button. *)
Definition onDownloadClick : Js unit :=
  button ← gets downloadButton;
  match button with
  | Some analysis =>
      modify (fun p =>
        set_downloads
          (downloads p ++ [(exportToCSV analysis, lit "analyse_colonnes.csv")]) p)
  | None => mret tt
  end.

Definition setupUI : Js unit :=
  modify (set_sampleSizeToggle_checked false);;
  modify (set_sampleSize_value (lit "1000"));;
  modify (set_sampleSize_disabled true).

(** The module as loaded: [let analyzer = null], no instance, no read in
    flight; the rest of [document] is [index.html]'s. *)
Definition moduleLoaded (document : Page) : Page :=
  set_downloads [] (set_pending [] (set_downloadButton None
    (set_analyzer None (set_analyzers [] (set_configs []
      (set_wasm_ready false document)))))).

(** The listener of [DOMContentLoaded]. *)
Definition boot (init_failure : option Thrown) (document : Page) : Page :=
  dispatch (initializeWasm init_failure;; setupUI) (moduleLoaded document).

(** *** Events *)

Inductive Event :=
  | ToggleSampling
  | EditSampleSize (value : jsstring)
  | SelectFile (file : option File)
  | ClickAnalyze
  | ReadSettled (k : nat) (rejection : option Thrown) (run : RunInfo)
  | ClickDownload.

(** One event: the browser updates the element, then calls the listener.
    Events may come in any order, also those a browser keeps from a disabled
    control. [EditSampleSize value] commits an edit of the number field,
    after which the [value] of the field reads [value]. [ReadSettled k]
    settles the [k]-th read in flight. *)
Definition step (ev : Event) (p : Page) : Page :=
  match ev with
  | ToggleSampling =>
      dispatch onSampleSizeToggleChange
        (set_sampleSizeToggle_checked (negb (sampleSizeToggle_checked p)) p)
  | EditSampleSize value =>
      dispatch onSampleSizeChange (set_sampleSize_value value p)
  | SelectFile file =>
      dispatch onFileInputChange (set_fileInput_files file p)
  | ClickAnalyze => dispatch onAnalyzeClick p
  | ReadSettled k rejection run =>
      match pending p !! k with
      | Some file =>
          dispatch (afterRead file rejection run)
            (set_pending (delete k (pending p)) p)
      | None => p
      end
  | ClickDownload => dispatch onDownloadClick p
  end.

Definition run (evs : list Event) (p : Page) : Page :=
  fold_left (fun p ev => step ev p) evs p.

End Page.

(** ** The analysis engine

    The engine is the Rust crate [wasm/src/lib.rs], compiled to the package
    that [index.js] imports. Its behaviour is taken from the specification of
    the system, component by component. *)
Module Core.

(** Modelled from the spec: the closed enumeration [SemanticType] of the
    crate's data model. *)
Module SemanticType.
Inductive t :=
  | Integer | Float | Boolean | Date | DateTime | Time | Email | Url | Ip
  | String
  | Null.
End SemanticType.

#[global] Instance SemanticType_eq_dec : EqDecision SemanticType.t.
Proof. solve_decision. Defined.

(** Modelled from the spec: the error kinds of the crate's [analyze]. *)
Inductive AnalysisError :=
  | EmptyInputError
  | MalformedQuotingError
  | InvalidConfigurationError.

(** Modelled from the spec: what the crate's [analyze] yields, a value or
    one of the error kinds. *)
Inductive Result (A : Type) :=
  | Ok (a : A)
  | Failed (e : AnalysisError).
Arguments Ok {A} a.
Arguments Failed {A} e.

(** Modelled from the spec: the candidate delimiters, the quote and the
    carriage return of the crate's tokenizer. *)
Definition COMMA : N := 44%N.
Definition TAB : N := 9%N.
Definition PIPE : N := 124%N.
Definition QUOTE : N := 34%N.
Definition CR : N := 13%N.

(** *** Delimiter detector *)

(** Modelled from the spec: the raw lines of a document, which the
    crate's detector samples. A final line feed ends the last line and
    starts none. *)
Definition rawLines (text : jsstring) : list jsstring :=
  match rev (split_on LF text) with
  | [] :: earlier => rev earlier
  | _ => split_on LF text
  end.

(** Modelled from the spec: the score of a candidate in the crate's
    delimiter detector: the field count that every sampled line has when
    it is split naively on the candidate, if that count is the same for
    all and greater than one. *)
Definition consistentCount (candidate : N) (sample : list jsstring) : option nat :=
  match map (fun line => length (split_on candidate line)) sample with
  | [] => None
  | n :: counts =>
      if forallb (Nat.eqb n) counts && (1 <? n)%nat then Some n else None
  end.

(** Modelled from the spec: the crate's delimiter detector, over the first
    five raw lines and the candidates comma, semicolon, tab and pipe; the
    largest consistent count wins (the earlier candidate among equals),
    and comma is the fallback. *)
Definition detectDelimiter (text : jsstring) : N :=
  let sample := firstn 5 (rawLines text) in
  let best :=
    fold_left
      (fun best candidate =>
         match consistentCount candidate sample, best with
         | Some n, Some (_, m) => if (m <? n)%nat then Some (candidate, n) else best
         | Some n, None => Some (candidate, n)
         | None, _ => best
         end)
      [COMMA; SEMI; TAB; PIPE] None in
  match best with
  | Some (delimiter, _) => delimiter
  | None => COMMA
  end.

(** *** Tokenizer *)

(** Modelled from the spec: where the crate's tokenizer stands: at the
    start of a row, at the start of a later field, inside an unquoted field,
    inside a quoted field, or after the quote that closed one. *)
Inductive Mode :=
  | RowStart
  | FieldStart
  | Unquoted
  | Quoted
  | Closed.

(** Modelled from the spec: a quote met in this mode of the crate's
    tokenizer wraps the field. *)
Definition opensField (mode : Mode) : bool :=
  match mode with
  | RowStart | FieldStart => true
  | _ => false
  end.

(** Modelled from the spec: a row completed by the crate's tokenizer,
    before the rows that follow it. *)
Definition pushRow (row : list jsstring) (rows : option (list (list jsstring)))
    : option (list (list jsstring)) :=
  match rows with
  | Some rows => Some (row :: rows)
  | None => None
  end.

(** Modelled from the spec: the crate's tokenizer. [field] and [row] hold,
    in reverse, the units of the field and the fields of the row being read.
    A quote opens a quoted field at the start of a field only; inside it a
    doubled quote is one quote and any other quote closes it. [None] is an
    unterminated quoted field. The row that would start after a final line
    terminator is not produced. *)
Fixpoint scan (delimiter : N) (mode : Mode) (field : jsstring) (row : list jsstring)
    (text : jsstring) : option (list (list jsstring)) :=
  match text with
  | [] =>
      match mode with
      | Quoted => None
      | RowStart => Some []
      | _ => Some [rev (rev field :: row)]
      end
  | c :: rest =>
      match mode with
      | Quoted =>
          if (c =? QUOTE)%N then
            match rest with
            | c' :: rest' =>
                if (c' =? QUOTE)%N then scan delimiter Quoted (QUOTE :: field) row rest'
                else scan delimiter Closed field row rest
            | [] => scan delimiter Closed field row rest
            end
          else scan delimiter Quoted (c :: field) row rest
      | _ =>
          if (c =? delimiter)%N then
            scan delimiter FieldStart [] (rev field :: row) rest
          else if (c =? LF)%N then
            pushRow (rev (rev field :: row)) (scan delimiter RowStart [] [] rest)
          else
            let ordinary :=
              if (c =? QUOTE)%N && opensField mode then
                scan delimiter Quoted field row rest
              else scan delimiter Unquoted (c :: field) row rest in
            match rest with
            | c' :: rest' =>
                if ((c =? CR) && (c' =? LF))%N then
                  pushRow (rev (rev field :: row)) (scan delimiter RowStart [] [] rest')
                else ordinary
            | [] => ordinary
            end
      end
  end.

(** Modelled from the spec: the rows of a document as the crate's
    tokenizer yields them, or a [MalformedQuotingError]. *)
Definition tokenize (delimiter : N) (text : jsstring) : Result (list (list jsstring)) :=
  match scan delimiter RowStart [] [] text with
  | Some rows => Ok rows
  | None => Failed MalformedQuotingError
  end.

Section Engine.

(** Modelled from the spec: the recognizers of the crate's value
    classifier, the order of two raw values under the semantics of a type,
    and the significance threshold of subtypes. The specification leaves
    their details to the implementer, and the engine is defined for any of
    them. [recognize ty v] says whether the non-empty raw value [v] matches
    the type [ty]. *)
Variable recognize : SemanticType.t -> jsstring -> bool.
Variable precedes : SemanticType.t -> jsstring -> jsstring -> bool.
Variable significance : float.

(** Modelled from the spec: what the crate throws to JavaScript for an
    [AnalysisError]. *)
Variable describe : AnalysisError -> Thrown.

(** *** Column accumulator *)

(** Modelled from the spec: the running state the crate keeps for one
    column during one call of [analyze]: the three counts, the set of raw
    values seen, the analyzed non-null values retained for finalization, the
    examples, and the least and greatest length. *)
Record Accumulator := {
  total : N;
  analyzed : N;
  nulls : N;
  seen : gset (list N);
  retained : list jsstring;
  examples : list jsstring;
  lengths : option (N * N)
}.

(** Modelled from the spec: the accumulator of the crate for a column of
    which no value was met. *)
Definition emptyAccumulator : Accumulator :=
  {| total := 0; analyzed := 0; nulls := 0; seen := ∅; retained := [];
     examples := []; lengths := None |}.

(** Modelled from the spec: a raw value is null when it is empty or
    blank. *)
Definition isNull (value : jsstring) : bool := forallb isWhiteSpace value.

(** Modelled from the spec: the crate's sampling controller: a value is
    forwarded unless the column's analyzed count has reached the cap. *)
Definition forwards (cap : option N) (acc : Accumulator) : bool :=
  match cap with
  | Some k => (analyzed acc <? k)%N
  | None => true
  end.

(** Modelled from the spec: the running least and greatest length of the
    crate's accumulator, after a value of length [len]. *)
Definition widen (len : N) (lengths : option (N * N)) : option (N * N) :=
  match lengths with
  | Some (lo, hi) => Some (N.min lo len, N.max hi len)
  | None => Some (len, len)
  end.

(** Modelled from the spec: one value of a column reaching the crate's
    accumulator. It counts in [total] in any case; if the sampling
    controller forwards it, it counts in [analyzed], and then either in
    [nulls] or among the values seen, retained and measured, and among the
    examples if it is new and fewer than five are kept. *)
Definition observe (cap : option N) (value : jsstring) (acc : Accumulator) : Accumulator :=
  if forwards cap acc then
    if isNull value then
      {| total := total acc + 1; analyzed := analyzed acc + 1;
         nulls := nulls acc + 1; seen := seen acc; retained := retained acc;
         examples := examples acc; lengths := lengths acc |}
    else
      {| total := total acc + 1; analyzed := analyzed acc + 1;
         nulls := nulls acc; seen := {[ value ]} ∪ seen acc;
         retained := retained acc ++ [value];
         examples :=
           if bool_decide (value ∈ seen acc) || (5 <=? length (examples acc))%nat
           then examples acc else examples acc ++ [value];
         lengths := widen (N.of_nat (length value)) (lengths acc) |}
  else
    {| total := total acc + 1; analyzed := analyzed acc; nulls := nulls acc;
       seen := seen acc; retained := retained acc; examples := examples acc;
       lengths := lengths acc |}.

(** Modelled from the spec: one data row reaching the accumulators of the
    crate, column by column. A field beyond the header is ignored; a column
    the row is too short for sees nothing. *)
Fixpoint feed (cap : option N) (accs : list Accumulator) (row : list jsstring)
    : list Accumulator :=
  match accs, row with
  | acc :: accs', value :: row' => observe cap value acc :: feed cap accs' row'
  | _, _ => accs
  end.

(** *** Column type resolution *)

(** Modelled from the spec: the types a column may resolve to before
    [String], in the order that breaks ties in the crate's finalization. *)
Definition candidates : list SemanticType.t :=
  [ SemanticType.Integer; SemanticType.Float; SemanticType.Boolean;
    SemanticType.Date; SemanticType.DateTime; SemanticType.Time;
    SemanticType.Email; SemanticType.Url; SemanticType.Ip ].

(** Modelled from the spec: how many of the analyzed non-null values
    match a type, for the crate's finalization. *)
Definition matchCount (ty : SemanticType.t) (values : list jsstring) : N :=
  N.of_nat (length (List.filter (recognize ty) values)).

(** Modelled from the spec: the dominant type of the crate's
    finalization: the candidate matching most values, the earlier one among
    equals, and [String] when no candidate matches any value. *)
Definition dominant (values : list jsstring) : SemanticType.t * N :=
  fold_left
    (fun best ty =>
       let n := matchCount ty values in
       if (snd best <? n)%N then (ty, n) else best)
    candidates (SemanticType.String, 0%N).

(** Modelled from the spec: the name of a type in a report of the crate,
    spelled as the keys of the table [labels] of [index.js]. *)
Definition typeKey (ty : SemanticType.t) : jsstring :=
  match ty with
  | SemanticType.Integer => lit "integer"
  | SemanticType.Float => lit "float"
  | SemanticType.Boolean => lit "boolean"
  | SemanticType.Date => lit "date"
  | SemanticType.DateTime => lit "datetime"
  | SemanticType.Time => lit "time"
  | SemanticType.Email => lit "email"
  | SemanticType.Url => lit "url"
  | SemanticType.Ip => lit "ip"
  | SemanticType.String => lit "string"
  | SemanticType.Null => lit "null"
  end.

(** Modelled from the spec: a confidence of the crate's finalization, the
    fraction of [among] values that [count] of them are. *)
Definition fraction (count among : N) : float :=
  (countToNumber count / countToNumber among)%float.

(** Modelled from the spec: an extremum of the retained values in the
    crate's finalization, absent when there is none. *)
Definition extreme (better : jsstring -> jsstring -> bool) (values : list jsstring)
    : option jsstring :=
  match values with
  | [] => None
  | v :: more => Some (fold_left (fun best x => if better x best then x else best) more v)
  end.

(** Modelled from the spec: the crate's finalization of one column into
    its [ColumnReport]. *)
Definition finalize (header : jsstring) (acc : Accumulator) : ColumnReport :=
  let values := retained acc in
  let nonNull := N.of_nat (length values) in
  let '(ty, matched) := dominant values in
  {| name := header;
     type_name := typeKey ty;
     type_details :=
       {| confidence :=
            match ty with
            | SemanticType.String => if (0 <? nonNull)%N then 1%float else 0%float
            | _ => fraction matched nonNull
            end;
          subtypes :=
            map typeKey
              (List.filter
                 (fun other =>
                    negb (bool_decide (other = ty))
                    && (significance <=? fraction (matchCount other values) nonNull)%float)
                 candidates);
          format_examples := examples acc |};
     total_count := total acc;
     analyzed_count := analyzed acc;
     unique_values := N.of_nat (size (seen acc));
     null_count := nulls acc;
     min_value := extreme (precedes ty) values;
     max_value := extreme (fun a b => precedes ty b a) values;
     min_length := match lengths acc with Some (lo, _) => lo | None => 0%N end;
     max_length := match lengths acc with Some (_, hi) => hi | None => 0%N end |}.

(** *** Orchestrator *)

(** Modelled from the spec: the positive integer that the [sample_size]
    handed to the crate is, if it is one. *)
Definition positiveInteger (x : float) : option N :=
  match Prim2SF x with
  | S754_finite false m e =>
      if (0 <=? e)%Z then Some (Z.to_N (Z.pos m * 2 ^ e))
      else
        let d := (2 ^ (- e))%Z in
        if (Z.pos m mod d =? 0)%Z then Some (Z.to_N (Z.pos m / d)) else None
  | _ => None
  end.

(** Modelled from the spec: the cap the crate reads from the
    configuration: none when [sample_size] is null, and an
    [InvalidConfigurationError] when it is present and not a positive
    integer. *)
Definition sampleCap (setting : option float) : Result (option N) :=
  match setting with
  | None => Ok None
  | Some x =>
      match positiveInteger x with
      | Some k => Ok (Some k)
      | None => Failed InvalidConfigurationError
      end
  end.

(** Modelled from the spec: the crate's [analyze(text, config)]: detect the
    delimiter, tokenize, take the first row as header, feed every data row
    to fresh accumulators, finalize each column. *)
Definition analyze (setting : option float) (text : jsstring) : Result AnalysisReport :=
  match sampleCap setting with
  | Failed e => Failed e
  | Ok cap =>
      match tokenize (detectDelimiter text) text with
      | Failed e => Failed e
      | Ok [] => Failed EmptyInputError
      | Ok (header :: rows) =>
          let accs := fold_left (feed cap) rows (map (fun _ => emptyAccumulator) header) in
          Ok {| row_count := N.of_nat (length rows);
                column_count := N.of_nat (length header);
                sample_size := cap;
                columns := zip_with finalize header accs |}
      end
  end.

(** Modelled from the spec: an instance of the crate's [CSVAnalyzer]. It
    holds its configuration and nothing else: the accumulators live for one
    call. *)
Record CSVAnalyzer := { configuration : option float }.

(** Modelled from the spec: the constructor of the crate's
    [CSVAnalyzer]. *)
Definition new (setting : option float) : CSVAnalyzer :=
  {| configuration := setting |}.

(** Modelled from the spec: the method [analyze(rawText)] of the crate's
    [CSVAnalyzer], with the instance as it is after the call. *)
Definition call (self : CSVAnalyzer) (text : jsstring)
    : (AnalysisReport + Thrown) * CSVAnalyzer :=
  (match analyze (configuration self) text with
   | Ok report => inl report
   | Failed e => inr (describe e)
   end,
   self).

End Engine.

End Core.

(** ** Predicates the properties are stated with *)

(** [avoids c s]: the unit [c] does not occur in [s]. *)
Definition avoids (c : N) (s : jsstring) : bool :=
  forallb (fun u => negb (u =? c)%N) s.

Definition isDigit (u : N) : bool := ((48 <=? u) && (u <=? 57))%N.

(** What [toFixed] writes: digits, a point, a sign, or the letters of an
    exponent, of [NaN] and of [Infinity]. *)
Definition numeric (c : N) : bool :=
  isDigit c || existsb (N.eqb c) (lit ".-+eNaInfity").

(** No text of the column holds a line feed. *)
Definition lineFreeColumn (stats : ColumnReport) : bool :=
  avoids LF (name stats)
  && avoids LF (type_name stats)
  && forallb (avoids LF) (subtypes (type_details stats))
  && forallb (avoids LF) (format_examples (type_details stats))
  && avoids LF (or_else (min_value stats) [])
  && avoids LF (or_else (max_value stats) []).

(** The report [analysis] with another [sample_size]. *)
Definition withSampleSize (cap : option N) (analysis : AnalysisReport) : AnalysisReport :=
  {| row_count := row_count analysis; column_count := column_count analysis;
     sample_size := cap; columns := columns analysis |}.

(** A column of free text with a value on two lines, as the quoted fields
    of a CSV file may hold them. *)
Definition notesColumn : ColumnReport :=
  {| name := lit "notes";
     type_name := lit "string";
     type_details :=
       {| confidence := 1%float; subtypes := [];
          format_examples := [lit "first line" ++ [LF] ++ lit "second line"] |};
     total_count := 1; analyzed_count := 1; unique_values := 1; null_count := 0;
     min_value := Some (lit "first line" ++ [LF] ++ lit "second line");
     max_value := Some (lit "first line" ++ [LF] ++ lit "second line");
     min_length := 22; max_length := 22 |}.

Definition notesReport : AnalysisReport :=
  {| row_count := 1; column_count := 1; sample_size := None;
     columns := [notesColumn] |}.

(** A column of integers with four examples and no value analyzed beyond
    them. *)
Definition idColumn : ColumnReport :=
  {| name := lit "id";
     type_name := lit "integer";
     type_details :=
       {| confidence := 1%float; subtypes := [lit "float"];
          format_examples := [lit "1"; lit "2"; lit "3"; lit "4"] |};
     total_count := 4; analyzed_count := 4; unique_values := 4; null_count := 0;
     min_value := Some (lit "1"); max_value := Some (lit "4");
     min_length := 1; max_length := 1 |}.

Definition idReport : AnalysisReport :=
  {| row_count := 4; column_count := 1; sample_size := None;
     columns := [idColumn] |}.

(** ** Pages the properties are stated with *)

Section Pages.

Context {Engine : Type}.

(** A document with no file chosen, nothing shown and the button to
    analyze disabled. *)
Definition blankDocument : @Page Engine :=
  {| wasm_ready := false; configs := []; analyzers := []; analyzer := None;
     sampleSizeToggle_checked := false; sampleSize_value := [];
     sampleSize_disabled := false; fileInput_files := None;
     fileInfo_textContent := []; fileInfo_display := lit "none";
     analyzeBtn_disabled := true; results_innerHTML := [];
     downloadButton := None; pending := []; downloads := [] |}.

(** The page after [new AnalyzerConfig()], [config.sample_size = v],
    [new CSVAnalyzer(config)] and the assignment to [analyzer]. *)
Definition rebuilt (engine_new : option float -> Engine) (v : option float)
    (p : @Page Engine) : Page :=
  set_analyzer (Some (length (analyzers p)))
    (set_analyzers
       (analyzers p
        ++ [{| CSVAnalyzer.config := length (configs p);
               CSVAnalyzer.built_with := v;
               CSVAnalyzer.engine := engine_new v |}])
       (set_configs (configs p ++ [{| AnalyzerConfig.sample_size := v |}]) p)).

(** The value of [sample_size] in the configuration of the instance that
    [analyzer] holds, if it holds one. *)
Definition currentSetting (p : @Page Engine) : option (option float) :=
  a ← analyzer p;
  o ← analyzers p !! a;
  c ← configs p !! CSVAnalyzer.config o;
  Some (AnalyzerConfig.sample_size c).

(** The setting the two controls of the page ask for. *)
Definition askedSetting (p : @Page Engine) : option float :=
  if sampleSizeToggle_checked p then Some (parseInt (sampleSize_value p)) else None.

(** What an instance was built from: its configuration object and the
    value read there by the constructor. *)
Definition shape (o : CSVAnalyzer.t Engine) : nat * option float :=
  (CSVAnalyzer.config o, CSVAnalyzer.built_with o).

(** What the sampling settings and the analyzer are made of: the package,
    the two stores (an instance by its shape), [analyzer], the box and the
    number field. *)
Definition view (p : @Page Engine) :=
  (wasm_ready p, configs p, shape <$> analyzers p, analyzer p,
   sampleSizeToggle_checked p, sampleSize_value p).

(** Every instance was built from a configuration that is still in the
    store and still holds the value it held then. *)
Definition bound (p : @Page Engine) : Prop :=
  forall a s, (shape <$> analyzers p) !! a = Some s ->
    exists c, configs p !! s.1 = Some c /\ AnalyzerConfig.sample_size c = s.2.

(** Where the package is ready, [analyzer] holds an instance whose
    configuration is the one the controls ask for; elsewhere it is null. *)
Definition current (p : @Page Engine) : Prop :=
  if wasm_ready p then currentSetting p = Some (askedSetting p)
  else analyzer p = None.

Definition invariant (p : @Page Engine) : Prop := bound p /\ current p.

(** An event that changes the sampling settings: a toggle, or an edit of
    the size while sampling is on. *)
Definition changesSampling (ev : Event) (p : @Page Engine) : bool :=
  match ev with
  | ToggleSampling => true
  | EditSampleSize _ => sampleSizeToggle_checked p
  | _ => false
  end.

(** An event that leaves the two controls of the sampling settings alone. *)
Definition leavesSampling (ev : Event) : bool :=
  match ev with
  | ToggleSampling | EditSampleSize _ => false
  | _ => true
  end.

End Pages.

(** ** Counts *)

(** The counts of an accumulator are ordered: every analyzed value was
    counted, and the values seen and the null values are analyzed values,
    each one of them once. *)
Definition ordered (acc : Core.Accumulator) : Prop :=
  (Core.analyzed acc <= Core.total acc
   /\ N.of_nat (size (Core.seen acc)) + Core.nulls acc <= Core.analyzed acc)%N.

(** The three inequalities of a column of a report. *)
Definition countsOrdered (stats : ColumnReport) : Prop :=
  (analyzed_count stats <= total_count stats
   /\ unique_values stats <= analyzed_count stats
   /\ null_count stats <= analyzed_count stats)%N.

(** ** An engine to run the page with

    Recognizers for whole numbers only, raw values ordered by length, a
    threshold of one twentieth, and errors thrown with their name as
    message. *)
Definition wholeNumbers (ty : Core.SemanticType.t) (value : jsstring) : bool :=
  match ty with
  | Core.SemanticType.Integer | Core.SemanticType.Float => forallb isDigit value
  | _ => false
  end.

Definition shorterFirst (ty : Core.SemanticType.t) (a b : jsstring) : bool :=
  (length a <? length b)%nat.

Definition oneTwentieth : float := (1 / 20)%float.

Definition errorByName (e : Core.AnalysisError) : Thrown :=
  {| message :=
       Some match e with
            | Core.EmptyInputError => lit "EmptyInputError"
            | Core.MalformedQuotingError => lit "MalformedQuotingError"
            | Core.InvalidConfigurationError => lit "InvalidConfigurationError"
            end |}.

Definition typeError : Thrown := {| message := Some (lit "TypeError") |}.

Definition sampleAnalyze : option float -> jsstring -> Core.Result AnalysisReport :=
  Core.analyze wholeNumbers shorterFirst oneTwentieth.

Definition sampleCall
    : Core.CSVAnalyzer -> jsstring -> (AnalysisReport + Thrown) * Core.CSVAnalyzer :=
  Core.call wholeNumbers shorterFirst oneTwentieth errorByName.

Definition sampleStep : Event -> @Page Core.CSVAnalyzer -> Page :=
  step Core.new sampleCall typeError.

Definition sampleRun : list Event -> @Page Core.CSVAnalyzer -> Page :=
  run Core.new sampleCall typeError.

Definition samplePage : @Page Core.CSVAnalyzer :=
  boot Core.new typeError None blankDocument.

(** The document of the specification: a header, the values 1 and 3 and an
    empty line between them. *)
Definition gapDocument : jsstring :=
  lit "a" ++ [LF] ++ lit "1" ++ [LF] ++ [LF] ++ lit "3" ++ [LF].

Definition gapFile : File :=
  {| file_name := lit "gap.csv"; file_text := gapDocument; file_size := 7 |}.

Definition emptyFile : File :=
  {| file_name := lit "empty.csv"; file_text := []; file_size := 0 |}.

Definition someRun : RunInfo :=
  {| executionTime := lit "12ms"; fileSizeText := lit "7 Bytes";
     speedText := lit "583.33 Bytes" |}.

(** The page once [emptyFile] is chosen and the button clicked: its read
    is in flight. *)
Definition readingEmptyFile : @Page Core.CSVAnalyzer :=
  sampleRun [SelectFile (Some emptyFile); ClickAnalyze] samplePage.

(** ** The time of an analysis and the speed shown for it *)

(** [String(Math.round(x))]. [Math.round] gives the integer nearest to
    [x], the greater one of two, and keeps [NaN] and the infinities; the
    zero it gives, of either sign, is written "0". An integer below [2^53]
    is written with its digits; a greater [x] is integral already and is
    written as [Number::toString] writes it, with the fewest digits that
    round to it. *)
Definition integralToString (m : positive) (e : Z) : jsstring :=
  if atLeast1e21 m e then exponential m e
  else
    let v := (Z.pos m * 2 ^ e)%Z in
    digitsZ (shortestFrom m e (length (digitsZ v)) 1 17).

Definition roundedToString (x : float) : jsstring :=
  match Prim2SF x with
  | S754_nan => lit "NaN"
  | S754_infinity false => lit "Infinity"
  | S754_infinity true => lit "-Infinity"
  | S754_zero _ => lit "0"
  | S754_finite s m e =>
      if (0 <=? e)%Z then (if s then lit "-" else []) ++ integralToString m e
      else
        let d := (2 ^ (- e))%Z in
        let n :=
          if s then ((2 * Z.pos m + d - 1) / (2 * d))%Z
          else ((2 * Z.pos m + d) / (2 * d))%Z in
        if (n =? 0)%Z then lit "0"
        else (if s then lit "-" else []) ++ digitsZ n
  end.

(** The Number nearest to [num / den], for a positive [num] and [den]; of
    two nearest, the one with an even significand. [q] is the quotient cut to
    53 bits, or to fewer where the result is subnormal. *)
Definition nearestNumber (num den : Z) : float :=
  let e0 := (Z.log2 num - Z.log2 den - 53)%Z in
  let e1 :=
    if (2 ^ 53 <=? (if (0 <=? e0)%Z then num / (den * 2 ^ e0)
                    else num * 2 ^ (- e0) / den))%Z
    then (e0 + 1)%Z else e0 in
  let e := Z.max e1 (-1074) in
  let n := (if (0 <=? e)%Z then num else num * 2 ^ (- e))%Z in
  let d := (if (0 <=? e)%Z then den * 2 ^ e else den)%Z in
  let q := (n / d)%Z in
  let r := (n mod d)%Z in
  let q' :=
    match (2 * r ?= d)%Z with
    | Lt => q
    | Eq => if Z.even q then q else (q + 1)%Z
    | Gt => (q + 1)%Z
    end in
  SF2Prim (binary_normalize prec emax q' e false).

(** [parseFloat], as ECMAScript gives it: leading white space is dropped,
    then the longest prefix that reads as a decimal literal is taken: a
    sign, then [Infinity], or digits with a point and an exponent, of which
    the digits before or after the point may be missing, but not both. No
    such prefix gives [NaN]. *)
Fixpoint spanDigits (s : jsstring) : list N * jsstring :=
  match s with
  | c :: rest =>
      if isDigit c then
        let '(ds, after) := spanDigits rest in ((c - 48)%N :: ds, after)
      else ([], s)
  | [] => ([], [])
  end.

Definition digitsValue (ds : list N) : Z :=
  fold_left (fun acc d => (acc * 10 + Z.of_N d)%Z) ds 0%Z.

Record DecimalLiteral := {
  integerDigits : list N;
  fractionDigits : list N;
  exponent : Z
}.

(** The exponent part at the head of [s], if there is one: [e] or [E], a
    sign or none, and at least one digit. *)
Definition scanExponent (s : jsstring) : Z :=
  match s with
  | c :: rest =>
      if ((c =? 101) || (c =? 69))%N then
        let '(negative, unsigned) :=
          match rest with
          | 45%N :: rest' => (true, rest')
          | 43%N :: rest' => (false, rest')
          | _ => (false, rest)
          end in
        match spanDigits unsigned with
        | ([], _) => 0%Z
        | (es, _) => if negative then (- digitsValue es)%Z else digitsValue es
        end
      else 0%Z
  | [] => 0%Z
  end.

Definition scanDecimal (s : jsstring) : option DecimalLiteral :=
  let '(ds, after) := spanDigits s in
  match after with
  | 46%N :: after' =>
      let '(fs, after'') := spanDigits after' in
      match ds, fs with
      | [], [] => None
      | _, _ =>
          Some {| integerDigits := ds; fractionDigits := fs;
                  exponent := scanExponent after'' |}
      end
  | _ =>
      match ds with
      | [] => None
      | _ =>
          Some {| integerDigits := ds; fractionDigits := [];
                  exponent := scanExponent after |}
      end
  end.

(** The Number nearest to the value of a literal. *)
Definition literalValue (l : DecimalLiteral) : float :=
  let digits := digitsValue (integerDigits l ++ fractionDigits l) in
  let scale := (exponent l - Z.of_nat (length (fractionDigits l)))%Z in
  if (digits =? 0)%Z then 0%float
  else if (0 <=? scale)%Z then nearestNumber (digits * 10 ^ scale) 1
  else nearestNumber digits (10 ^ (- scale)).

Fixpoint startsWith (pattern s : jsstring) : bool :=
  match pattern, s with
  | [], _ => true
  | p :: pattern', c :: s' => (p =? c)%N && startsWith pattern' s'
  | _ :: _, [] => false
  end.

Definition parseFloat (string : jsstring) : float :=
  let trimmed := trimStart string in
  let '(negative, unsigned) :=
    match trimmed with
    | 45%N :: rest => (true, rest)
    | 43%N :: rest => (false, rest)
    | _ => (false, trimmed)
    end in
  let number :=
    if startsWith (lit "Infinity") unsigned then infinity
    else
      match scanDecimal unsigned with
      | Some l => literalValue l
      | None => nan
      end in
  if negative then (- number)%float else number.

(** [formatExecutionTime(startTime)], with [endTime] what
    [performance.now()] returns in it. *)
Definition formatExecutionTime (startTime endTime : float) : jsstring :=
  let executionTime := (endTime - startTime)%float in
  if (executionTime <? 1000)%float then roundedToString executionTime ++ lit "ms"
  else toFixed (executionTime / 1000)%float 2 ++ lit "s".

(** [fileSize/(parseFloat(executionTime)/1000)]: what [displayResults]
    gives to [formatFileSize] for the line of the processing speed. *)
Definition processingSpeed (fileSize : N) (executionTime : jsstring) : float :=
  (countToNumber fileSize / (parseFloat executionTime / 1000))%float.

(** ** More predicates the properties are stated with *)

(** No text of the column holds a semicolon. *)
Definition semicolonFreeColumn (stats : ColumnReport) : bool :=
  avoids SEMI (name stats)
  && avoids SEMI (type_name stats)
  && forallb (avoids SEMI) (subtypes (type_details stats))
  && forallb (avoids SEMI) (format_examples (type_details stats))
  && avoids SEMI (or_else (min_value stats) [])
  && avoids SEMI (or_else (max_value stats) []).

(** The units of the cells that [index.js] computes from Numbers: those
    [toFixed] writes, the space, the two parentheses and the percent sign. *)
Definition computed (c : N) : bool :=
  numeric c || existsb (N.eqb c) (lit " ()%").

(** The keys of [labels]. *)
Definition knownTypes : list jsstring := map fst labels.

(** [s] ends with [suffix]. *)
Definition endsWith (suffix s : jsstring) : Prop := exists t, s = t ++ suffix.

(** A unit at which [parseFloat] stops reading, wherever it stands: no
    white space, and no unit of a decimal literal or of [Infinity]. *)
Definition stopsNumber (c : N) : bool :=
  negb (isWhiteSpace c || isDigit c || existsb (N.eqb c) (lit "+-.eEInfinity")).

(** How many times the unit [c] occurs in [s]. *)
Definition occurrences (c : N) (s : jsstring) : nat :=
  length (List.filter (fun u => (u =? c)%N) s).

(** What follows a number in a text makes [parseInt] read on: a digit, or
    the [x] that turns a leading zero into the mark of radix 16. *)
Definition continuesInteger (rest : jsstring) : bool :=
  match rest with
  | c :: _ => isDigit c || (c =? 120)%N || (c =? 88)%N
  | [] => false
  end.

(** A cell of the head of the table, as the template of [displayResults]
    writes it. *)
Definition headCell (text : jsstring) : jsstring :=
  lit "
                        <th>" ++ text ++ lit "</th>".

(** [s.includes(pattern)]: the text [pattern] stands somewhere in [s]. *)
Fixpoint occursIn (pattern s : jsstring) : bool :=
  startsWith pattern s
  || match s with
     | [] => false
     | _ :: rest => occursIn pattern rest
     end.

(** The sixth field of the line [i] of a text of semicolon-separated lines,
    the line of the header being line 0. *)
Definition sixthField (i : nat) (csv : jsstring) : option jsstring :=
  line ← split_on LF csv !! i;
  split_on SEMI line !! 5%nat.

(** The names of the properties every object inherits from
    [Object.prototype]. [labels[type]] finds them as well as the own
    properties of [labels], and what it finds under such a name is a
    function or an object, which is truthy and no text: [getTypeLabel] is the
    function of [index.js] for every [type] outside these names. *)
Definition objectPrototypeKeys : list jsstring :=
  [ lit "constructor";
    lit "hasOwnProperty";
    lit "isPrototypeOf";
    lit "propertyIsEnumerable";
    lit "toLocaleString";
    lit "toString";
    lit "valueOf";
    lit "__proto__";
    lit "__defineGetter__";
    lit "__defineSetter__";
    lit "__lookupGetter__";
    lit "__lookupSetter__" ].

Definition inherited (type : jsstring) : bool :=
  existsb (fun key => bool_decide (key = type)) objectPrototypeKeys.

(** ** The value of the number field

    [setupUI] creates the field of the sample size as an [input] of type
    [number]. The [value] of such a field is the text committed in it when
    that text is a valid floating-point number of HTML, and the empty text
    otherwise. A valid floating-point number is an optional minus sign,
    then digits, or a point followed by digits, or both in that order, then
    optionally an exponent: [e] or [E], an optional sign, and digits. *)
Definition validExponent (s : jsstring) : bool :=
  match s with
  | [] => true
  | c :: rest =>
      ((c =? 101) || (c =? 69))%N
      && match spanDigits match rest with
                          | 45%N :: rest' => rest'
                          | 43%N :: rest' => rest'
                          | _ => rest
                          end with
         | (_ :: _, []) => true
         | _ => false
         end
  end.

Definition validFloatingPointNumber (s : jsstring) : bool :=
  let unsigned :=
    match s with
    | 45%N :: rest => rest
    | _ => s
    end in
  let '(ds, after) := spanDigits unsigned in
  match after with
  | 46%N :: after' =>
      let '(fs, after'') := spanDigits after' in
      match fs with
      | [] => false
      | _ :: _ => validExponent after''
      end
  | _ =>
      match ds with
      | [] => false
      | _ :: _ => validExponent after
      end
  end.

(** What [sampleSizeInput.value] reads once [text] is committed in the
    field. *)
Definition numberValue (text : jsstring) : jsstring :=
  if validFloatingPointNumber text then text else [].

(** [rest] begins with a digit. *)
Definition headIsDigit (rest : jsstring) : bool :=
  match rest with
  | c :: _ => isDigit c
  | [] => false
  end.

(** ** More pages and events the properties are stated with *)

(** An event that starts no read and settles none. *)
Definition keepsReads (ev : Event) : bool :=
  match ev with
  | ClickAnalyze | ReadSettled _ _ _ => false
  | _ => true
  end.

(** What [downloadCSV] may have been given: the export of a report, under
    the one name the page uses. *)
Definition exported (d : jsstring * jsstring) : Prop :=
  d.2 = lit "analyse_colonnes.csv" /\ exists analysis, d.1 = exportToCSV analysis.

Section Shown.

Context {Engine : Type}.

(** Where the results area holds a download button, it holds the table of
    the report that the button exports. *)
Definition shown (p : @Page Engine) : Prop :=
  match downloadButton p with
  | Some analysis => exists run, results_innerHTML p = resultsHtml run analysis
  | None => True
  end.

(** The controls of the sampling settings agree: the number field is
    disabled exactly when the box is unchecked. *)
Definition controlsAgree (p : @Page Engine) : Prop :=
  sampleSize_disabled p = negb (sampleSizeToggle_checked p).

(** Nothing of the package exists on the page, nothing was read, shown
    for download or downloaded. *)
Definition inert (p : @Page Engine) : Prop :=
  wasm_ready p = false /\ analyzer p = None /\ configs p = [] /\ analyzers p = []
  /\ pending p = [] /\ downloadButton p = None /\ downloads p = [].

End Shown.

(** The page once [gapFile] is chosen and the button clicked. *)
Definition readingGapFile : @Page Core.CSVAnalyzer :=
  sampleRun [SelectFile (Some gapFile); ClickAnalyze] samplePage.

(** * Properties *)

(** ** Texts free of a code unit *)

Lemma avoids_app c s t : avoids c (s ++ t) = avoids c s && avoids c t.
Proof. apply forallb_app. Qed.

Lemma avoids_cons_ne c d s : d <> c -> avoids c (d :: s) = avoids c s.
Proof.
  intros H. unfold avoids. cbn [forallb].
  rewrite (proj2 (N.eqb_neq d c) H). reflexivity.
Qed.

Lemma avoids_In c s : avoids c s = true <-> ~ In c s.
Proof.
  unfold avoids. rewrite forallb_forall. split.
  - intros H Hin. specialize (H c Hin). rewrite N.eqb_refl in H. discriminate.
  - intros H u Hu. destruct (N.eqb_spec u c) as [->|]; [contradiction | reflexivity].
Qed.

Lemma avoids_firstn c n s : avoids c s = true -> avoids c (firstn n s) = true.
Proof.
  rewrite <- (firstn_skipn n s) at 1. rewrite avoids_app.
  intros H. apply andb_prop in H. tauto.
Qed.

Lemma avoids_skipn c n s : avoids c s = true -> avoids c (skipn n s) = true.
Proof.
  rewrite <- (firstn_skipn n s) at 1. rewrite avoids_app.
  intros H. apply andb_prop in H. tauto.
Qed.

Lemma avoids_rev c s : avoids c (rev s) = avoids c s.
Proof.
  destruct (avoids c s) eqn:E.
  - apply avoids_In. apply avoids_In in E. rewrite <- in_rev. exact E.
  - destruct (avoids c (rev s)) eqn:E'; [| reflexivity].
    apply avoids_In in E'. rewrite <- in_rev in E'. apply avoids_In in E'. congruence.
Qed.

Lemma avoids_repeat c d n : d <> c -> avoids c (repeat d n) = true.
Proof.
  intros Hd. apply avoids_In. intros Hin. apply repeat_spec in Hin. congruence.
Qed.

Lemma avoids_join c sep parts :
  avoids c sep = true -> forallb (avoids c) parts = true ->
  avoids c (join sep parts) = true.
Proof.
  intros Hsep. induction parts as [|p rest IH]; [reflexivity |].
  cbn [forallb]. intros [Hp Hrest]%andb_prop.
  destruct rest as [|q rest']; [exact Hp |].
  change (join sep (p :: q :: rest')) with (p ++ sep ++ join sep (q :: rest')).
  rewrite !avoids_app, Hp, Hsep, (IH Hrest). reflexivity.
Qed.

(** ** Digits *)

Lemma uint_units_digits d : forallb isDigit (uint_units d) = true.
Proof. induction d; cbn; auto. Qed.

Lemma countToString_digits n : forallb isDigit (countToString n) = true.
Proof. apply uint_units_digits. Qed.

Lemma digits_avoid c s :
  isDigit c = false -> forallb isDigit s = true -> avoids c s = true.
Proof.
  intros Hc Hs. apply avoids_In. intros Hin.
  rewrite forallb_forall in Hs. rewrite (Hs c Hin) in Hc. discriminate.
Qed.

Lemma countToString_avoids c n : isDigit c = false -> avoids c (countToString n) = true.
Proof. intros Hc. apply digits_avoid; [exact Hc | apply countToString_digits]. Qed.

(** ** [toFixed] *)

Lemma stripZeros_suffix s : exists n, stripZeros s = skipn n s.
Proof.
  induction s as [|u s [n IH]]; [exists 0%nat; reflexivity |].
  destruct (N.eq_dec u 48%N) as [->|Hne].
  - exists (S n). exact IH.
  - exists 0%nat. destruct u as [|p]; [reflexivity |].
    do 6 (destruct p as [p|p|]; try reflexivity). congruence.
Qed.

Lemma stripZeros_avoids c s : avoids c s = true -> avoids c (stripZeros s) = true.
Proof.
  destruct (stripZeros_suffix s) as [n ->]. apply avoids_skipn.
Qed.

Lemma fixedDigits_avoids c n f :
  isDigit c = false -> c <> 46%N -> avoids c (fixedDigits n f) = true.
Proof.
  intros Hc Hdot. unfold fixedDigits, digitsZ.
  pose proof (countToString_avoids c (Z.to_N n) Hc) as Hm.
  destruct f as [|f]; [exact Hm |].
  set (m := if (length (countToString (Z.to_N n)) <=? S f)%nat then _ else _).
  assert (Hm' : avoids c m = true).
  { subst m. destruct (_ <=? _)%nat; [| exact Hm].
    rewrite avoids_app, Hm, avoids_repeat; [reflexivity |].
    intros <-. discriminate. }
  rewrite !avoids_app, avoids_firstn, avoids_skipn by exact Hm'.
  rewrite avoids_cons_ne by congruence. reflexivity.
Qed.

Lemma exponential_avoids c m e :
  isDigit c = false -> c <> 46%N -> c <> 101%N -> c <> 43%N ->
  avoids c (exponential m e) = true.
Proof.
  intros Hc Hdot He Hplus. unfold exponential.
  set (ds := digitsZ _).
  set (expo := lit "e+" ++ _).
  assert (Hexpo : avoids c expo = true).
  { subst expo. rewrite avoids_app, countToString_avoids by exact Hc.
    change (lit "e+") with [101%N; 43%N].
    rewrite !avoids_cons_ne by congruence. reflexivity. }
  assert (Hs : avoids c (rev (stripZeros (rev ds))) = true).
  { rewrite avoids_rev. apply stripZeros_avoids. rewrite avoids_rev.
    apply countToString_avoids, Hc. }
  destruct (rev (stripZeros (rev ds))) as [|d [|d' more]]; [exact Hexpo | |].
  - destruct (N.eq_dec d c) as [->|Hd].
    + unfold avoids in Hs. cbn [forallb] in Hs. rewrite N.eqb_refl in Hs. discriminate.
    + rewrite avoids_cons_ne by exact Hd. exact Hexpo.
  - destruct (N.eq_dec d c) as [->|Hd].
    + unfold avoids in Hs. cbn [forallb] in Hs. rewrite N.eqb_refl in Hs. discriminate.
    + rewrite avoids_cons_ne in Hs by exact Hd.
      rewrite avoids_cons_ne by exact Hd.
      rewrite avoids_cons_ne by congruence.
      rewrite avoids_app, Hs, Hexpo. reflexivity.
Qed.

Lemma toFixed_avoids c x f : numeric c = false -> avoids c (toFixed x f) = true.
Proof.
  intros Hc. unfold numeric in Hc. apply orb_false_elim in Hc as [Hd Hl].
  change (lit ".-+eNaInfity")
    with [46; 45; 43; 101; 78; 97; 73; 110; 102; 105; 116; 121]%N in Hl.
  cbn [existsb] in Hl. repeat (apply orb_false_elim in Hl as [? Hl]).
  repeat match goal with H : (_ =? _)%N = false |- _ => apply N.eqb_neq in H end.
  unfold toFixed.
  destruct (Prim2SF x) as [s | [|] | | s m e].
  - apply fixedDigits_avoids; assumption.
  - change (lit "-Infinity") with [45; 73; 110; 102; 105; 110; 105; 116; 121]%N.
    rewrite !avoids_cons_ne by congruence. reflexivity.
  - change (lit "Infinity") with [73; 110; 102; 105; 110; 105; 116; 121]%N.
    rewrite !avoids_cons_ne by congruence. reflexivity.
  - change (lit "NaN") with [78; 97; 78]%N.
    rewrite !avoids_cons_ne by congruence. reflexivity.
  - rewrite avoids_app. apply andb_true_intro. split.
    + destruct s; [| reflexivity].
      change (lit "-") with [45%N].
      rewrite !avoids_cons_ne by congruence. reflexivity.
    + destruct (atLeast1e21 m e).
      * apply exponential_avoids; assumption.
      * apply fixedDigits_avoids; assumption.
Qed.

Lemma not_all_digits c s : In c s -> isDigit c = false -> forallb isDigit s = false.
Proof.
  intros Hin Hc. destruct (forallb isDigit s) eqn:E; [| reflexivity].
  rewrite forallb_forall in E. rewrite (E c Hin) in Hc. discriminate.
Qed.

Lemma fixedDigits_point n f : In 46%N (fixedDigits n (S f)).
Proof.
  unfold fixedDigits. rewrite !in_app_iff. right. left. left. reflexivity.
Qed.

Lemma exponential_letter m e : In 101%N (exponential m e).
Proof.
  unfold exponential.
  set (expo := lit "e+" ++ _).
  assert (Hexpo : In 101%N expo) by (left; reflexivity).
  destruct (rev _) as [|d [|d' more]]; [exact Hexpo | right; exact Hexpo |].
  right. right. apply in_app_iff. right. exact Hexpo.
Qed.

(** With a digit after the point asked for, [toFixed] never writes digits
    alone. *)
Lemma toFixed_not_digits x f : forallb isDigit (toFixed x (S f)) = false.
Proof.
  unfold toFixed.
  destruct (Prim2SF x) as [s | [|] | | s m e]; try reflexivity.
  - apply not_all_digits with (c := 46%N); [apply fixedDigits_point | reflexivity].
  - rewrite forallb_app. apply andb_false_intro2.
    destruct (atLeast1e21 m e).
    + apply not_all_digits with (c := 101%N); [apply exponential_letter | reflexivity].
    + apply not_all_digits with (c := 46%N); [apply fixedDigits_point | reflexivity].
Qed.

(** [roundScaled m e f] is a nearest integer to [m * 2^e * 10^f]: twice
    their distance is at most one, and the tie goes upwards. *)
Lemma roundScaled_nearest m e f :
  (e < 0)%Z ->
  let d := (2 ^ (- e))%Z in
  let scaled := (Z.pos m * 10 ^ Z.of_nat f)%Z in
  (2 * scaled - d < 2 * d * roundScaled m e f <= 2 * scaled + d)%Z.
Proof.
  intros He d scaled. unfold roundScaled.
  destruct (Z.leb_spec 0 e) as [Hle|_]; [lia |].
  fold d scaled.
  assert (Hd : (0 < 2 * d)%Z) by (subst d; apply Z.mul_pos_pos; [lia | apply Z.pow_pos_nonneg; lia]).
  pose proof (Z.mul_div_le (2 * scaled + d) (2 * d) Hd).
  pose proof (Z.mul_succ_div_gt (2 * scaled + d) (2 * d) Hd).
  lia.
Qed.

(** ** C9 *)

(** C9. [formatAnalyzedValues analyzed total] is the text
    "<analyzed> (100%)" exactly when [analyzed] equals [total]; no division
    takes place then, so that two zero counts give "0 (100%)"; and when the
    counts differ, the percentage is [(analyzed / total) * 100] written by
    [toFixed] with one digit after the point. *)
Theorem formatAnalyzedValues_full (analyzed total : N) :
  (formatAnalyzedValues analyzed total = countToString analyzed ++ lit " (100%)"
   <-> analyzed = total)
  /\ formatAnalyzedValues 0 0 = lit "0 (100%)"
  /\ (analyzed <> total ->
      formatAnalyzedValues analyzed total =
        countToString analyzed ++ lit " ("
        ++ toFixed (countToNumber analyzed / countToNumber total * 100)%float 1
        ++ lit "%)").
Proof.
  split; [| split].
  - split.
    + intros H. destruct (N.eq_dec analyzed total) as [-> | Hne]; [reflexivity |].
      exfalso. unfold formatAnalyzedValues in H.
      rewrite (proj2 (N.eqb_neq _ _) Hne) in H. cbv zeta in H.
      apply app_inv_head in H.
      change (lit " (100%)") with (lit " (" ++ lit "100" ++ lit "%)") in H.
      apply app_inv_head in H. apply app_inv_tail in H.
      pose proof (toFixed_not_digits
                    (countToNumber analyzed / countToNumber total * 100)%float 0) as Hd.
      rewrite H in Hd. discriminate Hd.
    + intros ->. unfold formatAnalyzedValues. rewrite N.eqb_refl. reflexivity.
  - reflexivity.
  - intros Hne. unfold formatAnalyzedValues.
    rewrite (proj2 (N.eqb_neq _ _) Hne). reflexivity.
Qed.

(** A total of zero with a count that differs from it does go through the
    division. *)
Example formatAnalyzedValues_zero_total :
  formatAnalyzedValues 1 0 = lit "1 (Infinity%)"
  /\ formatAnalyzedValues 1 3 = lit "1 (33.3%)"
  /\ formatAnalyzedValues 1999 2000 = lit "1999 (100.0%)".
Proof. repeat split; vm_compute; reflexivity. Qed.

(** ** Lines of a text *)

Lemma split_on_clean sep s : avoids sep s = true -> split_on sep s = [s].
Proof.
  induction s as [|c s IH]; [reflexivity |].
  unfold avoids. cbn [forallb split_on]. intros [Hc Hs]%andb_prop.
  apply negb_true_iff in Hc. rewrite Hc. rewrite (IH Hs). reflexivity.
Qed.

Lemma split_on_app sep s t :
  avoids sep s = true -> split_on sep (s ++ sep :: t) = s :: split_on sep t.
Proof.
  induction s as [|c s IH].
  - intros _. cbn. rewrite N.eqb_refl. reflexivity.
  - unfold avoids. cbn [forallb]. intros [Hc Hs]%andb_prop.
    apply negb_true_iff in Hc. cbn [app split_on]. rewrite Hc.
    rewrite (IH Hs). reflexivity.
Qed.

Lemma split_on_join sep p parts :
  forallb (avoids sep) (p :: parts) = true ->
  split_on sep (join [sep] (p :: parts)) = p :: parts.
Proof.
  revert p. induction parts as [|q parts IH]; intros p H.
  - cbn in H |- *. apply andb_prop in H as [Hp _]. apply split_on_clean, Hp.
  - cbn [forallb] in H. apply andb_prop in H as [Hp Hrest].
    change (join [sep] (p :: q :: parts)) with (p ++ sep :: join [sep] (q :: parts)).
    rewrite split_on_app by exact Hp. rewrite IH by exact Hrest. reflexivity.
Qed.

Lemma join_cons_head c sep p parts :
  c :: join sep (p :: parts) = join sep ((c :: p) :: parts).
Proof. destruct parts; reflexivity. Qed.

(** ** The cells of a row *)

Lemma property_In o key v : property o key = Some v -> In v (map snd o).
Proof.
  induction o as [|[k w] o IH]; [discriminate |].
  cbn [property]. destruct (decide (k = key)).
  - intros [= ->]. left. reflexivity.
  - intros H. right. apply IH, H.
Qed.

Lemma or_else_cases v d : or_else v d = d \/ v = Some (or_else v d).
Proof. destruct v as [[|c s]|]; cbn; auto. Qed.

Lemma getTypeLabel_avoids_LF type :
  avoids LF type = true -> avoids LF (getTypeLabel type) = true.
Proof.
  intros H. unfold getTypeLabel.
  destruct (or_else_cases (property labels type) type) as [-> | Hl]; [exact H |].
  apply property_In in Hl.
  assert (Hall : forallb (avoids LF) (map snd labels) = true) by (vm_compute; reflexivity).
  rewrite forallb_forall in Hall. apply Hall, Hl.
Qed.

Lemma formatConfidence_avoids_LF x : avoids LF (formatConfidence x) = true.
Proof.
  unfold formatConfidence. rewrite avoids_app, toFixed_avoids by reflexivity.
  reflexivity.
Qed.

Lemma formatAnalyzedValues_avoids_LF analyzed total :
  avoids LF (formatAnalyzedValues analyzed total) = true.
Proof.
  unfold formatAnalyzedValues. destruct (analyzed =? total)%N; cbv zeta.
  - rewrite avoids_app, countToString_avoids by reflexivity. reflexivity.
  - rewrite !avoids_app, countToString_avoids, toFixed_avoids by reflexivity.
    reflexivity.
Qed.

Lemma forallb_map_avoids (f : jsstring -> jsstring) parts :
  (forall s, avoids LF s = true -> avoids LF (f s) = true) ->
  forallb (avoids LF) parts = true -> forallb (avoids LF) (map f parts) = true.
Proof.
  intros Hf. induction parts as [|p parts IH]; [reflexivity |].
  cbn [forallb map]. intros [Hp Hrest]%andb_prop.
  rewrite (Hf p Hp), (IH Hrest). reflexivity.
Qed.

Lemma exportRow_avoids_LF stats :
  lineFreeColumn stats = true -> avoids LF (exportRow stats) = true.
Proof.
  unfold lineFreeColumn. intros H.
  repeat (apply andb_prop in H as [H ?]).
  unfold exportRow. apply avoids_join; [reflexivity |].
  unfold rowFields. cbn [map toString forallb].
  rewrite H, getTypeLabel_avoids_LF, formatConfidence_avoids_LF,
    formatAnalyzedValues_avoids_LF by assumption.
  rewrite !avoids_join; try reflexivity; try assumption.
  - rewrite !countToString_avoids by reflexivity.
    repeat match goal with Hx : _ = true |- _ => rewrite Hx end. reflexivity.
  - apply forallb_map_avoids; [apply getTypeLabel_avoids_LF | assumption].
Qed.

(** ** C1 *)

(** C1 (corrected). The text [exportToCSV] returns is a function of the
    report alone: the byte-order mark, then the fixed header of thirteen
    fields separated by semicolons, then one row per column of the report,
    in the order of the columns, each row joined from the fields of its
    column, with a line feed between consecutive rows. When no text of the
    report holds a line feed, the lines of the export are the header line
    followed by exactly one line per column. *)
Theorem exportToCSV_lines (analysis : AnalysisReport) :
  split_on SEMI headers = headerFields
  /\ length headerFields = 13%nat
  /\ avoids LF headers = true
  /\ exportToCSV analysis
     = join [LF] ((BOM :: headers) :: map exportRow (columns analysis))
  /\ (forallb lineFreeColumn (columns analysis) = true ->
      split_on LF (exportToCSV analysis)
      = (BOM :: headers) :: map exportRow (columns analysis)).
Proof.
  split; [vm_compute; reflexivity |].
  split; [reflexivity |].
  split; [vm_compute; reflexivity |].
  split; [apply join_cons_head |].
  intros H. unfold exportToCSV. rewrite join_cons_head.
  apply split_on_join. cbn [forallb].
  apply andb_true_intro. split; [vm_compute; reflexivity |].
  induction (columns analysis) as [|stats rest IH]; [reflexivity |].
  cbn [forallb map] in H |- *. apply andb_prop in H as [Hs Hrest].
  rewrite (exportRow_avoids_LF stats Hs), (IH Hrest). reflexivity.
Qed.

(** C1 on a report with one column of integers: its export has two
    lines. *)
Lemma exportToCSV_lines_idReport :
  split_on LF (exportToCSV idReport) = [BOM :: headers; exportRow idColumn].
Proof.
  destruct (exportToCSV_lines idReport) as (_ & _ & _ & _ & H).
  apply H. vm_compute. reflexivity.
Defined.

(** C1 (counterexample). The export of a report with one column, whose
    example and extrema are a value on two lines, has the header line and
    four more lines. *)
Lemma exportToCSV_notesReport_lines :
  length (columns notesReport) = 1%nat
  /\ length (split_on LF (exportToCSV notesReport)) = 5%nat.
Proof. split; vm_compute; reflexivity. Qed.

(** ** The table and the export, cell by cell *)

Lemma columnRowHtml_cells stats : columnRowHtml stats = tableRow (tableCells stats).
Proof.
  unfold columnRowHtml, tableRow, tableCells, tableCell.
  cbn [map concat].
  repeat rewrite <- app_assoc.
  repeat (reflexivity || (f_equal; [])).
Qed.

Lemma fold_left_append {A : Type} (f : A -> jsstring) (l : list A) (init : jsstring) :
  fold_left (fun html x => html ++ f x) l init = init ++ concat (map f l).
Proof.
  revert init. induction l as [|x l IH]; intros init; cbn [fold_left map concat].
  - symmetry. apply app_nil_r.
  - rewrite IH, <- app_assoc. reflexivity.
Qed.

(** The markup of the results: the head, one table row per column, the
    tail. *)
Lemma resultsHtml_rows run analysis :
  resultsHtml run analysis
  = resultsHead run analysis
    ++ concat (map (fun stats => tableRow (tableCells stats)) (columns analysis))
    ++ resultsTail.
Proof.
  unfold resultsHtml. rewrite fold_left_append, <- app_assoc.
  f_equal. f_equal. f_equal. apply map_ext. intros stats. apply columnRowHtml_cells.
Qed.

(** ** C10 *)


(** ** C6 *)

(** C6. The summary of the results holds the line "Mode d'analyse", the
    only text of the markup that depends on the [sample_size] of the report:
    it reads "Analyse complète" when [sample_size] is null, and
    "Échantillonnage (n valeurs max)" when it is a positive [n]. *)
Theorem displayed_mode (run : RunInfo) (analysis : AnalysisReport) :
  exists before after,
    (forall cap,
        resultsHtml run (withSampleSize cap analysis)
        = before ++ lit "<p>Mode d'analyse: " ++ analysisMode cap ++ lit "</p>" ++ after)
    /\ analysisMode None = lit "Analyse complète"
    /\ forall n, (0 < n)%N ->
         analysisMode (Some n)
         = lit "Échantillonnage (" ++ countToString n ++ lit " valeurs max)".
Proof.
  exists (summaryHtml run analysis).
  exists (tableHeadHtml
          ++ concat (map (fun stats => tableRow (tableCells stats)) (columns analysis))
          ++ resultsTail).
  split; [| split].
  - intros cap. rewrite resultsHtml_rows. unfold resultsHead.
    repeat rewrite <- app_assoc. reflexivity.
  - reflexivity.
  - intros n Hn. unfold analysisMode.
    destruct (N.eqb_spec n 0) as [-> | _]; [lia | reflexivity].
Qed.

(** The two modes on a report, and a cap of zero, which the summary shows
    as a full analysis. *)
Example displayed_mode_idReport :
  analysisMode (sample_size idReport) = lit "Analyse complète"
  /\ analysisMode (Some 1000%N) = lit "Échantillonnage (1000 valeurs max)"
  /\ analysisMode (Some 0%N) = lit "Analyse complète".
Proof. repeat split; vm_compute; reflexivity. Qed.

(** ** The page: what the listeners do *)

Section PageProperties.

Context {Engine : Type}.
Variable engine_new : option float -> Engine.
Variable engine_analyze : Engine -> jsstring -> (AnalysisReport + Thrown) * Engine.
Variable null_call_error : Thrown.

Abbreviation Page := (@Page Engine).
Abbreviation step := (step engine_new engine_analyze null_call_error).
Abbreviation run := (run engine_new engine_analyze null_call_error).
Abbreviation boot := (boot engine_new null_call_error).
Abbreviation rebuilt := (rebuilt engine_new).

Lemma insert_last {A : Type} (l : list A) (x y : A) :
  <[length l := y]> (l ++ [x]) = l ++ [y].
Proof.
  rewrite insert_app_r_alt by lia. rewrite Nat.sub_diag. reflexivity.
Qed.

Lemma lookup_last {A : Type} (l : list A) (x : A) : (l ++ [x]) !! length l = Some x.
Proof. apply list_lookup_middle. reflexivity. Qed.

(** The four statements that build an analyzer, run where the package is
    ready. *)
Lemma rebuild_ready (v : option float) (p : Page) :
  wasm_ready p = true ->
  (config ← newAnalyzerConfig null_call_error;
   setSampleSize config v;;
   a ← newCSVAnalyzer engine_new null_call_error config;
   modify (set_analyzer (Some a))) p
  = (inl tt, rebuilt v p).
Proof.
  intros Hready.
  unfold mbind, Js_bind, newAnalyzerConfig, setSampleSize, newCSVAnalyzer, modify.
  rewrite Hready. cbn [configs set_configs analyzers].
  rewrite insert_last, lookup_last. reflexivity.
Qed.

Lemma rebuild_not_ready (v : option float) (p : Page) :
  wasm_ready p = false ->
  (config ← newAnalyzerConfig null_call_error;
   setSampleSize config v;;
   a ← newCSVAnalyzer engine_new null_call_error config;
   modify (set_analyzer (Some a))) p
  = (inr null_call_error, p).
Proof.
  intros Hready. unfold mbind, Js_bind, newAnalyzerConfig. rewrite Hready. reflexivity.
Qed.

Ltac js_unfold :=
  cbv [dispatch mbind Js_bind mret Js_ret gets modify throw try_catch
       try_catch_finally newAnalyzerConfig setSampleSize newCSVAnalyzer].

Ltac page_simpl :=
  cbn [wasm_ready configs analyzers analyzer sampleSizeToggle_checked
       sampleSize_value sampleSize_disabled fileInput_files fileInfo_textContent
       fileInfo_display analyzeBtn_disabled results_innerHTML downloadButton
       pending downloads
       set_wasm_ready set_configs set_analyzers set_analyzer
       set_sampleSizeToggle_checked set_sampleSize_value set_sampleSize_disabled
       set_fileInput_files set_fileInfo set_analyzeBtn_disabled
       set_results_innerHTML set_downloadButton set_pending set_downloads
       fst snd negb] in *.

Lemma step_toggle (p : Page) :
  step ToggleSampling p
  = let q := set_sampleSize_disabled (sampleSizeToggle_checked p)
               (set_sampleSizeToggle_checked (negb (sampleSizeToggle_checked p)) p) in
    if wasm_ready p then rebuilt (askedSetting q) q else q.
Proof.
  unfold step, onSampleSizeToggleChange, rebuilt, askedSetting. js_unfold. page_simpl.
  destruct (wasm_ready p) eqn:Hready, (sampleSizeToggle_checked p) eqn:Hc;
    page_simpl; rewrite ?insert_last, ?lookup_last; page_simpl;
    rewrite ?Hc; reflexivity.
Qed.

Lemma step_edit (value : jsstring) (p : Page) :
  step (EditSampleSize value) p
  = let q := set_sampleSize_value value p in
    if sampleSizeToggle_checked p && wasm_ready p then rebuilt (askedSetting q) q else q.
Proof.
  unfold step, onSampleSizeChange, rebuilt, askedSetting. js_unfold. page_simpl.
  destruct (sampleSizeToggle_checked p) eqn:Hc, (wasm_ready p) eqn:Hready;
    page_simpl; rewrite ?Hready; page_simpl;
    rewrite ?insert_last, ?lookup_last; page_simpl; reflexivity.
Qed.

(** *** What the other events keep *)

Lemma analyzer_analyze_view (content : jsstring) (p : Page) :
  view (analyzer_analyze engine_analyze null_call_error content p).2 = view p.
Proof.
  unfold analyzer_analyze.
  destruct (analyzer p) as [a|] eqn:Ha; [| reflexivity].
  destruct (analyzers p !! a) as [o|] eqn:Ho; [| reflexivity].
  destruct (engine_analyze (CSVAnalyzer.engine o) content) as [result e'].
  assert (Hview : view (set_analyzers
                          (<[a := {| CSVAnalyzer.config := CSVAnalyzer.config o;
                                     CSVAnalyzer.built_with := CSVAnalyzer.built_with o;
                                     CSVAnalyzer.engine := e' |}]> (analyzers p)) p)
                  = view p).
  { unfold view. page_simpl. rewrite list_fmap_insert.
    rewrite list_insert_id; [reflexivity |].
    rewrite list_lookup_fmap, Ho. reflexivity. }
  destruct result; exact Hview.
Qed.

Lemma afterRead_page (file : File) (rejection : option Thrown) (run : RunInfo) (p : Page) :
  dispatch (afterRead engine_analyze null_call_error file rejection run) p
  = match
      match rejection with
      | Some error => (inr error, p)
      | None => analyzer_analyze engine_analyze null_call_error (file_text file) p
      end
    with
    | (inl analysis, p1) =>
        set_analyzeBtn_disabled false
          (set_downloadButton (Some analysis)
             (set_results_innerHTML (resultsHtml run analysis) p1))
    | (inr error, p1) =>
        set_analyzeBtn_disabled false (set_results_innerHTML (errorHtml error) p1)
    end.
Proof.
  unfold afterRead, displayResults. js_unfold.
  destruct rejection as [error|]; [reflexivity |].
  destruct (analyzer_analyze engine_analyze null_call_error (file_text file) p)
    as [[analysis | error] p1]; reflexivity.
Qed.

Lemma step_view (ev : Event) (p : Page) :
  leavesSampling ev = true -> view (step ev p) = view p.
Proof.
  destruct ev as [| value | file | | k rejection info |]; try discriminate; intros _.
  - unfold step, onFileInputChange. js_unfold. page_simpl.
    destruct file; reflexivity.
  - unfold step, onAnalyzeClick. js_unfold. page_simpl.
    destruct (fileInput_files p), (analyzer p); reflexivity.
  - unfold step. destruct (pending p !! k) as [file|]; [| reflexivity].
    rewrite afterRead_page.
    destruct rejection as [error|]; [reflexivity |].
    pose proof (analyzer_analyze_view (file_text file)
                  (set_pending (delete k (pending p)) p)) as Hv.
    destruct (analyzer_analyze _ _ _ _) as [[analysis | error] p1];
      cbn [snd] in Hv; exact Hv.
  - unfold step, onDownloadClick. js_unfold. page_simpl.
    destruct (downloadButton p); reflexivity.
Qed.

(** *** The invariant *)

Lemma view_eq (p q : Page) :
  view p = view q ->
  wasm_ready p = wasm_ready q /\ configs p = configs q
  /\ shape <$> analyzers p = shape <$> analyzers q /\ analyzer p = analyzer q
  /\ sampleSizeToggle_checked p = sampleSizeToggle_checked q
  /\ sampleSize_value p = sampleSize_value q.
Proof. unfold view. intros [= -> -> -> -> -> ->]. repeat split. Qed.

Lemma currentSetting_shapes (p : Page) :
  currentSetting p
  = (a ← analyzer p;
     s ← (shape <$> analyzers p) !! a;
     c ← configs p !! s.1;
     Some (AnalyzerConfig.sample_size c)).
Proof.
  unfold currentSetting. destruct (analyzer p) as [a|]; [| reflexivity].
  cbn [mbind option_bind]. rewrite list_lookup_fmap.
  destruct (analyzers p !! a); reflexivity.
Qed.

Lemma currentSetting_view (p q : Page) :
  view p = view q -> currentSetting p = currentSetting q.
Proof.
  intros (_ & Hc & Hs & Ha & _)%view_eq.
  rewrite !currentSetting_shapes, Hc, Hs, Ha. reflexivity.
Qed.

Lemma askedSetting_view (p q : Page) :
  view p = view q -> askedSetting p = askedSetting q.
Proof.
  intros (_ & _ & _ & _ & Ht & Hv)%view_eq. unfold askedSetting.
  rewrite Ht, Hv. reflexivity.
Qed.

Lemma bound_view (p q : Page) : view p = view q -> bound q -> bound p.
Proof.
  intros (_ & Hc & Hs & _)%view_eq Hb a s. rewrite Hc, Hs. apply Hb.
Qed.

Lemma current_view (p q : Page) : view p = view q -> current q -> current p.
Proof.
  intros Hv. pose proof (currentSetting_view _ _ Hv) as Hcs.
  pose proof (askedSetting_view _ _ Hv) as Has.
  apply view_eq in Hv as (Hr & _ & _ & Ha & _).
  unfold current. rewrite Hr, Hcs, Has, Ha. auto.
Qed.

Lemma currentSetting_rebuilt (v : option float) (q : Page) :
  currentSetting (rebuilt v q) = Some v.
Proof.
  unfold currentSetting, rebuilt. page_simpl. cbn [mbind option_bind].
  rewrite lookup_last. cbn [mbind option_bind CSVAnalyzer.config].
  rewrite lookup_last. reflexivity.
Qed.

Lemma bound_rebuilt (v : option float) (q : Page) : bound q -> bound (rebuilt v q).
Proof.
  intros Hb a s. unfold rebuilt. page_simpl. rewrite fmap_app.
  intros Hs. apply lookup_app_Some in Hs as [Hs | [Hlen Hs]].
  - destruct (Hb a s Hs) as (c & Hc & Hv). exists c. split; [| exact Hv].
    apply lookup_app_l_Some, Hc.
  - cbn [fmap list_fmap] in Hs.
    destruct (a - length (shape <$> analyzers q))%nat; [| discriminate].
    injection Hs as <-. cbn [shape fst snd CSVAnalyzer.config CSVAnalyzer.built_with].
    eexists. split; [apply lookup_last | reflexivity].
Qed.

Lemma step_invariant (ev : Event) (p : Page) : invariant p -> invariant (step ev p).
Proof.
  intros [Hb Hc].
  destruct (leavesSampling ev) eqn:Hev.
  - pose proof (step_view ev p Hev) as Hv.
    split; [eapply bound_view | eapply current_view]; eassumption.
  - destruct ev as [| value | | | |]; try discriminate.
    + rewrite step_toggle. cbv zeta.
      set (q := set_sampleSize_disabled _ _).
      unfold current in Hc. destruct (wasm_ready p) eqn:Hready.
      * split; [apply bound_rebuilt; exact Hb |].
        unfold current. change (wasm_ready (rebuilt (askedSetting q) q)) with (wasm_ready p).
        rewrite Hready. apply currentSetting_rebuilt.
      * split; [exact Hb |]. unfold current.
        change (wasm_ready q) with (wasm_ready p). rewrite Hready. exact Hc.
    + rewrite step_edit. cbv zeta.
      set (q := set_sampleSize_value value p).
      unfold current in Hc.
      destruct (sampleSizeToggle_checked p) eqn:Hchecked, (wasm_ready p) eqn:Hready;
        cbn [andb].
      * split; [apply bound_rebuilt; exact Hb |].
        unfold current. change (wasm_ready (rebuilt (askedSetting q) q)) with (wasm_ready p).
        rewrite Hready. apply currentSetting_rebuilt.
      * split; [exact Hb |]. unfold current.
        change (wasm_ready q) with (wasm_ready p). rewrite Hready. exact Hc.
      * split; [exact Hb |]. unfold current.
        change (wasm_ready q) with (wasm_ready p). rewrite Hready.
        change (currentSetting q) with (currentSetting p). rewrite Hc.
        unfold askedSetting. subst q. page_simpl. rewrite Hchecked. reflexivity.
      * split; [exact Hb |]. unfold current.
        change (wasm_ready q) with (wasm_ready p). rewrite Hready. exact Hc.
Qed.

Lemma run_invariant (evs : list Event) (p : Page) : invariant p -> invariant (run evs p).
Proof.
  revert p. induction evs as [|ev evs IH]; intros p Hp; [exact Hp |].
  apply IH, step_invariant, Hp.
Qed.

Lemma boot_page (init_failure : option Thrown) (document : Page) :
  boot init_failure document
  = let start := moduleLoaded document in
    let built :=
      match init_failure with
      | Some _ => start
      | None => rebuilt None (set_wasm_ready true start)
      end in
    set_sampleSize_disabled true
      (set_sampleSize_value (lit "1000") (set_sampleSizeToggle_checked false built)).
Proof.
  unfold boot, initializeWasm, setupUI.
  set (start := moduleLoaded document).
  assert (Hstart : wasm_ready (set_wasm_ready true start) = true) by reflexivity.
  pose proof (rebuild_ready None (set_wasm_ready true start) Hstart) as Hbuild.
  revert Hbuild. generalize (rebuilt None (set_wasm_ready true start)).
  generalize (lit "1000").
  intros thousand built Hbuild.
  destruct init_failure as [error|].
  - reflexivity.
  - unfold dispatch, try_catch.
    unfold mbind at 1, Js_bind at 1.
    unfold mbind at 1, Js_bind at 1. unfold modify at 1.
    rewrite Hbuild. reflexivity.
Qed.

Lemma moduleLoaded_page (document : Page) :
  wasm_ready (moduleLoaded document) = false
  /\ configs (moduleLoaded document) = []
  /\ analyzers (moduleLoaded document) = []
  /\ analyzer (moduleLoaded document) = None.
Proof. repeat split. Qed.

Lemma boot_invariant (init_failure : option Thrown) (document : Page) :
  invariant (boot init_failure document).
Proof.
  rewrite boot_page. cbv zeta. generalize (lit "1000"). intros thousand.
  destruct (moduleLoaded_page document) as (Hr & Hcs & Has & Ha).
  generalize dependent (moduleLoaded document). intros start Hr Hcs Has Ha.
  assert (Hstart : bound (set_wasm_ready true start)).
  { intros a s Hs. page_simpl. rewrite Has in Hs. discriminate Hs. }
  destruct init_failure as [error|].
  - split.
    + intros a s Hs. page_simpl. rewrite Has in Hs. discriminate Hs.
    + unfold current. page_simpl. rewrite Hr. exact Ha.
  - pose proof (bound_rebuilt None _ Hstart) as Hb.
    pose proof (currentSetting_rebuilt None (set_wasm_ready true start)) as Hc.
    assert (Hready : wasm_ready (rebuilt None (set_wasm_ready true start)) = true)
      by reflexivity.
    generalize dependent (rebuilt None (set_wasm_ready true start)).
    intros built Hb Hc Hready.
    split.
    + intros a s Hs. page_simpl. exact (Hb a s Hs).
    + unfold current, askedSetting. page_simpl. rewrite Hready.
      rewrite <- Hc. reflexivity.
Qed.

Lemma reachable_invariant (init_failure : option Thrown) (document : Page)
    (evs : list Event) :
  invariant (run evs (boot init_failure document)).
Proof. apply run_invariant, boot_invariant. Qed.

(** *** The stores only grow *)

Lemma step_wasm_ready (ev : Event) (p : Page) : wasm_ready (step ev p) = wasm_ready p.
Proof.
  destruct (leavesSampling ev) eqn:Hev.
  - apply (view_eq _ _ (step_view ev p Hev)).
  - destruct ev as [| value | | | |]; try discriminate.
    + rewrite step_toggle. cbv zeta.
      destruct (wasm_ready p) eqn:Hready; unfold rebuilt; page_simpl; exact Hready.
    + rewrite step_edit. cbv zeta.
      destruct (sampleSizeToggle_checked p && wasm_ready p);
        unfold rebuilt; page_simpl; reflexivity.
Qed.

Lemma run_wasm_ready (evs : list Event) (p : Page) : wasm_ready (run evs p) = wasm_ready p.
Proof.
  revert p. induction evs as [|ev evs IH]; intros p; [reflexivity |].
  cbn [run fold_left]. fold (run evs (step ev p)). rewrite IH. apply step_wasm_ready.
Qed.

Lemma boot_wasm_ready (init_failure : option Thrown) (document : Page) :
  wasm_ready (boot init_failure document) = bool_decide (init_failure = None).
Proof. rewrite boot_page. destruct init_failure; reflexivity. Qed.

Lemma step_stores (ev : Event) (p : Page) :
  configs p `prefix_of` configs (step ev p)
  /\ (shape <$> analyzers p) `prefix_of` (shape <$> analyzers (step ev p)).
Proof.
  destruct (leavesSampling ev) eqn:Hev.
  - destruct (view_eq _ _ (step_view ev p Hev)) as (_ & -> & -> & _). split; reflexivity.
  - assert (Hgrow : forall v (q : Page),
               configs q = configs p -> analyzers q = analyzers p ->
               configs p `prefix_of` configs (rebuilt v q)
               /\ (shape <$> analyzers p) `prefix_of` (shape <$> analyzers (rebuilt v q))).
    { intros v q Hc Ha. unfold rebuilt. page_simpl. rewrite Hc, Ha, fmap_app.
      split; apply prefix_app_r; reflexivity. }
    destruct ev as [| value | | | |]; try discriminate.
    + rewrite step_toggle. cbv zeta. destruct (wasm_ready p).
      * apply Hgrow; reflexivity.
      * split; reflexivity.
    + rewrite step_edit. cbv zeta.
      destruct (sampleSizeToggle_checked p && wasm_ready p).
      * apply Hgrow; reflexivity.
      * split; reflexivity.
Qed.

Lemma run_stores (evs : list Event) (p : Page) :
  configs p `prefix_of` configs (run evs p)
  /\ (shape <$> analyzers p) `prefix_of` (shape <$> analyzers (run evs p)).
Proof.
  revert p. induction evs as [|ev evs IH]; intros p; [split; reflexivity |].
  cbn [run fold_left]. fold (run evs (step ev p)).
  destruct (step_stores ev p) as [Hc Ha], (IH (step ev p)) as [Hc' Ha'].
  split; etransitivity; eassumption.
Qed.

Lemma current_instance (p : Page) (a : nat) :
  invariant p -> analyzer p = Some a ->
  wasm_ready p = true
  /\ exists o c,
       analyzers p !! a = Some o
       /\ configs p !! CSVAnalyzer.config o = Some c
       /\ CSVAnalyzer.built_with o = AnalyzerConfig.sample_size c
       /\ AnalyzerConfig.sample_size c = askedSetting p.
Proof.
  intros [Hb Hc] Ha. unfold current in Hc.
  destruct (wasm_ready p); [| congruence]. split; [reflexivity |].
  unfold currentSetting in Hc. rewrite Ha in Hc. cbn [mbind option_bind] in Hc.
  destruct (analyzers p !! a) as [o|] eqn:Ho; [| discriminate].
  cbn [mbind option_bind] in Hc.
  destruct (configs p !! CSVAnalyzer.config o) as [c|] eqn:Hcfg; [| discriminate].
  injection Hc as Hc. exists o, c. repeat split; try assumption.
  destruct (Hb a (shape o)) as (c' & Hc' & Hv).
  { rewrite list_lookup_fmap, Ho. reflexivity. }
  cbn [shape fst snd] in Hc', Hv. congruence.
Qed.

(** ** C2 *)

(** C2. The page starts with sampling off. Whatever the user did since,
    the instance [analyzer] holds was constructed from a configuration whose
    [sample_size] is null when the box is unchecked, and [parseInt] of the
    value of the number field when it is checked; and [analyzer] is null
    only if [init()] failed. *)
Theorem analyzer_built_as_asked (init_failure : option Thrown) (document : Page)
    (evs : list Event) :
  let p := run evs (boot init_failure document) in
  sampleSizeToggle_checked (boot init_failure document) = false
  /\ match analyzer p with
     | Some a =>
         exists o c,
           analyzers p !! a = Some o
           /\ configs p !! CSVAnalyzer.config o = Some c
           /\ CSVAnalyzer.built_with o = AnalyzerConfig.sample_size c
           /\ AnalyzerConfig.sample_size c
              = if sampleSizeToggle_checked p
                then Some (parseInt (sampleSize_value p))
                else None
     | None => init_failure <> None
     end.
Proof.
  cbv zeta. split; [rewrite boot_page; reflexivity |].
  pose proof (reachable_invariant init_failure document evs) as Hinv.
  pose proof (run_wasm_ready evs (boot init_failure document)) as Hready.
  rewrite boot_wasm_ready in Hready.
  destruct (analyzer (run evs (boot init_failure document))) as [a|] eqn:Ha.
  - destruct (current_instance _ a Hinv Ha) as (_ & o & c & Ho & Hc & Hb & Hv).
    exists o, c. auto.
  - intros ->. destruct Hinv as [_ Hc]. unfold current in Hc.
    rewrite Hready in Hc. cbn in Hc. unfold currentSetting in Hc.
    rewrite Ha in Hc. discriminate Hc.
Qed.

(** ** C3 *)

(** C3. An instance in the store, and the configuration it was built
    from, are the same at any later time: the configuration still holds the
    value it held when the constructor ran. And every change of the
    sampling settings, made while an analyzer exists, puts in [analyzer] an
    instance that was not in the store, built from a configuration that was
    not in the store either. *)
Theorem configuration_never_mutated (init_failure : option Thrown) (document : Page)
    (evs later : list Event) :
  let p := run evs (boot init_failure document) in
  let p' := run later p in
  (forall a o, analyzers p !! a = Some o ->
     exists c o',
       configs p !! CSVAnalyzer.config o = Some c
       /\ AnalyzerConfig.sample_size c = CSVAnalyzer.built_with o
       /\ configs p' !! CSVAnalyzer.config o = Some c
       /\ analyzers p' !! a = Some o'
       /\ CSVAnalyzer.config o' = CSVAnalyzer.config o
       /\ CSVAnalyzer.built_with o' = CSVAnalyzer.built_with o)
  /\ (forall ev a, changesSampling ev p = true -> analyzer p = Some a ->
       exists a' o' c',
         analyzer (step ev p) = Some a'
         /\ analyzers (step ev p) !! a' = Some o'
         /\ configs (step ev p) !! CSVAnalyzer.config o' = Some c'
         /\ AnalyzerConfig.sample_size c' = askedSetting (step ev p)
         /\ analyzers p !! a' = None
         /\ configs p !! CSVAnalyzer.config o' = None).
Proof.
  cbv zeta. set (p := run evs (boot init_failure document)).
  pose proof (reachable_invariant init_failure document evs) as Hinv. fold p in Hinv.
  split.
  - intros a o Ho. destruct Hinv as [Hb _].
    destruct (Hb a (shape o)) as (c & Hc & Hv).
    { rewrite list_lookup_fmap, Ho. reflexivity. }
    cbn [shape fst snd] in Hc, Hv.
    destruct (run_stores later p) as [Hcs Has].
    assert (Ho' : (shape <$> analyzers (run later p)) !! a = Some (shape o)).
    { eapply prefix_lookup_Some; [| exact Has].
      rewrite list_lookup_fmap, Ho. reflexivity. }
    rewrite list_lookup_fmap in Ho'.
    destruct (analyzers (run later p) !! a) as [o'|]; [| discriminate].
    injection Ho' as Hcfg Hbw.
    exists c, o'. repeat split; try assumption.
    eapply prefix_lookup_Some; eassumption.
  - intros ev a Hev Ha.
    destruct (current_instance p a Hinv Ha) as (Hready & _).
    assert (Hstep : exists q, step ev p = rebuilt (askedSetting q) q
                              /\ configs q = configs p /\ analyzers q = analyzers p).
    { destruct ev as [| value | | | |]; try discriminate.
      - rewrite step_toggle, Hready. cbv zeta. eexists. repeat split.
      - rewrite step_edit, Hready. cbn in Hev. rewrite Hev. cbv zeta.
        eexists. repeat split. }
    destruct Hstep as (q & -> & Hcq & Haq).
    exists (length (analyzers p)). eexists. eexists.
    unfold rebuilt. page_simpl. rewrite Hcq, Haq.
    split; [reflexivity |]. split; [apply lookup_last |].
    cbn [CSVAnalyzer.config]. split; [apply lookup_last |].
    split; [reflexivity |].
    split; apply lookup_ge_None_2; reflexivity.
Qed.

(** *** The listener of the button to analyze *)

Lemma analyzer_analyze_pending (content : jsstring) (files : list File) (p : Page) :
  (analyzer_analyze engine_analyze null_call_error content (set_pending files p)).1
  = (analyzer_analyze engine_analyze null_call_error content p).1.
Proof.
  unfold analyzer_analyze. page_simpl.
  destruct (analyzer p) as [a|]; [| reflexivity].
  destruct (analyzers p !! a) as [o|]; [| reflexivity].
  destruct (engine_analyze (CSVAnalyzer.engine o) content) as [[analysis | error] e'];
    reflexivity.
Qed.

Lemma errorHtml_not_results (error : Thrown) (run : RunInfo) (analysis : AnalysisReport) :
  errorHtml error <> resultsHtml run analysis.
Proof.
  rewrite resultsHtml_rows. unfold resultsHead, summaryHtml, errorHtml.
  change (lit "<div class=") with (60%N :: skipn 1 (lit "<div class=")).
  change (lit "
        <div class=") with (10%N :: skipn 1 (lit "
        <div class=")).
  repeat rewrite <- app_assoc. cbn [app]. intros H. discriminate H.
Qed.

(** ** C4 *)

(** C4. When the read of a file has settled and [analyzer.analyze] throws
    on its text, the results area holds the error message and nothing else:
    the markup is the one of the message, with the [message] of what was
    thrown in it, it is the markup of no report, and no download button is
    left. And once the read has settled the button to analyze is enabled,
    whatever the call did: whether it returned a report or threw, and also
    when the read itself was rejected and the call never made. *)
Theorem analysis_error_rendered (p : Page) (k : nat) (file : File) (run : RunInfo) :
  pending p !! k = Some file ->
  let p' := step (ReadSettled k None run) p in
  (forall error,
      (analyzer_analyze engine_analyze null_call_error (file_text file) p).1 = inr error ->
      results_innerHTML p' = errorHtml error
      /\ errorHtml error
         = lit "<div class=" ++ dq ++ lit "error" ++ dq
           ++ lit ">Erreur lors de l'analyse: " ++ interpolate (message error)
           ++ lit "</div>"
      /\ (forall m, message error = Some m -> interpolate (message error) = m)
      /\ (forall run' analysis, results_innerHTML p' <> resultsHtml run' analysis)
      /\ downloadButton p' = None)
  /\ (forall analysis,
        (analyzer_analyze engine_analyze null_call_error (file_text file) p).1
        = inl analysis ->
        results_innerHTML p' = resultsHtml run analysis
        /\ analyzeBtn_disabled p' = false)
  /\ analyzeBtn_disabled p' = false
  /\ (forall rejection run',
        analyzeBtn_disabled (step (ReadSettled k rejection run') p) = false).
Proof.
  intros Hk. cbv zeta.
  assert (Hbutton : forall rejection run',
             analyzeBtn_disabled (step (ReadSettled k rejection run') p) = false).
  { intros rejection run'. unfold step. rewrite Hk, afterRead_page.
    destruct rejection as [e|]; [reflexivity |].
    destruct (analyzer_analyze engine_analyze null_call_error (file_text file)
                (set_pending (delete k (pending p)) p)) as [[analysis | e] p1];
      reflexivity. }
  pose proof (analyzer_analyze_pending (file_text file) (delete k (pending p)) p) as Hp.
  split; [| split; [| split; [apply Hbutton | exact Hbutton]]].
  - intros error Hthrows.
    assert (Hpage : results_innerHTML (step (ReadSettled k None run) p) = errorHtml error
                    /\ downloadButton (step (ReadSettled k None run) p) = None).
    { unfold step. rewrite Hk, afterRead_page. rewrite Hthrows in Hp.
      destruct (analyzer_analyze engine_analyze null_call_error (file_text file)
                  (set_pending (delete k (pending p)) p)) as [[analysis | e] p1];
        cbn [fst] in Hp; [discriminate Hp |].
      injection Hp as ->. split; reflexivity. }
    destruct Hpage as [Hhtml Hdownload].
    split; [exact Hhtml |]. split; [reflexivity |].
    split; [intros m ->; reflexivity |].
    split; [intros run' analysis; rewrite Hhtml; apply errorHtml_not_results |].
    exact Hdownload.
  - intros analysis Hreturns. split; [| apply Hbutton].
    unfold step. rewrite Hk, afterRead_page. rewrite Hreturns in Hp.
    destruct (analyzer_analyze engine_analyze null_call_error (file_text file)
                (set_pending (delete k (pending p)) p)) as [[analysis' | e] p1];
      cbn [fst] in Hp; [| discriminate Hp].
    injection Hp as ->. reflexivity.
Qed.

(** *** What holds of every instance *)

Lemma run_view (evs : list Event) (p : Page) :
  forallb leavesSampling evs = true -> view (run evs p) = view p.
Proof.
  revert p. induction evs as [|ev evs IH]; intros p Hevs; [reflexivity |].
  cbn [forallb] in Hevs. apply andb_prop in Hevs as [Hev Hevs].
  cbn [run fold_left]. fold (run evs (step ev p)).
  rewrite (IH _ Hevs). apply step_view, Hev.
Qed.

Lemma analyzer_analyze_result (content : jsstring) (p : Page) (a : nat)
    (o : CSVAnalyzer.t Engine) :
  analyzer p = Some a -> analyzers p !! a = Some o ->
  (analyzer_analyze engine_analyze null_call_error content p).1
  = (engine_analyze (CSVAnalyzer.engine o) content).1.
Proof.
  intros Ha Ho. unfold analyzer_analyze. rewrite Ha, Ho.
  destruct (engine_analyze (CSVAnalyzer.engine o) content) as [[analysis | error] e'];
    reflexivity.
Qed.

Section Instances.

Variable holds : CSVAnalyzer.t Engine -> Prop.

Hypothesis holds_new : forall cfg v,
  holds {| CSVAnalyzer.config := cfg; CSVAnalyzer.built_with := v;
           CSVAnalyzer.engine := engine_new v |}.

Hypothesis holds_analyze : forall o content,
  holds o ->
  holds {| CSVAnalyzer.config := CSVAnalyzer.config o;
           CSVAnalyzer.built_with := CSVAnalyzer.built_with o;
           CSVAnalyzer.engine := (engine_analyze (CSVAnalyzer.engine o) content).2 |}.

Lemma rebuilt_instances (v : option float) (q : Page) :
  Forall holds (analyzers q) -> Forall holds (analyzers (rebuilt v q)).
Proof.
  intros Hall. unfold rebuilt. page_simpl. apply Forall_app. split; [exact Hall |].
  constructor; [apply holds_new | constructor].
Qed.

Lemma analyzer_analyze_instances (content : jsstring) (p : Page) :
  Forall holds (analyzers p) ->
  Forall holds (analyzers (analyzer_analyze engine_analyze null_call_error content p).2).
Proof.
  intros Hall. unfold analyzer_analyze.
  destruct (analyzer p) as [a|]; [| exact Hall].
  destruct (analyzers p !! a) as [o|] eqn:Ho; [| exact Hall].
  pose proof (holds_analyze o content (Forall_lookup_1 _ _ _ _ Hall Ho)) as Ho'.
  destruct (engine_analyze (CSVAnalyzer.engine o) content) as [result e'].
  cbn [snd] in Ho'.
  destruct result; cbn [snd]; page_simpl; apply Forall_insert; assumption.
Qed.

Lemma step_instances (ev : Event) (p : Page) :
  Forall holds (analyzers p) -> Forall holds (analyzers (step ev p)).
Proof.
  intros Hall. destruct ev as [| value | file | | k rejection info |].
  - rewrite step_toggle. cbv zeta.
    destruct (wasm_ready p); [apply rebuilt_instances |]; exact Hall.
  - rewrite step_edit. cbv zeta.
    destruct (sampleSizeToggle_checked p && wasm_ready p);
      [apply rebuilt_instances |]; exact Hall.
  - unfold step, onFileInputChange. js_unfold. page_simpl.
    destruct file; exact Hall.
  - unfold step, onAnalyzeClick. js_unfold. page_simpl.
    destruct (fileInput_files p), (analyzer p); exact Hall.
  - unfold step. destruct (pending p !! k) as [file|]; [| exact Hall].
    rewrite afterRead_page.
    destruct rejection as [error|]; [exact Hall |].
    pose proof (analyzer_analyze_instances (file_text file)
                  (set_pending (delete k (pending p)) p) Hall) as Hall'.
    destruct (analyzer_analyze engine_analyze null_call_error (file_text file)
                (set_pending (delete k (pending p)) p)) as [[analysis | error] p1];
      exact Hall'.
  - unfold step, onDownloadClick. js_unfold. page_simpl.
    destruct (downloadButton p); exact Hall.
Qed.

Lemma reachable_instances (init_failure : option Thrown) (document : Page)
    (evs : list Event) :
  Forall holds (analyzers (run evs (boot init_failure document))).
Proof.
  assert (Hboot : Forall holds (analyzers (boot init_failure document))).
  { rewrite boot_page. cbv zeta.
    destruct (moduleLoaded_page document) as (_ & _ & Has & _).
    generalize dependent (moduleLoaded document). intros start Has.
    destruct init_failure as [error|]; page_simpl.
    - rewrite Has. constructor.
    - apply rebuilt_instances. page_simpl. rewrite Has. constructor. }
  revert Hboot. generalize (boot init_failure document).
  induction evs as [|ev evs IH]; intros p Hp; [exact Hp |].
  apply IH, step_instances, Hp.
Qed.

End Instances.

End PageProperties.

(** ** The engine: the counts of a column *)

Section EngineProperties.

Variable recognize : Core.SemanticType.t -> jsstring -> bool.
Variable precedes : Core.SemanticType.t -> jsstring -> jsstring -> bool.
Variable significance : float.

Abbreviation finalize := (Core.finalize recognize precedes significance).
Abbreviation analyze := (Core.analyze recognize precedes significance).

Lemma size_add (value : list N) (values : gset (list N)) :
  (size ({[ value ]} ∪ values) <= S (size values))%nat.
Proof.
  rewrite size_union_alt, size_singleton.
  apply le_n_S, subseteq_size, subseteq_difference_l. reflexivity.
Qed.

Lemma empty_ordered : ordered Core.emptyAccumulator.
Proof.
  unfold ordered. cbn [Core.emptyAccumulator Core.total Core.analyzed Core.nulls Core.seen].
  rewrite size_empty. lia.
Qed.

Lemma observe_ordered cap value acc : ordered acc -> ordered (Core.observe cap value acc).
Proof.
  unfold ordered, Core.observe. intros [Ha Hs].
  destruct (Core.forwards cap acc); [destruct (Core.isNull value) |];
    cbn [Core.total Core.analyzed Core.nulls Core.seen].
  - lia.
  - pose proof (size_add value (Core.seen acc)). lia.
  - lia.
Qed.

Lemma feed_ordered cap accs row :
  Forall ordered accs -> Forall ordered (Core.feed cap accs row).
Proof.
  revert row. induction accs as [|acc accs IH]; intros row Hall; [constructor |].
  destruct row as [|value row]; [exact Hall |].
  cbn [Core.feed]. inversion Hall as [|? ? Hacc Haccs]; subst.
  constructor; [apply observe_ordered, Hacc | apply IH, Haccs].
Qed.

Lemma rows_ordered cap rows accs :
  Forall ordered accs -> Forall ordered (fold_left (Core.feed cap) rows accs).
Proof.
  revert accs. induction rows as [|row rows IH]; intros accs Hall; [exact Hall |].
  cbn [fold_left]. apply IH, feed_ordered, Hall.
Qed.

Lemma finalize_counts header acc :
  total_count (finalize header acc) = Core.total acc
  /\ analyzed_count (finalize header acc) = Core.analyzed acc
  /\ unique_values (finalize header acc) = N.of_nat (size (Core.seen acc))
  /\ null_count (finalize header acc) = Core.nulls acc.
Proof.
  unfold Core.finalize. destruct (Core.dominant recognize (Core.retained acc)).
  repeat split.
Qed.

Lemma finalize_ordered header accs :
  Forall ordered accs -> Forall countsOrdered (zip_with finalize header accs).
Proof.
  revert accs. induction header as [|h header IH]; intros accs Hall; [constructor |].
  destruct accs as [|acc accs]; [constructor |].
  inversion Hall as [|? ? [Ha Hs] Haccs]; subst.
  cbn [zip_with]. constructor; [| apply IH, Haccs].
  destruct (finalize_counts h acc) as (Ht & Han & Hu & Hn).
  unfold countsOrdered. rewrite Ht, Han, Hu, Hn. lia.
Qed.

(** ** C7 *)

(** C7. Whatever the document and the configuration, when [analyze]
    returns a report, every column of it has [analyzed_count] at most
    [total_count], and [unique_values] and [null_count] at most
    [analyzed_count]. *)
Theorem report_counts_ordered (setting : option float) (text : jsstring) :
  match analyze setting text with
  | Core.Ok report => Forall countsOrdered (columns report)
  | Core.Failed _ => True
  end.
Proof.
  unfold Core.analyze.
  destruct (Core.sampleCap setting) as [cap | e]; [| exact I].
  destruct (Core.tokenize (Core.detectDelimiter text) text) as [[|header rows] | e];
    try exact I.
  cbn [columns]. apply finalize_ordered, rows_ordered.
  clear rows. induction header as [|h header IH]; cbn [map]; [constructor |].
  constructor; [apply empty_ordered | exact IH].
Qed.

End EngineProperties.

(** ** The page over the engine *)

Section EnginePage.

Variable recognize : Core.SemanticType.t -> jsstring -> bool.
Variable precedes : Core.SemanticType.t -> jsstring -> jsstring -> bool.
Variable significance : float.
Variable describe : Core.AnalysisError -> Thrown.
Variable null_call_error : Thrown.

Abbreviation call := (Core.call recognize precedes significance describe).
Abbreviation run := (run Core.new call null_call_error).
Abbreviation boot := (boot Core.new null_call_error).

(** The instance is after a call what it was before. *)
Lemma call_keeps_instance (self : Core.CSVAnalyzer) (text : jsstring) :
  (call self text).2 = self.
Proof. reflexivity. Qed.

(** ** C5 *)

(** C5. Take the page at any time and at any later time. If no event in
    between touched the sampling settings, the configuration of the analyzer
    is the same at both times; and whenever it is the same, analyzing the
    same text at both times gives the same report, or throws the same error,
    whatever was analyzed in between: a call leaves nothing in the instance. *)
Theorem repeated_analysis_equal (init_failure : option Thrown)
    (document : @Page Core.CSVAnalyzer) (evs later : list Event) (content : jsstring) :
  let p := run evs (boot init_failure document) in
  let p' := run later p in
  (forallb leavesSampling later = true -> currentSetting p' = currentSetting p)
  /\ (currentSetting p' = currentSetting p ->
      (analyzer_analyze call null_call_error content p').1
      = (analyzer_analyze call null_call_error content p).1)
  /\ (forall self text, (call self text).2 = self).
Proof.
  cbv zeta.
  set (p := run evs (boot init_failure document)).
  set (p' := run later p).
  split; [| split; [| reflexivity]].
  - intros Hlater. apply currentSetting_view, run_view, Hlater.
  - intros Hsame.
    pose proof (reachable_invariant Core.new call null_call_error
                  init_failure document evs) as Hinv.
    pose proof (reachable_invariant Core.new call null_call_error
                  init_failure document (evs ++ later)) as Hinv'.
    pose proof (reachable_instances Core.new call null_call_error
                  (fun o => CSVAnalyzer.engine o = Core.new (CSVAnalyzer.built_with o))
                  (fun _ _ => eq_refl) (fun o _ Ho => Ho)) as Hnew.
    pose proof (Hnew init_failure document evs) as Hnew1.
    pose proof (Hnew init_failure document (evs ++ later)) as Hnew2.
    clear Hnew.
    assert (Hrun : run (evs ++ later) (boot init_failure document) = p')
      by apply fold_left_app.
    rewrite Hrun in Hinv', Hnew2. fold p in Hinv, Hnew1.
    pose proof (run_wasm_ready Core.new call null_call_error later p) as Hready.
    fold p' in Hready. clearbody p p'.
    destruct (analyzer p) as [a|] eqn:Ha, (analyzer p') as [a'|] eqn:Ha'.
    + destruct (current_instance p a Hinv Ha) as (_ & o & c & Ho & Hc & Hb & _).
      destruct (current_instance p' a' Hinv' Ha')
        as (_ & o' & c' & Ho' & Hc' & Hb' & _).
      unfold currentSetting in Hsame. rewrite Ha, Ha' in Hsame.
      cbn [mbind option_bind] in Hsame. rewrite Ho, Ho' in Hsame.
      cbn [mbind option_bind] in Hsame. rewrite Hc, Hc' in Hsame.
      injection Hsame as Hsame.
      rewrite (analyzer_analyze_result call null_call_error content p a o Ha Ho).
      rewrite (analyzer_analyze_result call null_call_error content p' a' o' Ha' Ho').
      rewrite (Forall_lookup_1 _ _ _ _ Hnew1 Ho), (Forall_lookup_1 _ _ _ _ Hnew2 Ho').
      rewrite Hb, Hb', Hsame. reflexivity.
    + destruct (current_instance p a Hinv Ha) as (Hr & _).
      destruct Hinv' as [_ Hcur]. unfold current in Hcur.
      rewrite Hready, Hr in Hcur. unfold currentSetting in Hcur.
      rewrite Ha' in Hcur. discriminate Hcur.
    + destruct (current_instance p' a' Hinv' Ha') as (Hr & _).
      destruct Hinv as [_ Hcur]. unfold current in Hcur.
      rewrite <- Hready, Hr in Hcur. unfold currentSetting in Hcur.
      rewrite Ha in Hcur. discriminate Hcur.
    + unfold analyzer_analyze. rewrite Ha, Ha'. reflexivity.
Qed.

End EnginePage.

(** ** The properties on the sample engine *)

(** The page starts with a full analysis configured; checking the box
    configures the 1000 of the number field, committing 250 there
    configures 250, and unchecking the box configures a full analysis
    again. *)
Example sampling_settings_followed :
  currentSetting samplePage = Some None
  /\ currentSetting (sampleRun [ToggleSampling] samplePage) = Some (Some 1000%float)
  /\ currentSetting (sampleRun [ToggleSampling; EditSampleSize (lit "250")] samplePage)
     = Some (Some 250%float)
  /\ currentSetting
       (sampleRun [ToggleSampling; EditSampleSize (lit "250"); ToggleSampling] samplePage)
     = Some None
  /\ currentSetting (sampleRun [EditSampleSize (lit "250")] samplePage) = Some None.
Proof. repeat split; vm_compute; reflexivity. Qed.

(** C2 on a page where the user checked the box and committed 250. *)
Lemma analyzer_built_as_asked_witness :
  exists a o c,
    analyzer (sampleRun [ToggleSampling; EditSampleSize (lit "250")] samplePage) = Some a
    /\ analyzers (sampleRun [ToggleSampling; EditSampleSize (lit "250")] samplePage) !! a
       = Some o
    /\ configs (sampleRun [ToggleSampling; EditSampleSize (lit "250")] samplePage)
         !! CSVAnalyzer.config o = Some c
    /\ AnalyzerConfig.sample_size c = Some 250%float.
Proof.
  unfold sampleRun, samplePage.
  pose proof (analyzer_built_as_asked Core.new sampleCall typeError None blankDocument
                [ToggleSampling; EditSampleSize (lit "250")]) as [_ H].
  destruct (analyzer
              (run Core.new sampleCall typeError
                 [ToggleSampling; EditSampleSize (lit "250")]
                 (boot Core.new typeError None blankDocument))) as [a|].
  - destruct H as (o & c & Ho & Hc & _ & Hv).
    exists a, o, c.
    split; [reflexivity |]. split; [exact Ho |]. split; [exact Hc |].
    rewrite Hv. vm_compute. reflexivity.
  - exfalso. apply H. reflexivity.
Defined.

(** C3 on the instance built when the user checked the box, after the
    size was changed to 5 and the box unchecked. *)
Lemma configuration_never_mutated_witness :
  exists c o',
    configs (sampleRun [ToggleSampling] samplePage) !! 1%nat = Some c
    /\ AnalyzerConfig.sample_size c = Some 1000%float
    /\ configs (sampleRun [EditSampleSize (lit "5"); ToggleSampling]
                  (sampleRun [ToggleSampling] samplePage)) !! 1%nat = Some c
    /\ analyzers (sampleRun [EditSampleSize (lit "5"); ToggleSampling]
                    (sampleRun [ToggleSampling] samplePage)) !! 1%nat = Some o'
    /\ CSVAnalyzer.built_with o' = Some 1000%float.
Proof.
  unfold sampleRun, samplePage.
  pose proof (configuration_never_mutated Core.new sampleCall typeError None blankDocument
                [ToggleSampling] [EditSampleSize (lit "5"); ToggleSampling]) as [H _].
  cbv zeta in H.
  destruct (H 1%nat {| CSVAnalyzer.config := 1; CSVAnalyzer.built_with := Some 1000%float;
                       CSVAnalyzer.engine := Core.new (Some 1000%float) |})
    as (c & o' & Hc & Hv & Hc' & Ho' & _ & Hb); [vm_compute; reflexivity |].
  exists c, o'.
  split; [exact Hc |]. split; [exact Hv |]. split; [exact Hc' |].
  split; [exact Ho' | exact Hb].
Defined.

(** C4 on the empty file, which the engine refuses, and on the document
    of the specification, which it analyzes: in both cases the button, disabled
    by the click, is enabled when the read has settled. *)
Lemma analysis_error_rendered_witness :
  results_innerHTML (sampleStep (ReadSettled 0 None someRun) readingEmptyFile)
  = errorHtml (errorByName Core.EmptyInputError)
  /\ analyzeBtn_disabled readingEmptyFile = true
  /\ analyzeBtn_disabled (sampleStep (ReadSettled 0 None someRun) readingEmptyFile) = false
  /\ analyzeBtn_disabled readingGapFile = true
  /\ analyzeBtn_disabled (sampleStep (ReadSettled 0 None someRun) readingGapFile) = false.
Proof.
  destruct (analysis_error_rendered Core.new sampleCall typeError readingEmptyFile
              0%nat emptyFile someRun) as (Hthrown & _ & Hempty & _);
    [vm_compute; reflexivity |].
  destruct (analysis_error_rendered Core.new sampleCall typeError readingGapFile
              0%nat gapFile someRun) as (_ & _ & Hgap & _);
    [vm_compute; reflexivity |].
  destruct (Hthrown (errorByName Core.EmptyInputError)) as (Hhtml & _);
    [vm_compute; reflexivity |].
  split; [exact Hhtml |]. split; [vm_compute; reflexivity |].
  split; [exact Hempty |]. split; [vm_compute; reflexivity | exact Hgap].
Defined.

(** What the page shows then. *)
Example empty_file_message :
  results_innerHTML (sampleStep (ReadSettled 0 None someRun) readingEmptyFile)
  = lit "<div class=" ++ dq ++ lit "error" ++ dq
    ++ lit ">Erreur lors de l'analyse: EmptyInputError</div>".
Proof. vm_compute. reflexivity. Qed.

(** C5 on the page where a file was chosen, and the same page after that
    file was analyzed and the report downloaded. *)
Lemma repeated_analysis_equal_witness :
  (analyzer_analyze sampleCall typeError gapDocument
     (sampleRun [ClickAnalyze; ReadSettled 0 None someRun; ClickDownload]
        (sampleRun [SelectFile (Some gapFile)] samplePage))).1
  = (analyzer_analyze sampleCall typeError gapDocument
       (sampleRun [SelectFile (Some gapFile)] samplePage)).1.
Proof.
  unfold sampleRun, samplePage, sampleCall.
  destruct (repeated_analysis_equal wholeNumbers shorterFirst oneTwentieth errorByName
              typeError None blankDocument [SelectFile (Some gapFile)]
              [ClickAnalyze; ReadSettled 0 None someRun; ClickDownload] gapDocument)
    as (Hsetting & Hsame & _).
  apply Hsame, Hsetting. reflexivity.
Defined.

(** The report both calls return. *)
Example gapDocument_analyzed_twice :
  (analyzer_analyze sampleCall typeError gapDocument
     (sampleRun [SelectFile (Some gapFile); ClickAnalyze;
                 ReadSettled 0 None someRun; ClickDownload] samplePage)).1
  = match sampleAnalyze None gapDocument with
    | Core.Ok report => inl report
    | Core.Failed e => inr (errorByName e)
    end.
Proof. vm_compute. reflexivity. Qed.

(** The document of the specification: three values counted, three
    analyzed, two distinct, one null; and two analyzed under a cap of two. *)
Example gapDocument_counts :
  match sampleAnalyze None gapDocument, sampleAnalyze (Some 2%float) gapDocument with
  | Core.Ok full, Core.Ok capped =>
      map (fun c => (total_count c, analyzed_count c, unique_values c, null_count c))
        (columns full) = [(3, 3, 2, 1)%N]
      /\ map (fun c => (total_count c, analyzed_count c, unique_values c, null_count c))
           (columns capped) = [(3, 2, 1, 1)%N]
  | _, _ => False
  end.
Proof. vm_compute. split; reflexivity. Qed.

(** C7 on that document. *)
Lemma report_counts_ordered_witness :
  exists report,
    sampleAnalyze None gapDocument = Core.Ok report
    /\ Forall countsOrdered (columns report).
Proof.
  pose proof (report_counts_ordered wholeNumbers shorterFirst oneTwentieth
                None gapDocument) as H.
  fold sampleAnalyze in H.
  destruct (sampleAnalyze None gapDocument) as [report | e] eqn:E.
  - exists report. split; [reflexivity | exact H].
  - vm_compute in E. discriminate E.
Defined.

(** ** The export, field by field *)

Lemma getTypeLabel_avoids c type :
  forallb (avoids c) (map snd labels) = true ->
  avoids c type = true -> avoids c (getTypeLabel type) = true.
Proof.
  intros Hall H. unfold getTypeLabel.
  destruct (or_else_cases (property labels type) type) as [-> | Hl]; [exact H |].
  apply property_In in Hl. rewrite forallb_forall in Hall. apply Hall, Hl.
Qed.

Lemma forallb_map_getTypeLabel c parts :
  forallb (avoids c) (map snd labels) = true ->
  forallb (avoids c) parts = true ->
  forallb (avoids c) (map getTypeLabel parts) = true.
Proof.
  intros Hall. induction parts as [|p parts IH]; [reflexivity |].
  cbn [forallb map]. intros [Hp Hrest]%andb_prop.
  rewrite (getTypeLabel_avoids c p Hall Hp), (IH Hrest). reflexivity.
Qed.

Lemma formatConfidence_avoids c x :
  computed c = false -> avoids c (formatConfidence x) = true.
Proof.
  unfold computed. intros [Hn Hc]%orb_false_elim.
  unfold formatConfidence. rewrite avoids_app, (toFixed_avoids c _ 1 Hn).
  change (lit "%") with [37%N]. change (lit " ()%") with [32; 40; 41; 37]%N in Hc.
  cbn [existsb] in Hc. repeat (apply orb_false_elim in Hc as [? Hc]).
  cbn [avoids forallb andb]. rewrite N.eqb_sym.
  match goal with H : (c =? 37)%N = false |- _ => rewrite H end. reflexivity.
Qed.

Lemma formatAnalyzedValues_avoids c analyzed total :
  computed c = false -> avoids c (formatAnalyzedValues analyzed total) = true.
Proof.
  unfold computed. intros [Hn Hc]%orb_false_elim.
  assert (Hd : isDigit c = false).
  { unfold numeric in Hn. apply orb_false_elim in Hn as [Hd _]. exact Hd. }
  assert (Hlit : forall s, forallb (fun u => existsb (N.eqb u) (lit " ()%") || isDigit u) s
                           = true -> avoids c s = true).
  { intros s Hs. unfold avoids. rewrite forallb_forall in Hs |- *.
    intros u Hu. specialize (Hs u Hu). apply negb_true_iff, N.eqb_neq. intros ->.
    rewrite Hc, Hd in Hs. discriminate Hs. }
  unfold formatAnalyzedValues. destruct (analyzed =? total)%N; cbv zeta.
  - rewrite avoids_app, (countToString_avoids c analyzed Hd).
    apply Hlit. vm_compute. reflexivity.
  - rewrite !avoids_app, (countToString_avoids c analyzed Hd), (toFixed_avoids c _ 1 Hn).
    rewrite !Hlit by (vm_compute; reflexivity). reflexivity.
Qed.

Lemma computed_SEMI : computed SEMI = false.
Proof. vm_compute. reflexivity. Qed.

Lemma rowFields_avoid_SEMI stats :
  semicolonFreeColumn stats = true ->
  forallb (avoids SEMI) (map toString (rowFields stats)) = true.
Proof.
  unfold semicolonFreeColumn. intros H.
  repeat (apply andb_prop in H as [H ?]).
  assert (Hlabels : forallb (avoids SEMI) (map snd labels) = true)
    by (vm_compute; reflexivity).
  unfold rowFields. cbn [map toString forallb].
  rewrite H, (getTypeLabel_avoids SEMI _ Hlabels), formatConfidence_avoids,
    formatAnalyzedValues_avoids by (assumption || apply computed_SEMI).
  rewrite !avoids_join; try reflexivity; try assumption.
  - rewrite !countToString_avoids by reflexivity.
    repeat match goal with Hx : _ = true |- _ => rewrite Hx end. reflexivity.
  - apply forallb_map_getTypeLabel; assumption.
Qed.

Lemma exportRow_fields stats :
  semicolonFreeColumn stats = true ->
  split_on SEMI (exportRow stats) = map toString (rowFields stats).
Proof.
  intros H. apply rowFields_avoid_SEMI in H. unfold exportRow.
  change (lit ";") with [SEMI].
  unfold rowFields in *. cbn [map] in *. apply split_on_join, H.
Qed.

Lemma exportRows_avoid_LF cols :
  forallb lineFreeColumn cols = true ->
  forallb (avoids LF) (map exportRow cols) = true.
Proof.
  induction cols as [|stats rest IH]; [reflexivity |].
  cbn [forallb map]. intros [Hs Hrest]%andb_prop.
  rewrite (exportRow_avoids_LF stats Hs), (IH Hrest). reflexivity.
Qed.

(** X1. Read back as a file of semicolon-separated lines, the export gives
    the header fields, the first one behind the byte-order mark, and then
    for every column of the report, in their order, the thirteen cells of
    its row as they were computed, whenever no text of the report holds a
    line feed or a semicolon. *)
Theorem exportToCSV_read_back (analysis : AnalysisReport) :
  forallb lineFreeColumn (columns analysis) = true ->
  forallb semicolonFreeColumn (columns analysis) = true ->
  map (split_on SEMI) (split_on LF (exportToCSV analysis))
  = ((BOM :: lit "Colonne") :: tail headerFields)
    :: map (fun stats => map toString (rowFields stats)) (columns analysis).
Proof.
  intros Hlines Hfields.
  assert (Hsplit : split_on LF (exportToCSV analysis)
                   = (BOM :: headers) :: map exportRow (columns analysis)).
  { unfold exportToCSV. rewrite join_cons_head. apply split_on_join.
    cbn [forallb]. apply andb_true_intro.
    split; [vm_compute; reflexivity | apply exportRows_avoid_LF, Hlines]. }
  assert (Hhead : split_on SEMI (BOM :: headers)
                  = (BOM :: lit "Colonne") :: tail headerFields)
    by (vm_compute; reflexivity).
  rewrite Hsplit. cbn [map]. rewrite Hhead. f_equal.
  rewrite map_map. clear Hsplit Hlines. revert Hfields.
  induction (columns analysis) as [|stats rest IH]; [reflexivity |].
  cbn [forallb map]. intros [Hs Hfields]%andb_prop.
  rewrite (exportRow_fields stats Hs). f_equal. apply IH, Hfields.
Qed.

(** X1 on the report with one column of integers. *)
Lemma exportToCSV_read_back_idReport :
  map (split_on SEMI) (split_on LF (exportToCSV idReport))
  = [ (BOM :: lit "Colonne") :: tail headerFields;
      [ lit "id"; lit "Entier"; lit "100.0%"; lit "4 (100%)"; lit "Décimal";
        lit "1, 2, 3, 4"; lit "4"; lit "4"; lit "0"; lit "1"; lit "4"; lit "1";
        lit "1" ] ].
Proof.
  rewrite (exportToCSV_read_back idReport); [| vm_compute; reflexivity ..].
  vm_compute. reflexivity.
Defined.

(** X2. The cells computed from Numbers (the confidence, the analyzed
    values and the counts) are written with digits, the units of [toFixed],
    spaces, parentheses and the percent sign only: no separator of the
    export and no markup character can come from them. *)
Theorem computed_cells_alphabet (c : N) (x : float) (analyzed total n : N) :
  computed c = false ->
  avoids c (formatConfidence x) = true
  /\ avoids c (formatAnalyzedValues analyzed total) = true
  /\ avoids c (countToString n) = true.
Proof.
  intros Hc. split; [apply formatConfidence_avoids, Hc |].
  split; [apply formatAnalyzedValues_avoids, Hc |].
  apply countToString_avoids. unfold computed, numeric in Hc.
  apply orb_false_elim in Hc as [Hc _]. apply orb_false_elim in Hc as [Hd _]. exact Hd.
Qed.

(** X2 for the two separators of the export. *)
Lemma computed_cells_alphabet_separators :
  (avoids SEMI (formatConfidence 0.5%float) = true
   /\ avoids SEMI (formatAnalyzedValues 1 3) = true
   /\ avoids SEMI (countToString 42) = true)
  /\ (avoids LF (formatConfidence 0.5%float) = true
      /\ avoids LF (formatAnalyzedValues 1 3) = true
      /\ avoids LF (countToString 42) = true).
Proof.
  split.
  - apply (computed_cells_alphabet SEMI 0.5%float 1 3 42). vm_compute. reflexivity.
  - apply (computed_cells_alphabet LF 0.5%float 1 3 42). vm_compute. reflexivity.
Defined.

(** ** C8 *)

(** C8. For every column of a report, the markup that [displayResults]
    assigns to the results area holds the row of that column, whose sixth
    cell joins the first three entries of [format_examples] at most; and
    the text that [exportToCSV] returns holds the row of the same column,
    whose sixth field joins all of them (read back as such from the text
    when no text of the report holds a line feed or a semicolon). The two
    agree for a column of three examples at most, and differ on the report
    with one column of four examples: its markup shows the first three and
    not the four, its export holds the four. *)
Theorem examples_in_table_and_export (run : RunInfo) (analysis : AnalysisReport)
    (i : nat) (stats : ColumnReport) :
  columns analysis !! i = Some stats ->
  let examples := format_examples (type_details stats) in
  let others := take i (columns analysis) in
  let rest := drop (S i) (columns analysis) in
  resultsHtml run analysis
  = resultsHead run analysis
    ++ concat (map columnRowHtml others)
    ++ columnRowHtml stats
    ++ concat (map columnRowHtml rest)
    ++ resultsTail
  /\ columnRowHtml stats = tableRow (tableCells stats)
  /\ tableCells stats !! 5%nat = Some (join (lit ", ") (firstn 3 examples))
  /\ exportToCSV analysis
     = BOM :: join [LF]
                (headers :: map exportRow others ++ exportRow stats :: map exportRow rest)
  /\ exportRow stats = join (lit ";") (map toString (rowFields stats))
  /\ map toString (rowFields stats) !! 5%nat = Some (join (lit ", ") examples)
  /\ (forallb lineFreeColumn (columns analysis) = true ->
      forallb semicolonFreeColumn (columns analysis) = true ->
      sixthField (S i) (exportToCSV analysis) = Some (join (lit ", ") examples))
  /\ (length examples <= 3 ->
      tableCells stats !! 5%nat = map toString (rowFields stats) !! 5%nat)%nat
  /\ occursIn (lit "<td>1, 2, 3</td>") (resultsHtml run idReport) = true
  /\ occursIn (lit "1, 2, 3, 4") (resultsHtml someRun idReport) = false
  /\ occursIn (lit ";1, 2, 3, 4;") (exportToCSV idReport) = true.
Proof.
  intros Hi. cbv zeta.
  pose proof (take_drop_middle _ _ _ Hi) as Hsplit.
  set (others := take i (columns analysis)) in *.
  set (rest := drop (S i) (columns analysis)) in *.
  split.
  { unfold resultsHtml. rewrite fold_left_append, <- Hsplit.
    rewrite map_app, concat_app. cbn [map concat].
    repeat rewrite <- app_assoc. reflexivity. }
  split; [apply columnRowHtml_cells |]. split; [reflexivity |].
  split.
  { unfold exportToCSV. rewrite <- Hsplit, map_app. reflexivity. }
  split; [reflexivity |]. split; [reflexivity |].
  split.
  { intros Hlines Hfields. unfold sixthField.
    assert (Hrows : split_on LF (exportToCSV analysis)
                    = (BOM :: headers) :: map exportRow (columns analysis)).
    { unfold exportToCSV. rewrite join_cons_head. apply split_on_join.
      cbn [forallb]. apply andb_true_intro.
      split; [vm_compute; reflexivity | apply exportRows_avoid_LF, Hlines]. }
    rewrite Hrows.
    change (((BOM :: headers) :: map exportRow (columns analysis)) !! S i)
      with ((exportRow <$> columns analysis) !! i).
    rewrite list_lookup_fmap, Hi. cbn [fmap option_fmap option_map mbind option_bind].
    assert (Hstats : semicolonFreeColumn stats = true).
    { rewrite <- Hsplit, forallb_app in Hfields.
      apply andb_prop in Hfields as [_ Hfields]. cbn [forallb] in Hfields.
      apply andb_prop in Hfields as [Hstats _]. exact Hstats. }
    rewrite (exportRow_fields stats Hstats). reflexivity. }
  split.
  { intros Hlen. cbn [tableCells rowFields map toString lookup list_lookup].
    rewrite firstn_all2 by exact Hlen. reflexivity. }
  split.
  { rewrite resultsHtml_rows. cbn [columns idReport map concat].
    generalize (resultsHead run idReport). intros head.
    assert (Hrow : occursIn (lit "<td>1, 2, 3</td>")
                     ((tableRow (tableCells idColumn) ++ []) ++ resultsTail) = true)
      by (vm_compute; reflexivity).
    revert Hrow. generalize ((tableRow (tableCells idColumn) ++ []) ++ resultsTail).
    generalize (lit "<td>1, 2, 3</td>"). intros pattern tail Htail.
    induction head as [|c head IH]; [exact Htail |].
    cbn [app occursIn]. rewrite IH. apply orb_true_r. }
  split; vm_compute; reflexivity.
Qed.

(** C8 on the report with one column of four examples. *)
Lemma examples_in_table_and_export_witness :
  tableCells idColumn !! 5%nat
  = Some (join (lit ", ") (firstn 3 (format_examples (type_details idColumn))))
  /\ sixthField 1 (exportToCSV idReport)
     = Some (join (lit ", ") (format_examples (type_details idColumn)))
  /\ exportToCSV idReport = BOM :: join [LF] [headers; exportRow idColumn].
Proof.
  destruct (examples_in_table_and_export someRun idReport 0%nat idColumn)
    as (_ & _ & Htable & Hexport & _ & _ & Hfield & _); [reflexivity |].
  split; [exact Htable |]. split; [| exact Hexport].
  apply Hfield; vm_compute; reflexivity.
Defined.

(** ** What the export does with separators inside a text *)

Lemma occurrences_app c s t : occurrences c (s ++ t) = (occurrences c s + occurrences c t)%nat.
Proof. unfold occurrences. rewrite List.filter_app, length_app. reflexivity. Qed.

Lemma occurrences_avoids c s : avoids c s = true -> occurrences c s = 0%nat.
Proof.
  unfold occurrences, avoids. induction s as [|u s IH]; [reflexivity |].
  cbn [forallb List.filter]. intros [Hu Hs]%andb_prop.
  apply negb_true_iff in Hu. rewrite Hu. apply IH, Hs.
Qed.

Lemma split_on_length sep s : length (split_on sep s) = S (occurrences sep s).
Proof.
  unfold occurrences. induction s as [|u s IH]; [reflexivity |].
  cbn [split_on List.filter]. destruct (u =? sep)%N.
  - cbn [length]. rewrite IH. reflexivity.
  - destruct (split_on sep s) as [|piece pieces]; [discriminate IH |].
    cbn [length] in *. exact IH.
Qed.

Lemma occurrences_join c sep parts :
  occurrences c (join sep parts)
  = (occurrences c sep * (length parts - 1) + occurrences c (concat parts))%nat.
Proof.
  induction parts as [|p parts IH]; [cbn; lia |].
  destruct parts as [|p' parts].
  - cbn [join concat length]. rewrite app_nil_r. lia.
  - change (join sep (p :: p' :: parts)) with (p ++ sep ++ join sep (p' :: parts)).
    rewrite !occurrences_app, IH. cbn [concat length]. rewrite !occurrences_app. lia.
Qed.

(** X3. [exportToCSV] escapes nothing. The fields a row splits into at its
    semicolons are thirteen and one more for every semicolon in the texts
    of its cells; the lines of the export are the header, one per column,
    and one more for every line feed in a cell. *)
Theorem exportToCSV_escapes_nothing (analysis : AnalysisReport) :
  (forall stats,
      length (split_on SEMI (exportRow stats))
      = (13 + occurrences SEMI (concat (map toString (rowFields stats))))%nat
      /\ occurrences LF (exportRow stats)
         = occurrences LF (concat (map toString (rowFields stats))))
  /\ length (split_on LF (exportToCSV analysis))
     = (1 + length (columns analysis)
        + occurrences LF (concat (map exportRow (columns analysis))))%nat.
Proof.
  split.
  - intros stats. unfold exportRow. rewrite split_on_length, !occurrences_join.
    rewrite length_map. split; reflexivity.
  - rewrite split_on_length. unfold exportToCSV.
    change (BOM :: join [LF] (headers :: map exportRow (columns analysis)))
      with ([BOM] ++ join [LF] (headers :: map exportRow (columns analysis))).
    rewrite occurrences_app, occurrences_join. cbn [concat length].
    rewrite occurrences_app, length_map.
    assert (Hh : occurrences LF headers = 0%nat)
      by (apply occurrences_avoids; vm_compute; reflexivity).
    rewrite Hh. change (occurrences LF [BOM]) with 0%nat.
    change (occurrences LF [LF]) with 1%nat. lia.
Qed.

(** A name with a semicolon in it gives a row of fourteen fields. *)
Example exportRow_semicolon_in_name :
  length (split_on SEMI (exportRow
    {| name := lit "a;b"; type_name := lit "string";
       type_details := {| confidence := 1%float; subtypes := [];
                          format_examples := [] |};
       total_count := 0; analyzed_count := 0; unique_values := 0; null_count := 0;
       min_value := None; max_value := None; min_length := 0; max_length := 0 |}))
  = 14%nat.
Proof. vm_compute. reflexivity. Qed.

(** ** [getTypeLabel] *)

Lemma property_None o key : ~ In key (map fst o) -> property o key = None.
Proof.
  induction o as [|[k v] o IH]; [reflexivity |].
  cbn [property map fst In]. intros H. destruct (decide (k = key)) as [-> | _].
  - exfalso. apply H. left. reflexivity.
  - apply IH. intros Hin. apply H. right. exact Hin.
Qed.

Lemma getTypeLabel_known type :
  In type knownTypes ->
  getTypeLabel type <> type /\ ~ In (getTypeLabel type) knownTypes.
Proof.
  unfold knownTypes. cbn [labels map fst In].
  intros H. repeat (destruct H as [<- | H]; [split; vm_compute; intuition discriminate |]).
  destruct H.
Qed.

Lemma getTypeLabel_unknown type : ~ In type knownTypes -> getTypeLabel type = type.
Proof.
  intros H. unfold getTypeLabel. rewrite (property_None labels type H). reflexivity.
Qed.

(** X4. On every text that is no name of a property of
    [Object.prototype], [getTypeLabel] translates the eleven type names of
    the engine and nothing else: it changes the text exactly when it is one
    of these names; no label is itself such a name, nor a name of
    [Object.prototype], so that translating twice is translating once; and
    two different names have different labels. *)
Theorem getTypeLabel_translation (type : jsstring) :
  inherited type = false ->
  (getTypeLabel type = type <-> ~ In type knownTypes)
  /\ ~ In (getTypeLabel type) knownTypes
  /\ inherited (getTypeLabel type) = false
  /\ getTypeLabel (getTypeLabel type) = getTypeLabel type
  /\ (forall other, In type knownTypes -> In other knownTypes ->
        getTypeLabel type = getTypeLabel other -> type = other).
Proof.
  intros Hown.
  assert (Hdec : In type knownTypes \/ ~ In type knownTypes).
  { destruct (in_dec (fun a b : jsstring => decide (a = b)) type knownTypes); auto. }
  assert (Hnot : ~ In (getTypeLabel type) knownTypes).
  { destruct Hdec as [Hin | Hout].
    - apply getTypeLabel_known, Hin.
    - rewrite (getTypeLabel_unknown type Hout). exact Hout. }
  split; [| split; [exact Hnot | split; [| split]]].
  - split.
    + intros Heq Hin. destruct (getTypeLabel_known type Hin) as [Hne _].
      apply Hne, Heq.
    + apply getTypeLabel_unknown.
  - destruct Hdec as [Hin | Hout].
    + revert Hin. unfold knownTypes. cbn [labels map fst In]. intros Hin.
      repeat (destruct Hin as [<- | Hin]; [vm_compute; reflexivity |]).
      destruct Hin.
    + rewrite (getTypeLabel_unknown type Hout). exact Hown.
  - apply getTypeLabel_unknown, Hnot.
  - unfold knownTypes. cbn [labels map fst In]. intros other Ht Ho.
    repeat (destruct Ht as [<- | Ht];
            [repeat (destruct Ho as [<- | Ho];
                     [first [reflexivity | vm_compute; discriminate] |]);
             destruct Ho |]).
    destruct Ht.
Qed.

(** X4 on a type name of the engine and on a text that is none. *)
Lemma getTypeLabel_translation_witness :
  getTypeLabel (getTypeLabel (lit "datetime")) = getTypeLabel (lit "datetime")
  /\ (getTypeLabel (lit "Integer") = lit "Integer" <-> ~ In (lit "Integer") knownTypes).
Proof.
  split.
  - apply (getTypeLabel_translation (lit "datetime")). vm_compute. reflexivity.
  - apply (getTypeLabel_translation (lit "Integer")). vm_compute. reflexivity.
Defined.

(** A text that is already a label reads like the type it is the label
    of; names are matched with their case. *)
Example getTypeLabel_of_a_label :
  getTypeLabel (lit "Entier") = getTypeLabel (lit "integer")
  /\ getTypeLabel (lit "Integer") = lit "Integer"
  /\ getTypeLabel [] = [].
Proof. repeat split; vm_compute; reflexivity. Qed.

(** ** The line of the analysis mode *)

(** X5. The summary reads "Analyse complète" exactly when the
    [sample_size] of the report is null or zero: zero is falsy, so a cap of
    zero is shown as no cap. *)
Theorem analysisMode_complete (cap : option N) :
  analysisMode cap = lit "Analyse complète" <-> cap = None \/ cap = Some 0%N.
Proof.
  split.
  - destruct cap as [n|]; [| auto].
    unfold analysisMode. destruct (N.eqb_spec n 0) as [-> | _]; [auto |].
    intros H. exfalso. revert H.
    generalize (countToString n ++ lit " valeurs max)"). intros rest.
    vm_compute. discriminate.
  - intros [-> | ->]; reflexivity.
Qed.

(** ** The table and the export, cell by cell *)

(** X6. The table and the export have the same thirteen columns in the
    same order: the head of the table holds one cell for each field of the
    header of the export. The row of the table and the row of the export have
    thirteen cells each, and the same text in every cell but three: the
    examples, and the two extrema, which differ exactly when the value is
    missing or empty. *)
Theorem table_and_export_cells (stats : ColumnReport) :
  (exists before after,
      tableHeadHtml
      = before ++ lit "<tr>" ++ concat (map headCell headerFields) ++ lit "
                    </tr>" ++ after)
  /\ length (tableCells stats) = 13%nat
  /\ length (map toString (rowFields stats)) = 13%nat
  /\ (forall i, i <> 5%nat -> i <> 9%nat -> i <> 10%nat ->
        tableCells stats !! i = map toString (rowFields stats) !! i)
  /\ (tableCells stats !! 9%nat = map toString (rowFields stats) !! 9%nat
      <-> exists c s, min_value stats = Some (c :: s))
  /\ (tableCells stats !! 10%nat = map toString (rowFields stats) !! 10%nat
      <-> exists c s, max_value stats = Some (c :: s)).
Proof.
  split.
  { exists (firstn 120 tableHeadHtml), (skipn 721 tableHeadHtml).
    vm_compute. reflexivity. }
  split; [reflexivity |]. split; [reflexivity |]. split.
  - intros i H5 H9 H10.
    do 13 (destruct i as [|i]; [first [reflexivity | congruence] |]).
    reflexivity.
  - cbn [tableCells rowFields map toString lookup list_lookup].
    split; split.
    + destruct (min_value stats) as [[|c s]|]; cbn [or_else];
        [vm_compute; discriminate | eauto | vm_compute; discriminate].
    + intros (c & s & ->). reflexivity.
    + destruct (max_value stats) as [[|c s]|]; cbn [or_else];
        [vm_compute; discriminate | eauto | vm_compute; discriminate].
    + intros (c & s & ->). reflexivity.
Qed.

(** ** The texts of a report in the markup *)

Lemma tableCell_verbatim text :
  exists indent, tableCell text = indent ++ lit "<td>" ++ text ++ lit "</td>".
Proof.
  exists (firstn 17 (tableCell [])). reflexivity.
Qed.

Lemma tableRow_shape :
  exists opening closing,
    forall cells, tableRow cells = opening ++ concat (map tableCell cells) ++ closing.
Proof. eexists _, _. intros cells. unfold tableRow. reflexivity. Qed.

(** X7. [displayResults] escapes nothing: every text of a column of the
    report stands in the markup of the results as it is, between the tags
    of its cell. *)
Theorem cells_shown_verbatim (run : RunInfo) (analysis : AnalysisReport)
    (stats : ColumnReport) (text : jsstring) :
  In stats (columns analysis) ->
  In text (tableCells stats) ->
  exists before after,
    resultsHtml run analysis = before ++ lit "<td>" ++ text ++ lit "</td>" ++ after.
Proof.
  intros Hstats Htext. rewrite resultsHtml_rows.
  apply in_split in Hstats as (l1 & l2 & ->).
  apply in_split in Htext as (c1 & c2 & Hcells).
  destruct tableRow_shape as (opening & closing & Hrow).
  destruct (tableCell_verbatim text) as (indent & Hcell).
  rewrite map_app, concat_app. cbn [map concat].
  rewrite Hrow, Hcells, map_app, concat_app. cbn [map concat]. rewrite Hcell.
  generalize (concat (map (fun stats => tableRow (tableCells stats)) l1)).
  generalize (concat (map (fun stats => tableRow (tableCells stats)) l2)).
  generalize (concat (map tableCell c1)). generalize (concat (map tableCell c2)).
  generalize (resultsHead run analysis). generalize resultsTail.
  generalize (lit "<td>"). generalize (lit "</td>").
  intros close open tail head cells2 cells1 rows2 rows1.
  exists (head ++ rows1 ++ opening ++ cells1 ++ indent).
  exists (cells2 ++ closing ++ rows2 ++ tail).
  repeat rewrite <- app_assoc. reflexivity.
Qed.

(** X7 on a column whose name is markup. *)
Lemma cells_shown_verbatim_witness :
  exists before after,
    resultsHtml someRun
      {| row_count := 0; column_count := 1; sample_size := None;
         columns :=
           [ {| name := lit "<img src=x>"; type_name := lit "string";
                type_details := {| confidence := 1%float; subtypes := [];
                                   format_examples := [] |};
                total_count := 0; analyzed_count := 0; unique_values := 0;
                null_count := 0; min_value := None; max_value := None;
                min_length := 0; max_length := 0 |} ] |}
    = before ++ lit "<td>" ++ lit "<img src=x>" ++ lit "</td>" ++ after.
Proof.
  eapply cells_shown_verbatim; cbn [columns tableCells name In]; left; reflexivity.
Defined.

(** ** [parseInt] on what the number field holds *)

Lemma uint_units_app_cons d rest :
  d <> Decimal.Nil -> exists c more, uint_units d ++ rest = c :: more /\ isDigit c = true.
Proof.
  destruct d; [congruence | ..]; intros _; cbn [uint_units app];
    eexists _, _; (split; [reflexivity | reflexivity]).
Qed.

Lemma digitsPrefix_digit c s :
  isDigit c = true -> digitsPrefix 10 (c :: s) = (c - 48)%N :: digitsPrefix 10 s.
Proof.
  unfold isDigit. intros H. cbn [digitsPrefix]. unfold digitValue. rewrite H.
  apply andb_prop in H as [_ H]. apply N.leb_le in H.
  destruct (N.ltb_spec (c - 48) 10); [reflexivity | lia].
Qed.

Lemma digitsPrefix_units d rest acc :
  continuesInteger rest = false ->
  fold_left (fun acc d => (acc * 10 + d)%N) (digitsPrefix 10 (uint_units d ++ rest)) acc
  = match acc with
    | N0 => Pos.of_uint d
    | Npos p => Npos (Pos.of_uint_acc d p)
    end.
Proof.
  intros Hrest. revert acc.
  assert (Hstop : digitsPrefix 10 rest = []).
  { destruct rest as [|c rest]; [reflexivity |].
    cbn [continuesInteger] in Hrest.
    apply orb_false_elim in Hrest as [Hrest _].
    apply orb_false_elim in Hrest as [Hd _].
    unfold isDigit in Hd. cbn [digitsPrefix]. unfold digitValue. rewrite Hd.
    destruct ((97 <=? c) && (c <=? 122))%N eqn:Hlow.
    - apply andb_prop in Hlow as [Hlow _]. apply N.leb_le in Hlow.
      destruct (N.ltb_spec (c - 87) 10); [lia | reflexivity].
    - destruct ((65 <=? c) && (c <=? 90))%N eqn:Hup; [| reflexivity].
      apply andb_prop in Hup as [Hup _]. apply N.leb_le in Hup.
      destruct (N.ltb_spec (c - 55) 10); [lia | reflexivity]. }
  induction d as [| d IH | d IH | d IH | d IH | d IH | d IH | d IH | d IH | d IH | d IH];
    intros acc;
    [ cbn [uint_units app]; rewrite Hstop; destruct acc; reflexivity
    | cbn [uint_units app]; rewrite digitsPrefix_digit by reflexivity;
      cbn [fold_left]; rewrite IH; destruct acc as [|p];
      [ reflexivity
      | cbn [Pos.of_uint_acc];
        match goal with
        | |- _ = N.pos (Pos.of_uint_acc _ ?q) =>
            replace (N.pos p * 10 + _)%N with (N.pos q) by lia
        end; reflexivity ] .. ].
Qed.

Lemma parseInt_units d rest :
  d <> Decimal.Nil -> continuesInteger rest = false ->
  parseInt (uint_units d ++ rest) = countToNumber (Pos.of_uint d).
Proof.
  intros Hd Hrest. unfold parseInt.
  pose proof (digitsPrefix_units d rest 0 Hrest) as Hfold.
  cbv beta iota in Hfold.
  assert (Hbody : exists c more,
             digitsPrefix 10 (uint_units d ++ rest) = c :: more).
  { destruct d; [congruence | ..]; cbn [uint_units app digitsPrefix];
      eexists _, _; vm_compute digitValue; cbv iota beta;
      change (?x <? 10)%N with true; reflexivity. }
  assert (Hhead : trimStart (uint_units d ++ rest) = uint_units d ++ rest).
  { destruct d; [congruence | ..]; reflexivity. }
  rewrite Hhead.
  assert (Hsign : match uint_units d ++ rest with
                  | 45%N :: rest0 => (true, rest0)
                  | 43%N :: rest0 => (false, rest0)
                  | _ => (false, uint_units d ++ rest)
                  end = (false, uint_units d ++ rest)).
  { destruct d; [congruence | ..]; reflexivity. }
  rewrite Hsign.
  assert (Hradix : match uint_units d ++ rest with
                   | 48%N :: 120%N :: rest0 => (16%N, rest0)
                   | 48%N :: 88%N :: rest0 => (16%N, rest0)
                   | _ => (10%N, uint_units d ++ rest)
                   end = (10%N, uint_units d ++ rest)).
  { destruct d as [| d | d | d | d | d | d | d | d | d | d];
      [congruence | | reflexivity ..].
    cbn [uint_units app].
    destruct d; cbn [uint_units app]; try reflexivity.
    destruct rest as [|c rest]; [reflexivity |].
    cbn [continuesInteger] in Hrest.
    apply orb_false_elim in Hrest as [Hrest HX].
    apply orb_false_elim in Hrest as [_ Hx].
    apply N.eqb_neq in HX, Hx.
    destruct c as [|p]; [reflexivity |].
    repeat (destruct p as [p|p|]; try reflexivity; try congruence). }
  rewrite Hradix.
  destruct Hbody as (c & more & Hbody).
  rewrite Hbody in Hfold |- *. rewrite Hfold. reflexivity.
Qed.

(** [parseInt] reads the whole number at the head of a text and drops
    what follows it: the decimal writing of a count [n], followed by
    nothing or by anything that is no digit and no [x], is read as [n]. *)
Lemma parseInt_whole_part (n : N) (rest : jsstring) :
  continuesInteger rest = false ->
  parseInt (countToString n ++ rest) = countToNumber n.
Proof.
  intros Hrest. unfold countToString.
  rewrite parseInt_units; [| | exact Hrest].
  - change (Pos.of_uint (N.to_uint n)) with (N.of_uint (N.to_uint n)).
    rewrite DecimalN.Unsigned.of_to. reflexivity.
  - destruct n as [|p]; [discriminate |]. apply DecimalPos.Unsigned.to_uint_nonnil.
Qed.

(** The texts 250, 2.5 and 1e3; a text with no digit at its head is read
    as [NaN], and a zero followed by [x] announces radix 16. *)
Example parseInt_number_field :
  parseInt (lit "250") = 250%float
  /\ parseInt (lit "2.5") = 2%float
  /\ parseInt (lit "1e3") = 1%float
  /\ Prim2SF (parseInt []) = S754_nan
  /\ Prim2SF (parseInt (lit ".5")) = S754_nan
  /\ parseInt (lit "0x10") = 16%float.
Proof. repeat split; vm_compute; reflexivity. Qed.

(** ** The time shown and the speed computed from it *)

Lemma trimStart_app t c rest :
  isWhiteSpace c = false -> trimStart (t ++ c :: rest) = trimStart t ++ c :: rest.
Proof.
  intros Hc. induction t as [|u t IH].
  - cbn [app trimStart]. rewrite Hc. reflexivity.
  - cbn [app trimStart]. destruct (isWhiteSpace u); [exact IH | reflexivity].
Qed.

Lemma spanDigits_app s c rest :
  isDigit c = false ->
  spanDigits (s ++ c :: rest) = ((spanDigits s).1, (spanDigits s).2 ++ c :: rest).
Proof.
  intros Hc. induction s as [|u s IH].
  - cbn [app spanDigits]. rewrite Hc. reflexivity.
  - cbn [app spanDigits]. destruct (isDigit u); [| reflexivity].
    rewrite IH. destruct (spanDigits s). reflexivity.
Qed.

Lemma startsWith_app pattern s c rest :
  avoids c pattern = true ->
  startsWith pattern (s ++ c :: rest) = startsWith pattern s.
Proof.
  revert s. induction pattern as [|p pattern IH]; intros s Hc; [destruct s; reflexivity |].
  cbn [avoids forallb] in Hc. apply andb_prop in Hc as [Hp Hc].
  destruct s as [|u s]; cbn [app startsWith].
  - apply negb_true_iff in Hp. rewrite Hp. reflexivity.
  - rewrite (IH s Hc). reflexivity.
Qed.

Lemma stopsNumber_units c :
  stopsNumber c = true ->
  isWhiteSpace c = false /\ isDigit c = false
  /\ c <> 43%N /\ c <> 45%N /\ c <> 46%N /\ c <> 101%N /\ c <> 69%N
  /\ avoids c (lit "Infinity") = true.
Proof.
  unfold stopsNumber. intros H. apply negb_true_iff in H.
  apply orb_false_elim in H as [H Hl]. apply orb_false_elim in H as [Hw Hd].
  split; [exact Hw |]. split; [exact Hd |].
  change (lit "+-.eEInfinity")
    with [43; 45; 46; 101; 69; 73; 110; 102; 105; 110; 105; 116; 121]%N in Hl.
  change (lit "Infinity") with [73; 110; 102; 105; 110; 105; 116; 121]%N.
  cbn [existsb] in Hl. repeat (apply orb_false_elim in Hl as [? Hl]).
  repeat match goal with Hx : (c =? _)%N = false |- _ => apply N.eqb_neq in Hx end.
  repeat (split; [assumption |]).
  cbn [avoids forallb]. 
  repeat (apply andb_true_intro; split;
          [apply negb_true_iff, N.eqb_neq; congruence |]).
  reflexivity.
Qed.

Lemma sign_app (s : jsstring) c rest :
  c <> 43%N -> c <> 45%N ->
  match s ++ c :: rest with
  | 45%N :: r => (true, r)
  | 43%N :: r => (false, r)
  | _ => (false, s ++ c :: rest)
  end
  = let '(negative, unsigned) :=
      match s with
      | 45%N :: r => (true, r)
      | 43%N :: r => (false, r)
      | _ => (false, s)
      end in
    (negative, unsigned ++ c :: rest).
Proof.
  intros Hplus Hminus. destruct s as [|u s]; cbn [app].
  - destruct c as [|p]; [reflexivity |].
    repeat (destruct p as [p|p|]; try reflexivity; try congruence).
  - destruct u as [|p]; [reflexivity |].
    repeat (destruct p as [p|p|]; try reflexivity).
Qed.

Lemma scanExponent_app s c rest :
  stopsNumber c = true -> scanExponent (s ++ c :: rest) = scanExponent s.
Proof.
  intros (_ & Hd & Hplus & Hminus & _ & He & HE & _)%stopsNumber_units.
  destruct s as [|u s]; cbn [app scanExponent].
  - apply N.eqb_neq in He, HE. rewrite He, HE. reflexivity.
  - destruct ((u =? 101) || (u =? 69))%N; [| reflexivity].
    rewrite (sign_app s c rest Hplus Hminus).
    destruct (match s with
              | 45%N :: r => (true, r)
              | 43%N :: r => (false, r)
              | _ => (false, s)
              end) as [negative unsigned].
    rewrite (spanDigits_app unsigned c rest Hd).
    destruct (spanDigits unsigned) as [es after]. reflexivity.
Qed.

Lemma scanDecimal_app s c rest :
  stopsNumber c = true -> scanDecimal (s ++ c :: rest) = scanDecimal s.
Proof.
  intros Hc. pose proof (stopsNumber_units c Hc) as (_ & Hd & _ & _ & Hpoint & _).
  unfold scanDecimal. rewrite (spanDigits_app s c rest Hd).
  destruct (spanDigits s) as [ds after]. cbn [fst snd].
  destruct after as [|u after]; cbn [app].
  - assert (Hhead : scanExponent (c :: rest) = scanExponent [])
      by apply (scanExponent_app [] c rest Hc).
    destruct c as [|p]; [rewrite Hhead; reflexivity |].
    repeat (destruct p as [p|p|]; try (rewrite Hhead; reflexivity); try congruence).
  - assert (Hexp : scanExponent (u :: after ++ c :: rest) = scanExponent (u :: after))
      by apply (scanExponent_app (u :: after) c rest Hc).
    assert (Hfrac : spanDigits (after ++ c :: rest)
                    = ((spanDigits after).1, (spanDigits after).2 ++ c :: rest))
      by apply (spanDigits_app after c rest Hd).
    destruct (decide (u = 46%N)) as [-> | Hu].
    + rewrite Hfrac. destruct (spanDigits after) as [fs after']. cbn [fst snd].
      rewrite (scanExponent_app after' c rest Hc). reflexivity.
    + destruct u as [|p]; [rewrite Hexp; reflexivity |].
      repeat (destruct p as [p|p|]; try (rewrite Hexp; reflexivity); try congruence).
Qed.

(** [parseFloat] stops at a unit that no number holds, and does not see
    what stands from there on. *)
Lemma parseFloat_stops t c rest :
  stopsNumber c = true -> parseFloat (t ++ c :: rest) = parseFloat t.
Proof.
  intros Hc.
  pose proof (stopsNumber_units c Hc) as (Hw & _ & Hplus & Hminus & _ & _ & _ & Hinf).
  unfold parseFloat. rewrite (trimStart_app t c rest Hw).
  rewrite (sign_app (trimStart t) c rest Hplus Hminus).
  destruct (match trimStart t with
            | 45%N :: r => (true, r)
            | 43%N :: r => (false, r)
            | _ => (false, trimStart t)
            end) as [negative unsigned].
  rewrite (startsWith_app _ unsigned c rest Hinf), (scanDecimal_app unsigned c rest Hc).
  reflexivity.
Qed.

Lemma app_two_inv (s t : jsstring) (a b : N) : s ++ [b] = t ++ [a; b] -> s = t ++ [a].
Proof.
  intros H. change (t ++ [a; b]) with (t ++ [a] ++ [b]) in H.
  rewrite app_assoc in H. apply app_inj_tail in H as [H _]. exact H.
Qed.

(** X8. The time is written in milliseconds, rounded to a whole number,
    exactly when it is below one second, and in seconds with two decimals
    otherwise ([NaN] included); and the number [displayResults] reads back
    from that text to compute the speed is the number written, without its
    unit: it is divided by 1000 whether it counts milliseconds or
    seconds. *)
Theorem formatExecutionTime_unit (startTime endTime : float) (fileSize : N) :
  let elapsed := (endTime - startTime)%float in
  let text := formatExecutionTime startTime endTime in
  let number := if (elapsed <? 1000)%float then roundedToString elapsed
                else toFixed (elapsed / 1000)%float 2 in
  (endsWith (lit "ms") text <-> (elapsed <? 1000)%float = true)
  /\ text = number ++ (if (elapsed <? 1000)%float then lit "ms" else lit "s")
  /\ parseFloat text = parseFloat number
  /\ processingSpeed fileSize text
     = (countToNumber fileSize / (parseFloat number / 1000))%float.
Proof.
  cbv zeta. unfold processingSpeed, formatExecutionTime.
  destruct (endTime - startTime <? 1000)%float eqn:Hlt.
  - assert (Hparse : parseFloat (roundedToString (endTime - startTime) ++ lit "ms")
                     = parseFloat (roundedToString (endTime - startTime)))
      by (apply parseFloat_stops; reflexivity).
    rewrite Hparse. split; [| auto].
    split; [reflexivity |]. intros _. eexists. reflexivity.
  - assert (Hparse : parseFloat (toFixed ((endTime - startTime) / 1000) 2 ++ lit "s")
                     = parseFloat (toFixed ((endTime - startTime) / 1000) 2))
      by (apply parseFloat_stops; reflexivity).
    rewrite Hparse. split; [| auto].
    split; [| discriminate]. intros [t Ht]. exfalso.
    apply app_two_inv in Ht.
    assert (Hm : avoids 109 (toFixed ((endTime - startTime) / 1000) 2) = true)
      by (apply toFixed_avoids; reflexivity).
    rewrite Ht, avoids_app in Hm. cbn in Hm. rewrite andb_false_r in Hm.
    discriminate Hm.
Qed.

(** A file of 3000 bytes analyzed in 999 milliseconds, and in a second and
    a half: the texts shown, and the bytes per second computed from
    them. *)
Example formatExecutionTime_around_one_second :
  formatExecutionTime 0 999 = lit "999ms"
  /\ processingSpeed 3000 (lit "999ms") = (3000 / (999 / 1000))%float
  /\ formatExecutionTime 0 1500 = lit "1.50s"
  /\ processingSpeed 3000 (lit "1.50s") = 2000000%float
  /\ formatExecutionTime 0 999.5 = lit "1000ms"
  /\ formatExecutionTime 0 0.25 = lit "0ms"
  /\ processingSpeed 3000 (lit "0ms") = infinity.
Proof. repeat split; vm_compute; reflexivity. Qed.

(** ** The value of the number field *)

Lemma spanDigits_units d :
  (spanDigits (uint_units d)).2 = []
  /\ (d <> Decimal.Nil -> exists v vs, (spanDigits (uint_units d)).1 = v :: vs).
Proof.
  induction d as [| d IH | d IH | d IH | d IH | d IH | d IH | d IH | d IH | d IH | d IH];
    [ split; [reflexivity | congruence]
    | cbn [uint_units spanDigits];
      change (isDigit _) with true; cbv iota;
      destruct IH as [IH _]; destruct (spanDigits (uint_units d)) as [ds after];
      cbn [fst snd] in *; split; [exact IH | intros _; eexists _, _; reflexivity] .. ].
Qed.

Lemma unsigned_units d rest :
  d <> Decimal.Nil ->
  match uint_units d ++ rest with
  | 45%N :: rest' => rest'
  | _ => uint_units d ++ rest
  end = uint_units d ++ rest.
Proof. destruct d; [congruence | ..]; reflexivity. Qed.

(** Behind the digits of a valid floating-point number stands nothing, a
    point or an exponent: nothing that makes [parseInt] read on. *)
Lemma valid_number_tail d rest :
  d <> Decimal.Nil -> headIsDigit rest = false ->
  validFloatingPointNumber (uint_units d ++ rest) = true ->
  continuesInteger rest = false.
Proof.
  intros Hd Hhead Hvalid. destruct rest as [|c rest]; [reflexivity |].
  cbn [headIsDigit] in Hhead. cbn [continuesInteger]. rewrite Hhead. cbn [orb].
  revert Hvalid. unfold validFloatingPointNumber.
  rewrite (unsigned_units d (c :: rest) Hd), (spanDigits_app _ c rest Hhead).
  destruct (spanDigits_units d) as [Hafter Hdigits].
  destruct (Hdigits Hd) as (v & vs & Hds).
  rewrite Hafter, Hds. cbn [app].
  destruct (N.eqb_spec c 120) as [-> | _]; [discriminate |].
  destruct (N.eqb_spec c 88) as [-> | _]; [discriminate |].
  reflexivity.
Qed.

(** ** The page: the other listeners *)

Section PageBehaviour.

Context {Engine : Type}.
Variable engine_new : option float -> Engine.
Variable engine_analyze : Engine -> jsstring -> (AnalysisReport + Thrown) * Engine.
Variable null_call_error : Thrown.

Abbreviation Page := (@Page Engine).
Abbreviation step := (step engine_new engine_analyze null_call_error).
Abbreviation run := (run engine_new engine_analyze null_call_error).
Abbreviation boot := (boot engine_new null_call_error).
Abbreviation rebuilt := (rebuilt engine_new).
Abbreviation analyze := (analyzer_analyze engine_analyze null_call_error).

Ltac js_unfold :=
  cbv [dispatch mbind Js_bind mret Js_ret gets modify throw try_catch
       try_catch_finally newAnalyzerConfig setSampleSize newCSVAnalyzer].

Ltac page_simpl :=
  cbn [wasm_ready configs analyzers analyzer sampleSizeToggle_checked
       sampleSize_value sampleSize_disabled fileInput_files fileInfo_textContent
       fileInfo_display analyzeBtn_disabled results_innerHTML downloadButton
       pending downloads
       set_wasm_ready set_configs set_analyzers set_analyzer
       set_sampleSizeToggle_checked set_sampleSize_value set_sampleSize_disabled
       set_fileInput_files set_fileInfo set_analyzeBtn_disabled
       set_results_innerHTML set_downloadButton set_pending set_downloads
       fst snd negb] in *.

Lemma step_select (file : option File) (p : Page) :
  step (SelectFile file) p
  = match file with
    | Some f =>
        set_analyzeBtn_disabled false
          (set_fileInfo (lit "Fichier sélectionné : " ++ file_name f) (lit "block")
             (set_fileInput_files file p))
    | None => set_fileInput_files None p
    end.
Proof.
  unfold step, onFileInputChange. js_unfold. page_simpl. destruct file; reflexivity.
Qed.

Lemma step_click (p : Page) :
  step ClickAnalyze p
  = match fileInput_files p, analyzer p with
    | Some f, Some _ =>
        set_pending (pending p ++ [f])
          (set_results_innerHTML loadingHtml (set_analyzeBtn_disabled true p))
    | _, _ => p
    end.
Proof.
  unfold step, onAnalyzeClick. js_unfold. page_simpl.
  destruct (fileInput_files p), (analyzer p); reflexivity.
Qed.

Lemma step_download (p : Page) :
  step ClickDownload p
  = match downloadButton p with
    | Some analysis =>
        set_downloads
          (downloads p ++ [(exportToCSV analysis, lit "analyse_colonnes.csv")]) p
    | None => p
    end.
Proof.
  unfold step, onDownloadClick. js_unfold. page_simpl.
  destruct (downloadButton p); reflexivity.
Qed.

(** A call of [analyze] changes the store of the instances and nothing
    else of the page. *)
Lemma analyzer_analyze_frame (content : jsstring) (p : Page) :
  (analyze content p).2 = set_analyzers (analyzers (analyze content p).2) p.
Proof.
  unfold analyzer_analyze.
  destruct p as [ready cfgs insts cur checked value disabled files text display
                  btn html button reads dls].
  page_simpl.
  destruct cur as [a|]; [| reflexivity].
  destruct (insts !! a) as [o|]; [| reflexivity].
  destruct (engine_analyze (CSVAnalyzer.engine o) content) as [[analysis | error] e'];
    reflexivity.
Qed.

Lemma step_settled (k : nat) (rejection : option Thrown) (info : RunInfo) (p : Page) :
  step (ReadSettled k rejection info) p
  = match pending p !! k with
    | Some file =>
        let q := set_pending (delete k (pending p)) p in
        match rejection with
        | Some error => set_analyzeBtn_disabled false (set_results_innerHTML (errorHtml error) q)
        | None =>
            let q1 := set_analyzers (analyzers (analyze (file_text file) q).2) q in
            match (analyze (file_text file) p).1 with
            | inl analysis =>
                set_analyzeBtn_disabled false
                  (set_downloadButton (Some analysis)
                     (set_results_innerHTML (resultsHtml info analysis) q1))
            | inr error =>
                set_analyzeBtn_disabled false (set_results_innerHTML (errorHtml error) q1)
            end
        end
    | None => p
    end.
Proof.
  unfold step. destruct (pending p !! k) as [file|]; [| reflexivity].
  rewrite afterRead_page. cbv zeta.
  destruct rejection as [error|]; [reflexivity |].
  rewrite <- (analyzer_analyze_pending engine_analyze null_call_error
                (file_text file) (delete k (pending p)) p).
  rewrite <- analyzer_analyze_frame.
  destruct (analyze (file_text file) (set_pending (delete k (pending p)) p))
    as [[analysis | error] p1]; reflexivity.
Qed.

Lemma run_preserves (P : Page -> Prop) :
  (forall ev p, P p -> P (step ev p)) -> forall evs p, P p -> P (run evs p).
Proof.
  intros Hstep evs. induction evs as [|ev evs IH]; intros p Hp; [exact Hp |].
  apply IH, Hstep, Hp.
Qed.

Lemma run_cons (ev : Event) (evs : list Event) (p : Page) :
  run (ev :: evs) p = run evs (step ev p).
Proof. reflexivity. Qed.

(** *** The two controls of the sampling settings *)

Lemma step_controlsAgree (ev : Event) (p : Page) :
  controlsAgree p -> controlsAgree (step ev p).
Proof.
  unfold controlsAgree. intros H.
  destruct ev as [| value | file | | k rejection info |].
  - rewrite step_toggle. cbv zeta.
    destruct (wasm_ready p); unfold rebuilt; page_simpl;
      destruct (sampleSizeToggle_checked p); reflexivity.
  - rewrite step_edit. cbv zeta.
    destruct (sampleSizeToggle_checked p && wasm_ready p);
      unfold rebuilt; page_simpl; exact H.
  - rewrite step_select. destruct file; page_simpl; exact H.
  - rewrite step_click. destruct (fileInput_files p), (analyzer p); page_simpl; exact H.
  - rewrite step_settled. destruct (pending p !! k) as [file|]; [| exact H].
    cbv zeta. destruct rejection as [error|]; [page_simpl; exact H |].
    destruct (analyze (file_text file) p).1; page_simpl; exact H.
  - rewrite step_download. destruct (downloadButton p); page_simpl; exact H.
Qed.

(** X9. On every page the user can reach, the number field of the sample
    size is disabled exactly when the box of the sampling is unchecked,
    whether [init()] succeeded or not. *)
Theorem sampling_controls_agree (init_failure : option Thrown) (document : Page)
    (evs : list Event) :
  let p := run evs (boot init_failure document) in
  sampleSize_disabled p = negb (sampleSizeToggle_checked p).
Proof.
  cbv zeta. apply (run_preserves controlsAgree step_controlsAgree).
  rewrite boot_page. cbv zeta. generalize (lit "1000"). intros thousand.
  unfold controlsAgree. page_simpl. reflexivity.
Qed.

(** *** The download *)

Lemma step_shown (ev : Event) (p : Page) :
  shown p /\ Forall exported (downloads p) ->
  shown (step ev p) /\ Forall exported (downloads (step ev p)).
Proof.
  unfold shown. intros [Hs Hd].
  destruct ev as [| value | file | | k rejection info |].
  - rewrite step_toggle. cbv zeta.
    destruct (wasm_ready p); unfold rebuilt; page_simpl; split; assumption.
  - rewrite step_edit. cbv zeta.
    destruct (sampleSizeToggle_checked p && wasm_ready p);
      unfold rebuilt; page_simpl; split; assumption.
  - rewrite step_select. destruct file; page_simpl; split; assumption.
  - rewrite step_click. destruct (fileInput_files p), (analyzer p); page_simpl;
      split; trivial.
  - rewrite step_settled. destruct (pending p !! k) as [file|]; [| split; assumption].
    cbv zeta. destruct rejection as [error|]; [page_simpl; split; trivial |].
    destruct (analyze (file_text file) p).1 as [analysis | error]; page_simpl;
      split; trivial.
    exists info. reflexivity.
  - rewrite step_download. destruct (downloadButton p) as [analysis|] eqn:Hb;
      page_simpl; [| rewrite Hb; split; assumption].
    rewrite Hb. split; [exact Hs |].
    apply Forall_app. split; [exact Hd |].
    constructor; [| constructor]. split; [reflexivity |].
    exists analysis. reflexivity.
Qed.

(** X10. On every page the user can reach, a download button in the
    results area stands under the table of one report, and a click on it
    gives [downloadCSV] the export of that very report under the name
    [analyse_colonnes.csv]; where there is no such button a click does
    nothing. Nothing else was ever given to [downloadCSV]. *)
Theorem download_exports_what_is_shown (init_failure : option Thrown)
    (document : Page) (evs : list Event) :
  let p := run evs (boot init_failure document) in
  Forall exported (downloads p)
  /\ match downloadButton p with
     | Some analysis =>
         (exists info, results_innerHTML p = resultsHtml info analysis)
         /\ step ClickDownload p
            = set_downloads
                (downloads p ++ [(exportToCSV analysis, lit "analyse_colonnes.csv")]) p
     | None => step ClickDownload p = p
     end.
Proof.
  cbv zeta.
  assert (Hinv : shown (run evs (boot init_failure document))
                 /\ Forall exported (downloads (run evs (boot init_failure document)))).
  { apply (run_preserves (fun p => shown p /\ Forall exported (downloads p)) step_shown).
    rewrite boot_page. cbv zeta. generalize (lit "1000"). intros thousand.
    unfold shown.
    destruct init_failure as [error|]; unfold rebuilt, moduleLoaded; page_simpl;
      split; trivial; constructor. }
  destruct Hinv as [Hs Hd]. split; [exact Hd |].
  rewrite step_download. unfold shown in Hs.
  destruct (downloadButton (run evs (boot init_failure document))) as [analysis|].
  - split; [exact Hs | reflexivity].
  - reflexivity.
Qed.

(** *** A page whose package failed to load *)

Lemma step_inert (ev : Event) (p : Page) :
  inert p -> inert (step ev p) /\ results_innerHTML (step ev p) = results_innerHTML p.
Proof.
  unfold inert. intros (Hr & Ha & Hcs & Has & Hp & Hb & Hd).
  destruct ev as [| value | file | | k rejection info |].
  - rewrite step_toggle, Hr. cbv zeta. page_simpl. auto 10.
  - rewrite step_edit, Hr, andb_false_r. cbv zeta. page_simpl. auto 10.
  - rewrite step_select. destruct file; page_simpl; auto 10.
  - rewrite step_click, Ha. destruct (fileInput_files p); auto 10.
  - rewrite step_settled, Hp. cbn [lookup list_lookup]. auto 10.
  - rewrite step_download, Hb. auto 10.
Qed.

(** X11. When [init()] fails, nothing the user does builds an analyzer,
    starts a read, changes the results area or downloads anything: the
    page keeps no instance of the package and [analyzer] stays null. *)
Theorem failed_init_inert (error : Thrown) (document : Page) (evs : list Event) :
  let p := run evs (boot (Some error) document) in
  analyzer p = None /\ configs p = [] /\ analyzers p = []
  /\ pending p = [] /\ downloadButton p = None /\ downloads p = []
  /\ results_innerHTML p = results_innerHTML document.
Proof.
  cbv zeta.
  assert (Hinv : inert (run evs (boot (Some error) document))
                 /\ results_innerHTML (run evs (boot (Some error) document))
                    = results_innerHTML document).
  { apply (run_preserves
             (fun p => inert p /\ results_innerHTML p = results_innerHTML document)).
    - intros ev p [Hi Hr]. destruct (step_inert ev p Hi) as [Hi' Hr'].
      split; [exact Hi' | congruence].
    - rewrite boot_page. cbv zeta. generalize (lit "1000"). intros thousand.
      unfold inert, moduleLoaded. page_simpl. auto 10. }
  destruct Hinv as [(_ & Ha & Hcs & Has & Hp & Hb & Hd) Hr]. auto 10.
Qed.

(** *** A read that settles *)

(** X12. When the read of a file settles and [analyzer.analyze] returns
    a report for its text, the results area holds the table of that report
    under a download button, the button to analyze is enabled again, the
    read is no longer in flight, and a click on the download button gives
    [downloadCSV] the export of that report. *)
Theorem analysis_shown_and_exported (p : Page) (k : nat) (file : File)
    (info : RunInfo) (analysis : AnalysisReport) :
  pending p !! k = Some file ->
  (analyze (file_text file) p).1 = inl analysis ->
  let p' := step (ReadSettled k None info) p in
  results_innerHTML p' = resultsHtml info analysis
  /\ downloadButton p' = Some analysis
  /\ analyzeBtn_disabled p' = false
  /\ pending p' = delete k (pending p)
  /\ downloads p' = downloads p
  /\ downloads (step ClickDownload p')
     = downloads p ++ [(exportToCSV analysis, lit "analyse_colonnes.csv")].
Proof.
  intros Hk Hreport. cbv zeta. rewrite step_download, step_settled, Hk. cbv zeta.
  rewrite Hreport. page_simpl. auto 10.
Qed.

(** X13. When the read of a file is rejected, the engine is not called:
    the results area holds the message of the rejection and no download
    button, the instances of the package are as they were, the read is no
    longer in flight and the button to analyze is enabled again. *)
Theorem rejected_read_shown (p : Page) (k : nat) (file : File) (info : RunInfo)
    (error : Thrown) :
  pending p !! k = Some file ->
  let p' := step (ReadSettled k (Some error) info) p in
  results_innerHTML p' = errorHtml error
  /\ downloadButton p' = None
  /\ analyzers p' = analyzers p
  /\ configs p' = configs p
  /\ analyzer p' = analyzer p
  /\ pending p' = delete k (pending p)
  /\ analyzeBtn_disabled p' = false.
Proof.
  intros Hk. cbv zeta. rewrite step_settled, Hk. cbv zeta. page_simpl. auto 10.
Qed.

(** *** From the click to the result *)

Lemma step_keepsReads (ev : Event) (p : Page) :
  keepsReads ev = true ->
  pending (step ev p) = pending p
  /\ results_innerHTML (step ev p) = results_innerHTML p
  /\ downloadButton (step ev p) = downloadButton p.
Proof.
  destruct ev as [| value | file | | k rejection info |]; try discriminate; intros _.
  - rewrite step_toggle. cbv zeta.
    destruct (wasm_ready p); unfold rebuilt; page_simpl; auto.
  - rewrite step_edit. cbv zeta.
    destruct (sampleSizeToggle_checked p && wasm_ready p);
      unfold rebuilt; page_simpl; auto.
  - rewrite step_select. destruct file; page_simpl; auto.
  - rewrite step_download. destruct (downloadButton p) eqn:Hb; page_simpl; auto.
Qed.

Lemma run_keepsReads (evs : list Event) (p : Page) :
  forallb keepsReads evs = true ->
  pending (run evs p) = pending p
  /\ results_innerHTML (run evs p) = results_innerHTML p
  /\ downloadButton (run evs p) = downloadButton p.
Proof.
  revert p. induction evs as [|ev evs IH]; intros p Hevs; [auto |].
  cbn [forallb] in Hevs. apply andb_prop in Hevs as [Hev Hevs].
  rewrite run_cons.
  destruct (IH (step ev p) Hevs) as (-> & -> & ->). apply step_keepsReads, Hev.
Qed.

(** X14. A click on the button to analyze does nothing unless a file is
    chosen and an analyzer exists. Otherwise it starts the read of the file
    chosen at that moment and shows the loading message; whatever the user
    does before the read settles (choosing another file, changing the
    sampling settings), it is the text of that file which is analyzed,
    by the analyzer that [analyzer] holds when the read settles, and the
    results area shows the outcome. *)
Theorem click_captures_file (p : Page) (between : list Event) :
  forallb keepsReads between = true ->
  let q := run between (step ClickAnalyze p) in
  match fileInput_files p, analyzer p with
  | Some file, Some _ =>
      pending q = pending p ++ [file]
      /\ results_innerHTML q = loadingHtml
      /\ downloadButton q = None
      /\ forall info,
           results_innerHTML (step (ReadSettled (length (pending p)) None info) q)
           = match (analyze (file_text file) q).1 with
             | inl analysis => resultsHtml info analysis
             | inr error => errorHtml error
             end
  | _, _ => step ClickAnalyze p = p
  end.
Proof.
  intros Hbetween. cbv zeta.
  destruct (run_keepsReads between (step ClickAnalyze p) Hbetween) as (Hp & Hr & Hb).
  revert Hp Hr Hb. rewrite step_click.
  destruct (fileInput_files p) as [file|], (analyzer p) as [a|]; try reflexivity.
  page_simpl.
  generalize (run between
                (set_pending (pending p ++ [file])
                   (set_results_innerHTML loadingHtml (set_analyzeBtn_disabled true p)))).
  intros q Hp Hr Hb.
  split; [exact Hp |]. split; [exact Hr |]. split; [exact Hb |].
  intros info. rewrite step_settled, Hp, lookup_last. cbv zeta.
  destruct (analyze (file_text file) q).1; reflexivity.
Qed.

(** X15. When the user chooses a file and then empties the selection,
    the listener returns at once: the page still names the former file and
    leaves the button to analyze enabled, and a click on it does nothing. *)
Theorem emptied_selection_keeps_file_info (p : Page) (file : File) :
  let q := step (SelectFile None) (step (SelectFile (Some file)) p) in
  fileInput_files q = None
  /\ fileInfo_textContent q = lit "Fichier sélectionné : " ++ file_name file
  /\ fileInfo_display q = lit "block"
  /\ analyzeBtn_disabled q = false
  /\ step ClickAnalyze q = q.
Proof.
  cbv zeta. rewrite step_click, !step_select. page_simpl. auto 10.
Qed.

(** *** The size committed in the number field *)

(** X16. The field of the sample size is an [input] of type [number]:
    its value is the text committed when that is a valid floating-point
    number, and empty otherwise. With the package loaded, the size that is
    configured (at once when sampling is on, and when the box is checked
    next otherwise) is [parseInt] of that value: [NaN] for a text that is no
    valid number, and for a valid number the whole number [n] written at
    its head, whatever fraction or exponent follows it. *)
Theorem committed_size_configured (p : Page) (text : jsstring) :
  wasm_ready p = true ->
  let q := step (EditSampleSize (numberValue text)) p in
  let configured :=
    currentSetting (if sampleSizeToggle_checked p then q else step ToggleSampling q) in
  configured = Some (Some (parseInt (numberValue text)))
  /\ (sampleSizeToggle_checked p = false -> currentSetting q = currentSetting p)
  /\ (validFloatingPointNumber text = false -> configured = Some (Some nan))
  /\ (forall n rest,
        text = countToString n ++ rest -> headIsDigit rest = false ->
        validFloatingPointNumber text = true ->
        configured = Some (Some (countToNumber n))).
Proof.
  intros Hready. cbv zeta.
  assert (Hconfigured :
            currentSetting
              (if sampleSizeToggle_checked p
               then step (EditSampleSize (numberValue text)) p
               else step ToggleSampling (step (EditSampleSize (numberValue text)) p))
            = Some (Some (parseInt (numberValue text)))).
  { destruct (sampleSizeToggle_checked p) eqn:Hc.
    - rewrite step_edit, Hc, Hready. cbv zeta. cbn [andb].
      rewrite currentSetting_rebuilt. unfold askedSetting. page_simpl.
      rewrite Hc. reflexivity.
    - rewrite step_toggle, step_edit, Hc. cbv zeta. cbn [andb]. page_simpl.
      rewrite Hready, currentSetting_rebuilt. unfold askedSetting. page_simpl.
      rewrite Hc. reflexivity. }
  rewrite Hconfigured.
  split; [reflexivity |]. split; [| split].
  - intros Hc. rewrite step_edit, Hc. reflexivity.
  - intros Hinvalid. unfold numberValue. rewrite Hinvalid. reflexivity.
  - intros n rest -> Hhead Hvalid. unfold numberValue. rewrite Hvalid.
    rewrite parseInt_whole_part; [reflexivity |].
    unfold countToString in Hvalid.
    apply (valid_number_tail (N.to_uint n) rest); [| exact Hhead | exact Hvalid].
    destruct n as [|m]; [discriminate | apply DecimalPos.Unsigned.to_uint_nonnil].
Qed.

End PageBehaviour.

(** ** The other listeners on the sample engine *)

(** X16 on the page where the box is checked: the user commits 250.5,
    and then a text that is no number. *)
Lemma committed_size_configured_witness :
  currentSetting
    (sampleStep (EditSampleSize (numberValue (lit "250.5")))
       (sampleRun [ToggleSampling] samplePage))
  = Some (Some (countToNumber 250))
  /\ currentSetting
       (sampleStep (EditSampleSize (numberValue (lit "12abc")))
          (sampleRun [ToggleSampling] samplePage))
     = Some (Some nan).
Proof.
  unfold sampleStep, sampleRun, samplePage.
  assert (Hc : sampleSizeToggle_checked
                 (run Core.new sampleCall typeError [ToggleSampling]
                    (boot Core.new typeError None blankDocument)) = true)
    by (vm_compute; reflexivity).
  split.
  - pose proof (committed_size_configured Core.new sampleCall typeError
                  (run Core.new sampleCall typeError [ToggleSampling]
                     (boot Core.new typeError None blankDocument))
                  (lit "250.5")) as H.
    cbv zeta in H. rewrite Hc in H.
    destruct H as (_ & _ & _ & H); [vm_compute; reflexivity |].
    apply (H 250%N (lit ".5")); vm_compute; reflexivity.
  - pose proof (committed_size_configured Core.new sampleCall typeError
                  (run Core.new sampleCall typeError [ToggleSampling]
                     (boot Core.new typeError None blankDocument))
                  (lit "12abc")) as H.
    cbv zeta in H. rewrite Hc in H.
    destruct H as (_ & _ & H & _); [vm_compute; reflexivity |].
    apply H. vm_compute. reflexivity.
Defined.

(** What the field reads for some texts. *)
Example numberValue_of_texts :
  numberValue (lit "250") = lit "250"
  /\ numberValue (lit "-1.5e+3") = lit "-1.5e+3"
  /\ numberValue (lit ".5") = lit ".5"
  /\ numberValue (lit "12abc") = []
  /\ numberValue (lit "12e") = []
  /\ numberValue (lit "5.") = []
  /\ numberValue (lit "+5") = []
  /\ numberValue (lit " 5") = []
  /\ numberValue (lit "0x10") = [].
Proof. repeat split; vm_compute; reflexivity. Qed.

(** X12 on the document of the specification. *)
Lemma analysis_shown_and_exported_witness :
  exists analysis,
    sampleAnalyze None gapDocument = Core.Ok analysis
    /\ results_innerHTML (sampleStep (ReadSettled 0 None someRun) readingGapFile)
       = resultsHtml someRun analysis
    /\ downloads (sampleStep ClickDownload
                    (sampleStep (ReadSettled 0 None someRun) readingGapFile))
       = [(exportToCSV analysis, lit "analyse_colonnes.csv")].
Proof.
  destruct (sampleAnalyze None gapDocument) as [analysis | e] eqn:E;
    [| vm_compute in E; discriminate E].
  exists analysis. split; [reflexivity |].
  unfold sampleStep.
  destruct (analysis_shown_and_exported Core.new sampleCall typeError readingGapFile
              0%nat gapFile someRun analysis) as (H1 & _ & _ & _ & _ & H6).
  - vm_compute. reflexivity.
  - assert (Hcall : (analyzer_analyze sampleCall typeError (file_text gapFile)
                       readingGapFile).1
                    = match sampleAnalyze None gapDocument with
                      | Core.Ok report => inl report
                      | Core.Failed e => inr (errorByName e)
                      end)
      by (vm_compute; reflexivity).
    rewrite Hcall, E. reflexivity.
  - split; [exact H1 |]. rewrite H6.
    assert (Hd : downloads readingGapFile = []) by (vm_compute; reflexivity).
    rewrite Hd. reflexivity.
Defined.

(** X13 on a read of that file which the browser rejects. *)
Lemma rejected_read_shown_witness :
  results_innerHTML (sampleStep (ReadSettled 0 (Some typeError) someRun) readingGapFile)
  = errorHtml typeError
  /\ analyzers (sampleStep (ReadSettled 0 (Some typeError) someRun) readingGapFile)
     = analyzers readingGapFile.
Proof.
  destruct (rejected_read_shown Core.new sampleCall typeError readingGapFile
              0%nat gapFile someRun typeError) as (H1 & _ & H3 & _).
  - vm_compute. reflexivity.
  - split; [exact H1 | exact H3].
Defined.

(** X14 on the page where [gapFile] is chosen: the user clicks, chooses
    the empty file and checks the box before the read settles. *)
Lemma click_captures_file_witness :
  pending (sampleRun [ClickAnalyze; SelectFile (Some emptyFile); ToggleSampling]
             (sampleRun [SelectFile (Some gapFile)] samplePage))
  = [gapFile].
Proof.
  unfold sampleRun, samplePage.
  pose proof (click_captures_file Core.new sampleCall typeError
                (run Core.new sampleCall typeError [SelectFile (Some gapFile)]
                   (boot Core.new typeError None blankDocument))
                [SelectFile (Some emptyFile); ToggleSampling]) as H.
  cbv zeta in H.
  assert (Hf : fileInput_files
                 (run Core.new sampleCall typeError [SelectFile (Some gapFile)]
                    (boot Core.new typeError None blankDocument)) = Some gapFile)
    by (vm_compute; reflexivity).
  assert (Ha : analyzer
                 (run Core.new sampleCall typeError [SelectFile (Some gapFile)]
                    (boot Core.new typeError None blankDocument)) = Some 0%nat)
    by (vm_compute; reflexivity).
  assert (Hp : pending
                 (run Core.new sampleCall typeError [SelectFile (Some gapFile)]
                    (boot Core.new typeError None blankDocument)) = [])
    by (vm_compute; reflexivity).
  rewrite Hf, Ha, Hp in H.
  destruct H as (H & _); [reflexivity |].
  rewrite run_cons. exact H.
Defined.

(** What the page shows when that read settles: the report of [gapFile]
    under the cap of 1000 values that the box asked for in between. *)
Example click_then_settle :
  match sampleAnalyze (Some 1000%float) gapDocument with
  | Core.Ok analysis =>
      results_innerHTML
        (sampleRun [ClickAnalyze; SelectFile (Some emptyFile); ToggleSampling;
                    ReadSettled 0 None someRun]
           (sampleRun [SelectFile (Some gapFile)] samplePage))
      = resultsHtml someRun analysis
  | Core.Failed _ => False
  end.
Proof. vm_compute. reflexivity. Qed.

(** A page whose package failed to load: the user chooses a file and
    clicks. *)
Example failed_init_click :
  results_innerHTML
    (run Core.new sampleCall typeError [SelectFile (Some gapFile); ClickAnalyze]
       (boot Core.new typeError (Some typeError) blankDocument))
  = []
  /\ analyzeBtn_disabled
       (run Core.new sampleCall typeError [SelectFile (Some gapFile); ClickAnalyze]
          (boot Core.new typeError (Some typeError) blankDocument))
     = false.
Proof. split; vm_compute; reflexivity. Qed.
